(** * Habit tracker: streak engine, analytics, construction and store

    A shallow embedding of the Python sources

      - [app/models/habit.py]    (class [Habit]: [check_off],
                                  [_expected_next_date], [from_form]),
      - [app/analysis/analyse.py] (the pure analytics functions),
      - [app/db/database.py]      (class [Database]: [save_user], [save_habit]),
      - [app/models/user.py]      (class [User]),
      - [app/cli.py]              ([_rehydrate_habit_from_row] and the flows
                                   [add_habit_flow], [check_off_flow],
                                   [view_history_flow], [delete_habit_flow]),

    together with the parts of the Python standard library these call
    ([datetime.date] arithmetic, [calendar.monthrange],
    [datetime.strptime] for the two formats the program uses, [int], [str],
    [max]).

    Conventions.  A Python [int] is a [Z].  A Python [str] is a [string]
    whose characters are the code points 0..255.  A Python exception is a
    value of [exn]; code that may raise returns a [result].  A method that
    mutates [self] is a computation in the state-and-exception monad [M]:
    it maps the object before the call to the object after the call and
    either a return value or the exception that left the method. *)

From Stdlib Require Import ZArith Lia Bool Ascii String List.
From stdpp Require Import base option list strings gmap.

Local Open Scope string_scope.
Local Open Scope list_scope.
Local Open Scope Z_scope.

(** ** Python basics: exceptions and results *)

Inductive exn : Type :=
  | ValueError (msg : string)
  | OverflowError (msg : string)
  | TypeError (msg : string)
  | KeyError (key : string)
  | AttributeError (msg : string)
  | OperationalError (msg : string)
  | IntegrityError (msg : string).

Inductive result (A : Type) : Type :=
  | Ok (a : A)
  | Raise (e : exn).

Arguments Ok {A} a.
Arguments Raise {A} e.

Global Instance exn_eq_dec : EqDecision exn.
Proof. solve_decision. Defined.

Global Instance result_eq_dec {A} `{EqDecision A} : EqDecision (result A).
Proof. solve_decision. Defined.

Definition is_ok {A} (r : result A) : bool :=
  match r with Ok _ => true | Raise _ => false end.

Definition raises {A} (r : result A) : Prop :=
  exists e, r = Raise e.

Definition rbind {A B} (r : result A) (k : A -> result B) : result B :=
  match r with
  | Ok a => k a
  | Raise e => Raise e
  end.

Notation "'try' x <~ c ;; k" := (rbind c (fun x => k))
  (at level 10, x name, c at level 99, k at level 200).

(** The state-and-exception monad of a method on a mutable object of type
    [S]: the object is updated in place, so the state component is the object
    as the call leaves it, whether it returns or raises. *)

Definition M (S A : Type) : Type := S -> S * result A.

Definition mret {S A} (a : A) : M S A := fun s => (s, Ok a).

Definition mraise {S A} (e : exn) : M S A := fun s => (s, Raise e).

Definition mbind {S A B} (c : M S A) (k : A -> M S B) : M S B :=
  fun s =>
    match c s with
    | (s', Ok a) => k a s'
    | (s', Raise e) => (s', Raise e)
    end.

Definition mget {S} : M S S := fun s => (s, Ok s).

Definition mmodify {S} (f : S -> S) : M S unit := fun s => (f s, Ok tt).

Definition mlift {S A} (r : result A) : M S A := fun s => (s, r).

Notation "'do' x <- c ;; k" := (mbind c (fun x => k))
  (at level 10, x name, c at level 99, k at level 200).
Notation "'run' c ;; k" := (mbind c (fun _ => k))
  (at level 10, c at level 99, k at level 200).

(** ** The standard library's calendar: [datetime.date], [calendar] *)

Module datetime.

Definition MINYEAR : Z := 1.
Definition MAXYEAR : Z := 9999.
Definition _MAXORDINAL : Z := 3652059.

(** [_DAYS_IN_MONTH]; index 0 holds the placeholder -1. *)
Definition _DAYS_IN_MONTH : list Z :=
  [-1; 31; 28; 31; 30; 31; 30; 31; 31; 30; 31; 30; 31].

(** [_DAYS_BEFORE_MONTH], as the module's start-up loop fills it. *)
Definition _DAYS_BEFORE_MONTH : list Z :=
  [-1; 0; 31; 59; 90; 120; 151; 181; 212; 243; 273; 304; 334].

(** Indexing the two tables; the callers keep the index within 0..12. *)
Definition table (t : list Z) (i : Z) : Z := nth (Z.to_nat i) t 0.

Definition _is_leap (year : Z) : bool :=
  (year mod 4 =? 0) && (negb (year mod 100 =? 0) || (year mod 400 =? 0)).

Definition _days_before_year (year : Z) : Z :=
  let y := year - 1 in
  y * 365 + y / 4 - y / 100 + y / 400.

Definition _days_in_month (year month : Z) : Z :=
  if (month =? 2) && _is_leap year then 29 else table _DAYS_IN_MONTH month.

Definition _days_before_month (year month : Z) : Z :=
  table _DAYS_BEFORE_MONTH month
  + (if (2 <? month) && _is_leap year then 1 else 0).

Definition _ymd2ord (year month day : Z) : Z :=
  _days_before_year year + _days_before_month year month + day.

Definition _DI400Y : Z := Eval cbv in _days_before_year 401.
Definition _DI100Y : Z := Eval cbv in _days_before_year 101.
Definition _DI4Y : Z := Eval cbv in _days_before_year 5.

(** [_ord2ymd]: [divmod] is floor division, as [Z.div] and [Z.modulo] are
    for a positive divisor; [>> 5] is [Z.shiftr _ 5]. *)
Definition _ord2ymd (n : Z) : Z * Z * Z :=
  let n := n - 1 in
  let n400 := n / _DI400Y in
  let n := n mod _DI400Y in
  let year := n400 * 400 + 1 in
  let n100 := n / _DI100Y in
  let n := n mod _DI100Y in
  let n4 := n / _DI4Y in
  let n := n mod _DI4Y in
  let n1 := n / 365 in
  let n := n mod 365 in
  let year := year + n100 * 100 + n4 * 4 + n1 in
  if (n1 =? 4) || (n100 =? 4) then (year - 1, 12, 31)
  else
    let leapyear := (n1 =? 3) && (negb (n4 =? 24) || (n100 =? 3)) in
    let month := Z.shiftr (n + 50) 5 in
    let preceding :=
      table _DAYS_BEFORE_MONTH month
      + (if (2 <? month) && leapyear then 1 else 0) in
    let '(month, preceding) :=
      if n <? preceding
      then (month - 1,
            preceding - (table _DAYS_IN_MONTH (month - 1)
                         + (if (month - 1 =? 2) && leapyear then 1 else 0)))
      else (month, preceding) in
    (year, month, n - preceding + 1).

(** A [datetime.date]: the three fields the object stores. *)
Record date : Type := mkdate { year : Z; month : Z; day : Z }.

(** What the constructor checks ([_check_date_fields]); every [date] object
    that exists in a Python program satisfies it. *)
Definition check_date_fields (y m d : Z) : bool :=
  (MINYEAR <=? y) && (y <=? MAXYEAR) &&
  (1 <=? m) && (m <=? 12) &&
  (1 <=? d) && (d <=? _days_in_month y m).

Definition valid_date (d : date) : Prop :=
  check_date_fields (year d) (month d) (day d) = true.

(** The constructor [date(year, month, day)]. *)
Definition date_new (y m d : Z) : result date :=
  if negb ((MINYEAR <=? y) && (y <=? MAXYEAR))
  then Raise (ValueError "year must be in 1..9999")
  else if negb ((1 <=? m) && (m <=? 12))
  then Raise (ValueError "month must be in 1..12")
  else if negb ((1 <=? d) && (d <=? _days_in_month y m))
  then Raise (ValueError "day is out of range for month")
  else Ok (mkdate y m d).

Definition toordinal (d : date) : Z := _ymd2ord (year d) (month d) (day d).

Definition fromordinal (n : Z) : result date :=
  let '(y, m, d) := _ord2ymd n in date_new y m d.

(** [date.__add__] with a [timedelta] of [days] whole days. *)
Definition date_add (d : date) (days : Z) : result date :=
  let o := toordinal d + days in
  if (0 <? o) && (o <=? _MAXORDINAL)
  then fromordinal o
  else Raise (OverflowError "date value out of range").

(** Comparison of dates ([date._cmp]): the tuples (year, month, day) in
    lexicographic order. *)
Definition date_eqb (a b : date) : bool :=
  (year a =? year b) && (month a =? month b) && (day a =? day b).

Definition date_ltb (a b : date) : bool :=
  (year a <? year b)
  || ((year a =? year b)
      && ((month a <? month b)
          || ((month a =? month b) && (day a <? day b)))).

Definition date_gtb (a b : date) : bool := date_ltb b a.

(** A [datetime.time] and a [datetime.datetime], without time zone. *)
Record time : Type := mktime { hour : Z; minute : Z; second : Z }.

Record datetime : Type := mkdatetime { dt_date : date; dt_time : time }.

Global Instance date_eq_dec : EqDecision date.
Proof. solve_decision. Defined.

Global Instance time_eq_dec : EqDecision time.
Proof. solve_decision. Defined.

Global Instance datetime_eq_dec : EqDecision datetime.
Proof. solve_decision. Defined.

End datetime.

(** ** [calendar.monthrange] *)

Module calendar.

Import datetime.

Definition mdays : list Z :=
  [0; 31; 28; 31; 30; 31; 30; 31; 31; 30; 31; 30; 31].

Definition isleap (year : Z) : bool :=
  (year mod 4 =? 0) && (negb (year mod 100 =? 0) || (year mod 400 =? 0)).

(** [calendar.weekday]: a year outside [MINYEAR..MAXYEAR] is first mapped
    into the 400-year cycle around 2000. *)
Definition weekday (year month day : Z) : result Z :=
  let year :=
    if negb ((MINYEAR <=? year) && (year <=? MAXYEAR))
    then 2000 + year mod 400 else year in
  try d <~ date_new year month day ;;
  Ok ((toordinal d + 6) mod 7).

Definition monthrange (year month : Z) : result (Z * Z) :=
  if negb ((1 <=? month) && (month <=? 12))
  then Raise (ValueError "bad month number; must be 1-12")
  else
    try day1 <~ weekday year month 1 ;;
    let ndays :=
      table mdays month + (if (month =? 2) && isleap year then 1 else 0) in
    Ok (day1, ndays).

End calendar.

(** ** Built-in functions: [ord], [int], [str] *)

Module builtins.

Definition ord (c : ascii) : Z := Z.of_N (N_of_ascii c).

Definition chr (n : Z) : ascii := ascii_of_N (Z.to_N n).

Definition is_digit (c : ascii) : bool := (48 <=? ord c) && (ord c <=? 57).

Definition digit_value (c : ascii) : Z := ord c - 48.

(** The white space [int] skips around a number: the ASCII white space and,
    among the code points 128..255, the two Unicode spaces. *)
Definition int_isspace (c : ascii) : bool :=
  let n := ord c in
  ((9 <=? n) && (n <=? 13)) || (n =? 32) || (n =? 133) || (n =? 160).

Fixpoint lstrip (s : string) : string :=
  match s with
  | String c r => if int_isspace c then lstrip r else s
  | EmptyString => EmptyString
  end.

Fixpoint string_rev_app (s acc : string) : string :=
  match s with
  | String c r => string_rev_app r (String c acc)
  | EmptyString => acc
  end.

Definition string_rev (s : string) : string := string_rev_app s EmptyString.

Definition strip (s : string) : string :=
  string_rev (lstrip (string_rev (lstrip s))).

(** The digits of a decimal literal: groups of digits separated by single
    underscores.  [seen] tells whether the previous character was a digit;
    the result is the value and the number of digits read. *)
Fixpoint parse_digits (s : string) (acc : Z) (count : Z) (seen : bool)
  : option (Z * Z) :=
  match s with
  | EmptyString => if seen then Some (acc, count) else None
  | String c r =>
      if is_digit c then parse_digits r (10 * acc + digit_value c) (count + 1) true
      else if Ascii.eqb c "_" && seen then parse_digits r acc count false
      else None
  end.

Definition int_max_str_digits : Z := 4300.

(** [int(s)] for a string [s], base 10. *)
Definition int_of_str (s : string) : result Z :=
  let bad := Raise (ValueError "invalid literal for int() with base 10") in
  let s := strip s in
  let '(negative, body) :=
    match s with
    | String "-" r => (true, r)
    | String "+" r => (false, r)
    | _ => (false, s)
    end in
  match parse_digits body 0 0 false with
  | Some (v, count) =>
      if int_max_str_digits <? count
      then Raise (ValueError "Exceeds the limit (4300 digits) for integer string conversion")
      else Ok (if negative then - v else v)
  | None => bad
  end.

(** Decimal digits of a non-negative number, most significant first;
    [fuel] bounds the number of digits. *)
Fixpoint digits_acc (fuel : nat) (n : Z) (acc : string) : string :=
  match fuel with
  | O => acc
  | S fuel =>
      let acc := String (chr (48 + n mod 10)) acc in
      if n / 10 =? 0 then acc else digits_acc fuel (n / 10) acc
  end.

(** [str(n)] for an [int]. *)
Definition str_of_int (n : Z) : string :=
  let a := Z.abs n in
  let body := digits_acc (S (Z.to_nat (Z.log2 a))) a EmptyString in
  if n <? 0 then String "-" body else body.

(** ["%0wd" % n] for [0 <= n]: at least [w] digits, zero padded. *)
Fixpoint zeros (k : nat) : string :=
  match k with
  | O => EmptyString
  | S k => String "0" (zeros k)
  end.

Definition format_0d (w : nat) (n : Z) : string :=
  let s := str_of_int n in
  String.append (zeros (w - String.length s)) s.

(** The Python values a row of the store holds: [None], an [int], a
    [str]. *)
Inductive pyval : Type :=
  | PNone
  | PInt (n : Z)
  | PStr (s : string).

Global Instance pyval_eq_dec : EqDecision pyval.
Proof. solve_decision. Defined.

(** [int(v)]. *)
Definition py_int (v : pyval) : result Z :=
  match v with
  | PInt n => Ok n
  | PStr s => int_of_str s
  | PNone =>
      Raise (TypeError "int() argument must be a string, a bytes-like object or a real number, not 'NoneType'")
  end.

(** [str(v)]. *)
Definition py_str (v : pyval) : string :=
  match v with
  | PStr s => s
  | PInt n => str_of_int n
  | PNone => "None"
  end.

(** [", ".join]-style [sep.join(parts)]. *)
Fixpoint join (sep : string) (parts : list string) : string :=
  match parts with
  | [] => EmptyString
  | [x] => x
  | x :: rest => String.append x (String.append sep (join sep rest))
  end.

(** [max(x :: xs, key=key)]: the first item is the candidate, a later item
    replaces it only when its key is strictly greater. *)
Definition max_by {A} (key : A -> Z) (x : A) (xs : list A) : A :=
  fold_left (fun best v => if key best <? key v then v else best) xs x.

End builtins.

(** ** [datetime.strptime] for the formats ["%Y-%m-%d"] and ["%H:%M"]

    [_strptime] turns the format into a regular expression with one named
    group per directive, matches it at the start of the data string, refuses
    data left over after the match, converts the groups with [int] and builds
    the [datetime].  The regular expressions of the directives are the ones of
    [TimeRE]; matching tries the alternatives of a group in order and
    backtracks, as [re.match] does. *)

Module _strptime.

Import datetime builtins.

(** One character of a directive's regular expression. *)
Inductive chclass : Type :=
  | Lit (c : ascii)            (* the character itself *)
  | Range (lo hi : ascii)      (* [lo-hi] *)
  | Digit.                     (* \d *)

Definition chclass_match (k : chclass) (c : ascii) : bool :=
  match k with
  | Lit c' => Ascii.eqb c c'
  | Range lo hi => (ord lo <=? ord c) && (ord c <=? ord hi)
  | Digit => is_digit c
  end.

(** An item of the compiled format: a named group with its alternatives,
    or a literal character of the format. *)
Inductive item : Type :=
  | Group (name : string) (alts : list (list chclass))
  | Char (c : ascii).

(** One alternative: a sequence of character classes.  Gives the matched
    text and the rest of the input. *)
Fixpoint match_alt (alt : list chclass) (s : string) : option (string * string) :=
  match alt with
  | [] => Some (EmptyString, s)
  | k :: alt' =>
      match s with
      | String c r =>
          if chclass_match k c
          then match match_alt alt' r with
               | Some (m, rest) => Some (String c m, rest)
               | None => None
               end
          else None
      | EmptyString => None
      end
  end.

(** All the ways a list of items matches a prefix of [s], in the order in
    which a backtracking matcher finds them: the groups found and the
    unmatched rest. *)
Fixpoint match_items (items : list item) (s : string)
  : list (list (string * string) * string) :=
  match items with
  | [] => [([], s)]
  | Char c :: items' =>
      match s with
      | String c' r => if Ascii.eqb c' c then match_items items' r else []
      | EmptyString => []
      end
  | Group name alts :: items' =>
      flat_map
        (fun alt =>
           match match_alt alt s with
           | Some (m, rest) =>
               map (fun '(found, rest') => ((name, m) :: found, rest'))
                   (match_items items' rest)
           | None => []
           end)
        alts
  end.

(** [re.match]: the first match, if any. *)
Definition re_match (items : list item) (s : string)
  : option (list (string * string) * string) :=
  head (match_items items s).

Definition re_Y : list (list chclass) := [[Digit; Digit; Digit; Digit]].
Definition re_m : list (list chclass) :=
  [[Lit "1"; Range "0" "2"]; [Lit "0"; Range "1" "9"]; [Range "1" "9"]].
Definition re_d : list (list chclass) :=
  [[Lit "3"; Range "0" "1"]; [Range "1" "2"; Digit]; [Lit "0"; Range "1" "9"];
   [Range "1" "9"]; [Lit " "; Range "1" "9"]].
Definition re_H : list (list chclass) :=
  [[Lit "2"; Range "0" "3"]; [Range "0" "1"; Digit]; [Digit]].
Definition re_M : list (list chclass) :=
  [[Range "0" "5"; Digit]; [Digit]].

(** The compiled formats. *)
Inductive format : Type :=
  | fmt_Ymd     (* "%Y-%m-%d" *)
  | fmt_HM.     (* "%H:%M" *)

Definition pattern (f : format) : list item :=
  match f with
  | fmt_Ymd => [Group "Y" re_Y; Char "-"; Group "m" re_m; Char "-"; Group "d" re_d]
  | fmt_HM => [Group "H" re_H; Char ":"; Group "M" re_M]
  end.

(** The fields [_strptime] collects while it walks over the groups found. *)
Record fields : Type := mkfields {
  f_year : option Z; f_month : Z; f_day : Z; f_hour : Z; f_minute : Z
}.

Definition fields0 : fields :=
  {| f_year := None; f_month := 1; f_day := 1; f_hour := 0; f_minute := 0 |}.

Definition convert_group (acc : fields) (g : string * string) : result fields :=
  let '(key, text) := g in
  try v <~ int_of_str text ;;
  Ok (if String.eqb key "Y" then
        {| f_year := Some v; f_month := f_month acc; f_day := f_day acc;
           f_hour := f_hour acc; f_minute := f_minute acc |}
      else if String.eqb key "m" then
        {| f_year := f_year acc; f_month := v; f_day := f_day acc;
           f_hour := f_hour acc; f_minute := f_minute acc |}
      else if String.eqb key "d" then
        {| f_year := f_year acc; f_month := f_month acc; f_day := v;
           f_hour := f_hour acc; f_minute := f_minute acc |}
      else if String.eqb key "H" then
        {| f_year := f_year acc; f_month := f_month acc; f_day := f_day acc;
           f_hour := v; f_minute := f_minute acc |}
      else if String.eqb key "M" then
        {| f_year := f_year acc; f_month := f_month acc; f_day := f_day acc;
           f_hour := f_hour acc; f_minute := v |}
      else acc).

Fixpoint convert_groups (acc : fields) (found : list (string * string))
  : result fields :=
  match found with
  | [] => Ok acc
  | g :: found' =>
      try acc' <~ convert_group acc g ;;
      convert_groups acc' found'
  end.

(** [datetime.strptime(data_string, format)]. *)
Definition strptime (data_string : string) (f : format) : result datetime :=
  match re_match (pattern f) data_string with
  | None => Raise (ValueError "time data does not match format")
  | Some (found_dict, rest) =>
      if negb (String.eqb rest EmptyString)
      then Raise (ValueError "unconverted data remains")
      else
        try fs <~ convert_groups fields0 found_dict ;;
        (* a format without a year means 1900 *)
        let year := match f_year fs with Some y => y | None => 1900 end in
        try d <~ date_new year (f_month fs) (f_day fs) ;;
        Ok (mkdatetime d (mktime (f_hour fs) (f_minute fs) 0))
  end.

(** [date.isoformat()] and [time.isoformat(timespec="minutes")]. *)
Definition date_isoformat (d : date) : string :=
  String.append (format_0d 4 (year d))
    (String "-" (String.append (format_0d 2 (month d))
       (String "-" (format_0d 2 (day d))))).

Definition time_isoformat_minutes (t : time) : string :=
  String.append (format_0d 2 (hour t)) (String ":" (format_0d 2 (minute t))).

End _strptime.

(** ** [app/models/habit.py] *)

Module habit.

Import datetime builtins.

(** The dataclass [Habit].  [periodicity] is annotated with a [Literal]
    type, which Python does not enforce: the field holds any string. *)
Record Habit : Type := mkHabit {
  name : string;
  description : string;
  goal : string;
  start_date : datetime;
  periodicity : string;
  reminder : option time;
  completed : bool;
  streak : Z;
  last_completed_date : option date
}.

(** Assignments to the three fields [check_off] writes. *)
Definition set_streak (v : Z) (h : Habit) : Habit :=
  {| name := name h; description := description h; goal := goal h;
     start_date := start_date h; periodicity := periodicity h;
     reminder := reminder h; completed := completed h;
     streak := v; last_completed_date := last_completed_date h |}.

Definition set_completed (v : bool) (h : Habit) : Habit :=
  {| name := name h; description := description h; goal := goal h;
     start_date := start_date h; periodicity := periodicity h;
     reminder := reminder h; completed := v;
     streak := streak h; last_completed_date := last_completed_date h |}.

Definition set_last_completed_date (v : option date) (h : Habit) : Habit :=
  {| name := name h; description := description h; goal := goal h;
     start_date := start_date h; periodicity := periodicity h;
     reminder := reminder h; completed := completed h;
     streak := streak h; last_completed_date := v |}.

(** [Habit._expected_next_date]: reads [self], writes nothing. *)
Definition _expected_next_date : M Habit (option date) :=
  do self <- mget ;;
  match last_completed_date self with
  | None => mret None
  | Some last =>
      if String.eqb (periodicity self) "daily" then
        (* timedelta(days=1) *)
        do d <- mlift (date_add last 1) ;; mret (Some d)
      else if String.eqb (periodicity self) "weekly" then
        (* timedelta(weeks=1) is seven days *)
        do d <- mlift (date_add last 7) ;; mret (Some d)
      else
        let year := year last in
        let month := month last + 1 in
        let '(year, month) :=
          if month =? 13 then (year + 1, 1) else (year, month) in
        do mr <- mlift (calendar.monthrange year month) ;;
        let last_day := snd mr in
        let day := Z.min (day last) last_day in
        do d <- mlift (date_new year month day) ;; mret (Some d)
  end.

(** [Habit.check_off(on_date)].  [today] is what [date.today()] returns;
    a [date] is always true in a Boolean context, so [on_date or
    date.today()] is [on_date] unless that is [None]. *)
Definition check_off (on_date : option date) (today : date) : M Habit unit :=
  let on_date := match on_date with Some d => d | None => today end in
  do self <- mget ;;
  run (match last_completed_date self with
       | None => mmodify (set_streak 1)
       | Some _ =>
           do expected <- _expected_next_date ;;
           match expected with
           | Some e =>
               if date_eqb on_date e then
                 mmodify (fun h => set_streak (streak h + 1) h)
               else if date_gtb on_date e then
                 mmodify (set_streak 1)
               else mret tt
           | None => mret tt
           end
       end) ;;
  run mmodify (set_completed true) ;;
  mmodify (set_last_completed_date (Some on_date)).

(** The set literal of [from_form]. *)
Definition periodicities : gset string :=
  {[ "daily"; "weekly"; "monthly" ]}.

(** [Habit.from_form], a class method: builds a new object. *)
Definition from_form (name description goal start_date : string)
    (periodicity : string) (reminder : option string) : result Habit :=
  try start_dt <~ _strptime.strptime start_date _strptime.fmt_Ymd ;;
  try reminder_time <~
    (match reminder with
     | Some r =>
         (* [if reminder:] an empty string is false *)
         if negb (String.eqb r EmptyString) then
           try t <~ _strptime.strptime r _strptime.fmt_HM ;;
           Ok (Some (dt_time t))
         else Ok None
     | None => Ok None
     end) ;;
  if negb (bool_decide (periodicity ∈ periodicities)) then
    Raise (ValueError "Periodicity must be one of: daily, weekly, monthly.")
  else
    Ok {| name := name; description := description; goal := goal;
          start_date := start_dt; periodicity := periodicity;
          reminder := reminder_time;
          completed := false; streak := 0; last_completed_date := None |}.

End habit.

(** ** [app/analysis/analyse.py] *)

Module analyse.

Import builtins.

(** [Row = Mapping[str, Any]]: a dictionary from column names to values. *)
Abbreviation Row := (gmap string pyval).

(** [row[key]]. *)
Definition subscript (row : Row) (key : string) : result pyval :=
  match row !! key with
  | Some v => Ok v
  | None => Raise (KeyError key)
  end.

(** [row.get(key, dflt)]; [row.get(key)] is [get row key PNone]. *)
Definition get (row : Row) (key : string) (dflt : pyval) : pyval :=
  match row !! key with
  | Some v => v
  | None => dflt
  end.

(** The frozen dataclass [HabitView].  The fields read with [row.get] are
    stored as they come, whatever their type. *)
Record HabitView : Type := mkHabitView {
  id : Z;
  name : string;
  periodicity : pyval;
  streak : Z;
  last_completed_date : pyval
}.

Definition _as_view (row : Row) : result HabitView :=
  try id_v <~ subscript row "id" ;;
  try id_n <~ py_int id_v ;;
  try name_v <~ subscript row "name" ;;
  try streak_n <~ py_int (get row "streak" (PInt 0)) ;;
  Ok {| id := id_n;
        name := py_str name_v;
        periodicity := get row "periodicity" (PStr "daily");
        streak := streak_n;
        last_completed_date := get row "last_completed_date" PNone |}.

(** [list(map(f, rows))] for an [f] that may raise: the first exception
    ends the loop. *)
Fixpoint list_map {A B} (f : A -> result B) (l : list A) : result (list B) :=
  match l with
  | [] => Ok []
  | x :: l' =>
      try y <~ f x ;;
      try ys <~ list_map f l' ;;
      Ok (y :: ys)
  end.

Definition list_all_habits (rows : list Row) : result (list HabitView) :=
  list_map _as_view rows.

Definition list_by_periodicity (rows : list Row) (periodicity : pyval)
  : result (list HabitView) :=
  list_map _as_view
    (List.filter (fun r => bool_decide (get r "periodicity" PNone = periodicity)) rows).

Definition longest_run_streak (rows : list Row) : result (option Z * Z) :=
  try views <~ list_all_habits rows ;;
  match views with
  | [] => Ok (None, 0)
  | v :: vs =>
      let top := max_by streak v vs in
      Ok (Some (id top), streak top)
  end.

(** [next((r for r in rows if int(r["id"]) == habit_id), None)]. *)
Fixpoint first_with_id (rows : list Row) (habit_id : Z) : result (option Row) :=
  match rows with
  | [] => Ok None
  | r :: rows' =>
      try id_v <~ subscript r "id" ;;
      try id_n <~ py_int id_v ;;
      if id_n =? habit_id then Ok (Some r) else first_with_id rows' habit_id
  end.

Definition longest_run_streak_for (rows : list Row) (habit_id : Z) : result Z :=
  try match_ <~ first_with_id rows habit_id ;;
  match match_ with
  | Some r =>
      (* [if match]: a dictionary is true when it is not empty *)
      if bool_decide (r ≠ ∅) then py_int (get r "streak" (PInt 0)) else Ok 0
  | None => Ok 0
  end.

End analyse.

(** ** [app/db/database.py] *)

Module database.

Import builtins.

(** The part of [sqlite3] the class uses.  A connection is a mutable
    object; [execute sql params] runs one statement on a fresh cursor and
    returns that cursor's [lastrowid]; [commit] ends the transaction. *)
Class Sqlite3 (Connection : Type) : Type := {
  execute : string -> list pyval -> M Connection pyval;
  commit : M Connection unit
}.

Section Database.

Context {Connection : Type} `{Sqlite3 Connection}.

Record Database : Type := mkDatabase {
  path : string;
  conn : option Connection
}.

(** A method call on [self.conn]: an [AttributeError] while [self.conn] is
    still [None], otherwise the call, whose effect stays in [self.conn]. *)
Definition on_conn {A} (c : M Connection A) : M Database A :=
  fun self =>
    match conn self with
    | None =>
        (self, Raise (AttributeError "'NoneType' object has no attribute 'cursor'"))
    | Some cn =>
        let '(cn', r) := c cn in
        ({| path := path self; conn := Some cn' |}, r)
    end.

(** [Database.save_user]. *)
Definition save_user (name email : string) : M Database pyval :=
  do lastrowid <- on_conn
       (execute "INSERT INTO users(name, email) VALUES (?, ?)"
                [PStr name; PStr email]) ;;
  run on_conn commit ;;
  do n <- mlift (py_int lastrowid) ;;
  mret (PInt n).

(** [Database.save_habit], called with keyword arguments only: [fields] is
    the dictionary of these arguments, in the order they were passed.  The body ends after
    the commit, so the call returns [None]. *)
Definition save_habit (fields : list (string * pyval)) : M Database pyval :=
  let keys := join "," (map fst fields) in
  let placeholders := join "," (map (fun _ => "?") fields) in
  let values := map snd fields in
  do lastrowid <- on_conn
       (execute
          (String.append "INSERT INTO habits("
             (String.append keys
                (String.append ") VALUES ("
                   (String.append placeholders ")"))))
          values) ;;
  run on_conn commit ;;
  mret PNone.

End Database.

Arguments Database : clear implicits.

(** A connection that records the statements it is given and numbers the
    rows it inserts from 1: enough to run the two methods. *)
Record Recorder : Type := mkRecorder {
  statements : list (string * list pyval);
  rows_inserted : Z
}.

Global Instance recorder_sqlite3 : Sqlite3 Recorder := {
  execute sql params := fun c =>
    ({| statements := statements c ++ [(sql, params)];
        rows_inserted := rows_inserted c + 1 |},
     Ok (PInt (rows_inserted c + 1)));
  commit := mret tt
}.

End database.

(** ** [app/models/user.py] *)

Module user.

Import builtins.

(** The dataclass [User]; [user_id] is [None] until the store assigns
    one. *)
Record User : Type := mkUser {
  name : string;
  email : string;
  user_id : pyval
}.

End user.

(** ** [app/cli.py]

    A flow talks to the terminal and to the store.  What it prints is kept
    as a list, in order; what the user types is given to the flow as
    arguments, one for each call of [input], and [date.today()] and
    [datetime.now()] likewise.  The methods of [Database] that the flows
    call and that the sources at hand do not hold are the fields of the
    class [Store]: the flows are modelled for any implementation of
    them. *)

Module cli.

Import datetime builtins _strptime habit database.

(** [c.isspace()] for a character of a [str]: the white space that
    [str.strip()] removes. *)
Definition str_isspace (c : ascii) : bool :=
  let n := ord c in
  ((9 <=? n) && (n <=? 13)) || ((28 <=? n) && (n <=? 32))
  || (n =? 133) || (n =? 160).

Fixpoint str_lstrip (s : string) : string :=
  match s with
  | String c r => if str_isspace c then str_lstrip r else s
  | EmptyString => EmptyString
  end.

(** [s.strip()]. *)
Definition str_strip (s : string) : string :=
  string_rev (str_lstrip (string_rev (str_lstrip s))).

(** [bool(v)]. *)
Definition truthy (v : pyval) : bool :=
  match v with
  | PNone => false
  | PInt n => negb (n =? 0)
  | PStr s => negb (String.eqb s EmptyString)
  end.

(** [l[i]] for a list: a negative index counts from the end; [None] stands
    for the [IndexError] of an index out of range. *)
Definition list_index {A} (l : list A) (i : Z) : option A :=
  let n := Z.of_nat (List.length l) in
  if (0 <=? i) && (i <? n) then l !! Z.to_nat i
  else if (- n <=? i) && (i <? 0) then l !! Z.to_nat (n + i)
  else None.

(** What reaches the terminal: the text of a [print], the prompt of an
    [input], or the line [print(f"Error: {exc}")] writes for an
    exception. *)
Inductive printed : Type :=
  | Line (s : string)
  | Prompt (s : string)
  | ErrorLine (e : exn).

(** The methods of [Database] called by the flows whose code is not at
    hand. *)
Class Store (DB : Type) : Type := {
  fetch_habits_by_user : pyval -> M DB (list analyse.Row);
  update_habit_progress : pyval -> Z -> Z -> string -> M DB unit;
  save_completion : pyval -> string -> M DB unit;
  fetch_completions : pyval -> Z -> M DB (list analyse.Row);
  delete_habit : pyval -> M DB unit
}.

(** [Habit.from_form] on arguments that need not be strings, as
    [_rehydrate_habit_from_row] passes them: [strptime] raises a
    [TypeError] for a date or a reminder that is not a [str], a reminder
    that is false is no reminder, and a periodicity that is not a [str] is
    not in the set. *)
Definition from_form_any (name description goal : string)
    (start_date periodicity reminder : pyval) : result Habit :=
  try s <~ (match start_date with
            | PStr s => Ok s
            | _ => Raise (TypeError "strptime() argument 1 must be str")
            end) ;;
  try start_dt <~ strptime s fmt_Ymd ;;
  try r <~ (match reminder with
            | PStr t => Ok (Some t)
            | PNone => Ok None
            | PInt n =>
                if n =? 0 then Ok None
                else Raise (TypeError "strptime() argument 1 must be str")
            end) ;;
  match periodicity with
  | PStr p => from_form name description goal s p r
  | _ =>
      try h <~ from_form name description goal s "daily" r ;;
      Raise (ValueError "Periodicity must be one of: daily, weekly, monthly.")
  end.

(** The columns the dataclass keeps as they are.  A [Habit] of this model
    holds strings there: a row with another value in one of them is outside
    the model. *)
Definition text_columns : list string := ["name"; "description"; "goal"].

Definition in_model (habit_row : analyse.Row) : bool :=
  forallb (fun k => match habit_row !! k with
                    | Some (PStr _) | None => true
                    | Some _ => false
                    end)
          text_columns.

Definition the_text (v : pyval) : string :=
  match v with PStr s => s | _ => EmptyString end.

Section Cli.

Context {Connection : Type} `{Sqlite3 Connection}
        `{Store (Database Connection)}.

(** [datetime.fromisoformat] on a [str]. *)
Context (fromisoformat : string -> result datetime).

(** [_rehydrate_habit_from_row]; the result is [None] for a row outside
    the model. *)
Definition _rehydrate_habit_from_row (habit_row : analyse.Row)
  : option (result Habit) :=
  if negb (in_model habit_row) then None
  else Some (
    try name <~ analyse.subscript habit_row "name" ;;
    try description <~ analyse.subscript habit_row "description" ;;
    try goal <~ analyse.subscript habit_row "goal" ;;
    try start_date <~ analyse.subscript habit_row "start_date" ;;
    let periodicity := analyse.get habit_row "periodicity" (PStr "daily") in
    (* habit_row["reminder"] if habit_row.get("reminder") else None *)
    let reminder :=
      if truthy (analyse.get habit_row "reminder" PNone)
      then analyse.get habit_row "reminder" PNone else PNone in
    try habit <~ from_form_any (the_text name) (the_text description)
                   (the_text goal) start_date periodicity reminder ;;
    try streak <~ py_int (analyse.get habit_row "streak" (PInt 0)) ;;
    let habit := set_streak streak habit in
    let habit :=
      set_completed (truthy (analyse.get habit_row "completed" (PInt 0))) habit in
    let last := analyse.get habit_row "last_completed_date" PNone in
    try last_date <~
      (if truthy last then
         match last with
         | PStr s => try dt <~ fromisoformat s ;; Ok (Some (dt_date dt))
         | _ => Raise (TypeError "fromisoformat: argument must be str")
         end
       else Ok None) ;;
    Ok (set_last_completed_date last_date habit)).

(** The terminal and the store, as a flow changes them. *)
Definition Terminal : Type := (Database Connection * list printed)%type.

Definition show (p : printed) : M Terminal unit :=
  mmodify (fun t => (fst t, snd t ++ [p])).

(** [print(s)]. *)
Definition print (s : string) : M Terminal unit := show (Line s).

(** A method call on [db]. *)
Definition on_db {A} (c : M (Database Connection) A) : M Terminal A :=
  fun t => let '(db, r) := c (fst t) in ((db, snd t), r).

(** [_input(prompt)] when the user types the line [typed]. *)
Definition _input (prompt typed : string) : M Terminal string :=
  run show (Prompt prompt) ;;
  mret (str_strip typed).

(** The keyword arguments the flows pass to [save_habit] for a new
    habit. *)
Definition save_habit_arguments (u : user.User) (habit : Habit)
  : list (string * pyval) :=
  [ ("user_id", user.user_id u);
    ("name", PStr (name habit));
    ("description", PStr (description habit));
    ("goal", PStr (goal habit));
    ("start_date", PStr (date_isoformat (dt_date (start_date habit))));
    ("periodicity", PStr (periodicity habit));
    (* a [time] is true, whatever its value *)
    ("reminder", match reminder habit with
                 | Some t => PStr (time_isoformat_minutes t)
                 | None => PNone
                 end);
    ("completed", PInt 0);
    ("streak", PInt 0);
    ("last_completed_date", PNone) ].

(** [add_habit_flow]; the six arguments after the user are the lines
    typed. *)
Definition add_habit_flow (u : user.User)
    (typed_name typed_description typed_goal typed_start_date
     typed_periodicity typed_reminder : string) : M Terminal unit :=
  run print (String (chr 10) "Add a new habit:") ;;
  do name <- _input "Habit name: " typed_name ;;
  do description <- _input "Description: " typed_description ;;
  do goal <- _input "Goal: " typed_goal ;;
  do start_date <- _input "Start date (YYYY-MM-DD): " typed_start_date ;;
  do periodicity <-
    _input "Periodicity (daily/weekly/monthly) [daily]: " typed_periodicity ;;
  let periodicity :=
    if String.eqb periodicity EmptyString then "daily" else periodicity in
  do reminder <- _input "Reminder time (HH:MM, optional): " typed_reminder ;;
  let reminder :=
    if String.eqb reminder EmptyString then None else Some reminder in
  match from_form name description goal start_date periodicity reminder with
  | Raise (ValueError msg) =>
      (* except ValueError as exc *)
      show (ErrorLine (ValueError msg))
  | Raise e => mraise e
  | Ok habit =>
      do habit_id <- on_db (save_habit (save_habit_arguments u habit)) ;;
      print (String.append "Saved habit '"
               (String.append (habit.name habit)
                  (String.append "' (id="
                     (String.append (py_str habit_id) ")."))))
  end.

(** The loop over [enumerate(rows, start=1)] that prints the habits to
    choose from; [idx] is the number of the first row. *)
Fixpoint list_rows (idx : Z) (rows : list analyse.Row) : M Terminal unit :=
  match rows with
  | [] => mret tt
  | r :: rows' =>
      do name <- mlift (analyse.subscript r "name") ;;
      do periodicity <- mlift (analyse.subscript r "periodicity") ;;
      do streak <- mlift (analyse.subscript r "streak") ;;
      run print (String.append (str_of_int idx)
                   (String.append ". "
                      (String.append (py_str name)
                         (String.append " ("
                            (String.append (py_str periodicity)
                               (String.append ", streak="
                                  (String.append (py_str streak) ")"))))))) ;;
      list_rows (idx + 1) rows'
  end.

(** [check_off_flow]; [typed] is the line typed, [today] and [now_iso] are
    [date.today()] and [datetime.now().isoformat(timespec="seconds")].
    The flow returns [None] when the chosen row is outside the model. *)
Definition check_off_flow (u : user.User) (typed : string) (today : date)
    (now_iso : string) : M Terminal (option unit) :=
  do rows <- on_db (fetch_habits_by_user (user.user_id u)) ;;
  match rows with
  | [] => run print "You have no habits to check off." ;; mret (Some tt)
  | _ =>
      run print (String (chr 10) "Which habit did you complete?") ;;
      run list_rows 1 rows ;;
      do text <- _input "> " typed ;;
      match int_of_str text with
      | Raise (ValueError _) => run print "Invalid selection." ;; mret (Some tt)
      | Raise e => mraise e
      | Ok n =>
          match list_index rows (n - 1) with
          | None => run print "Invalid selection." ;; mret (Some tt)
          | Some row =>
              match _rehydrate_habit_from_row row with
              | None => mret None
              | Some rehydrated =>
                  do habit <- mlift rehydrated ;;
                  let '(habit, checked) := check_off (Some today) today habit in
                  run mlift checked ;;
                  do id <- mlift (analyse.subscript row "id") ;;
                  do last <- mlift
                    (match last_completed_date habit with
                     | Some d => Ok (date_isoformat d)
                     | None =>
                         Raise (AttributeError
                                  "'NoneType' object has no attribute 'isoformat'")
                     end) ;;
                  run on_db (update_habit_progress id
                               (if completed habit then 1 else 0)
                               (streak habit) last) ;;
                  do id <- mlift (analyse.subscript row "id") ;;
                  run on_db (save_completion id now_iso) ;;
                  run print (String.append "Checked off '"
                               (String.append (name habit)
                                  (String.append "'. Current streak: "
                                     (str_of_int (streak habit))))) ;;
                  run print (String.append "Completion logged at " now_iso) ;;
                  mret (Some tt)
              end
          end
      end
  end.

(** The loops of [view_history_flow]: the habits to choose from, and the
    completions of the habit chosen. *)
Fixpoint list_names (idx : Z) (rows : list analyse.Row) : M Terminal unit :=
  match rows with
  | [] => mret tt
  | r :: rows' =>
      do name <- mlift (analyse.subscript r "name") ;;
      run print (String.append (str_of_int idx)
                   (String.append ". " (py_str name))) ;;
      list_names (idx + 1) rows'
  end.

Fixpoint list_history (history : list analyse.Row) : M Terminal unit :=
  match history with
  | [] => mret tt
  | h :: history' =>
      do completed_at <- mlift (analyse.subscript h "completed_at") ;;
      run print (String.append "  - " (py_str completed_at)) ;;
      list_history history'
  end.

(** [view_history_flow]; [typed] is the line typed. *)
Definition view_history_flow (u : user.User) (typed : string)
  : M Terminal unit :=
  do rows <- on_db (fetch_habits_by_user (user.user_id u)) ;;
  match rows with
  | [] => print "No habits yet."
  | _ =>
      run list_names 1 rows ;;
      do text <- _input "> " typed ;;
      match int_of_str text with
      | Raise (ValueError _) => print "Invalid selection."
      | Raise e => mraise e
      | Ok n =>
          match list_index rows (n - 1) with
          | None => print "Invalid selection."
          | Some row =>
              do id <- mlift (analyse.subscript row "id") ;;
              do history <- on_db (fetch_completions id 20) ;;
              match history with
              | [] => print "No completions logged yet."
              | _ =>
                  do name <- mlift (analyse.subscript row "name") ;;
                  run print (String.append "Completion history for '"
                               (String.append (py_str name) "':")) ;;
                  list_history history
              end
          end
      end
  end.

(** [delete_habit_flow]; [typed] is the line typed. *)
Definition delete_habit_flow (u : user.User) (typed : string)
  : M Terminal unit :=
  do rows <- on_db (fetch_habits_by_user (user.user_id u)) ;;
  match rows with
  | [] => print "You have no habits to delete."
  | _ =>
      run list_rows 1 rows ;;
      do text <- _input "Which habit do you want to delete? " typed ;;
      match int_of_str text with
      | Raise (ValueError _) => print "Invalid selection."
      | Raise e => mraise e
      | Ok n =>
          match list_index rows (n - 1) with
          | None => print "Invalid selection."
          | Some row =>
              do id <- mlift (analyse.subscript row "id") ;;
              run on_db (delete_habit id) ;;
              do name <- mlift (analyse.subscript row "name") ;;
              print (String.append "Deleted habit '"
                       (String.append (py_str name) "'."))
          end
      end
  end.

End Cli.

End cli.

(** * Definitions for the statements

    What follows is not in the sources: the predicates and functions the
    theorems are stated with, and the sample data of their instances. *)

Module CalendarSpec.

Import datetime.

(** The number of days of the year [y]. *)
Definition days_in_year (y : Z) : Z := if _is_leap y then 366 else 365.

(** The month and the day [_ord2ymd] finds for the day number [n] (from 0)
    inside a year. *)
Definition month_day (leapyear : bool) (n : Z) : Z * Z :=
  let month := Z.shiftr (n + 50) 5 in
  let preceding :=
    table _DAYS_BEFORE_MONTH month
    + (if (2 <? month) && leapyear then 1 else 0) in
  let '(month, preceding) :=
    if n <? preceding
    then (month - 1,
          preceding - (table _DAYS_IN_MONTH (month - 1)
                       + (if (month - 1 =? 2) && leapyear then 1 else 0)))
    else (month, preceding) in
  (month, n - preceding + 1).

(** [month_day] is right for [n]: a month and a day of that month that lie
    [n] days after 1 January. *)
Definition month_day_ok (leapyear : bool) (n : Z) : bool :=
  let '(m, d) := month_day leapyear n in
  (1 <=? m) && (m <=? 12) && (1 <=? d)
  && (d <=? (if (m =? 2) && leapyear then 29 else table _DAYS_IN_MONTH m))
  && (table _DAYS_BEFORE_MONTH m + (if (2 <? m) && leapyear then 1 else 0) + d
      =? n + 1).

(** A check on every number below [k], run as a computation. *)
Definition all_below (P : Z -> bool) (k : Z) : bool :=
  forallb P (map Z.of_nat (seq 0 (Z.to_nat k))).

(** The calendar's successor: the day after [d]. *)
Definition next_day (d : date) : date :=
  if day d <? _days_in_month (year d) (month d)
  then mkdate (year d) (month d) (day d + 1)
  else if month d <? 12
  then mkdate (year d) (month d + 1) 1
  else mkdate (year d + 1) 1 1.

(** The year in which the month after the month of [d] lies. *)
Definition next_month_year (d : date) : Z :=
  if month d =? 12 then year d + 1 else year d.

(** The month after the month of [d]. *)
Definition next_month (d : date) : Z :=
  if month d =? 12 then 1 else month d + 1.

(** The same day of the following month, clamped to the length of that
    month. *)
Definition same_day_next_month (d : date) : date :=
  mkdate (next_month_year d) (next_month d)
         (Z.min (day d) (_days_in_month (next_month_year d) (next_month d))).

(** [a > b] on dates, as a proposition. *)
Definition date_gt (a b : date) : Prop := date_gtb a b = true.

(** [a < b] on dates, as a proposition. *)
Definition date_lt (a b : date) : Prop := date_ltb a b = true.

End CalendarSpec.

Module HabitSpec.

Import datetime builtins _strptime habit CalendarSpec.

(** What [_expected_next_date] returns, as a function of the object. *)
Definition expected_value (h : Habit) : result (option date) :=
  match last_completed_date h with
  | None => Ok None
  | Some last =>
      if String.eqb (periodicity h) "daily" then
        try d <~ date_add last 1 ;; Ok (Some d)
      else if String.eqb (periodicity h) "weekly" then
        try d <~ date_add last 7 ;; Ok (Some d)
      else
        let year := if month last + 1 =? 13 then year last + 1 else year last in
        let month := if month last + 1 =? 13 then 1 else month last + 1 in
        try mr <~ calendar.monthrange year month ;;
        try d <~ date_new year month (Z.min (day last) (snd mr)) ;;
        Ok (Some d)
  end.

(** The object after a first completion, and after a later one that moves
    the streak to [s]. *)
Definition completed_on (on_date : date) (s : Z) (h : Habit) : Habit :=
  set_last_completed_date (Some on_date) (set_completed true (set_streak s h)).

(** The output guarantee of [check_off(on_date)], about the state [h'] the
    call leaves. *)
Definition check_off_guarantee (on_date : date) (h' : Habit) : Prop :=
  1 <= streak h' /\ completed h' = true
  /\ last_completed_date h' = Some on_date.

(** The data model's invariant. *)
Definition streak_invariant (h : Habit) : Prop :=
  streak h = 0 <-> last_completed_date h = None.

(** The completion on [on_date] comes after the expected date: a period was
    missed. *)
Definition missed_period (h : Habit) (on_date : date) : Prop :=
  exists last expected,
    last_completed_date h = Some last
    /\ _expected_next_date h = (h, Ok (Some expected))
    /\ date_gt on_date expected.

(** The habits a program gets from [from_form] and calls of [check_off]. *)
Inductive reachable : Habit -> Prop :=
  | reachable_from_form name description goal start_date periodicity reminder h :
      from_form name description goal start_date periodicity reminder = Ok h ->
      reachable h
  | reachable_check_off h on_date today :
      reachable h ->
      reachable (fst (check_off on_date today h)).

(** A weekly habit, checked off once, on Monday 6 January 2025. *)
Definition weekly_habit : Habit :=
  {| name := "Call Family"; description := "Phone call to parents";
     goal := "Relationships";
     start_date := mkdatetime (mkdate 2025 1 1) (mktime 0 0 0);
     periodicity := "weekly"; reminder := None;
     completed := true; streak := 1;
     last_completed_date := Some (mkdate 2025 1 6) |}.

(** A monthly habit, checked off once, on 31 January 2025. *)
Definition monthly_habit : Habit :=
  {| name := "Budget Review"; description := "Review spending";
     goal := "Finance";
     start_date := mkdatetime (mkdate 2025 1 1) (mktime 0 0 0);
     periodicity := "monthly"; reminder := None;
     completed := true; streak := 1;
     last_completed_date := Some (mkdate 2025 1 31) |}.

(** A state with a last completion and streak 0, as the dataclass
    allows. *)
Definition zero_streak_habit : Habit :=
  {| name := "Read"; description := "Read 10 pages"; goal := "Learning";
     start_date := mkdatetime (mkdate 2025 1 1) (mktime 0 0 0);
     periodicity := "daily"; reminder := None;
     completed := true; streak := 0;
     last_completed_date := Some (mkdate 2025 1 1) |}.

(** A state whose last completion is the last day of the calendar. *)
Definition last_day_habit : Habit :=
  {| name := "Read"; description := "Read 10 pages"; goal := "Learning";
     start_date := mkdatetime (mkdate 2025 1 1) (mktime 0 0 0);
     periodicity := "daily"; reminder := None;
     completed := true; streak := 3;
     last_completed_date := Some (mkdate 9999 12 31) |}.

(** The habit [from_form] builds from "Drink Water", "2025-01-06", "daily"
    and "09:00". *)
Definition fresh_habit : Habit :=
  {| name := "Drink Water"; description := "8 glasses"; goal := "Hydration";
     start_date := mkdatetime (mkdate 2025 1 6) (mktime 0 0 0);
     periodicity := "daily";
     reminder := Some (mktime 9 0 0);
     completed := false; streak := 0; last_completed_date := None |}.

(** Invalid input in the sense of C8 as stated: a supplied reminder is any
    string passed in. *)
Definition invalid_input_as_stated (start_date periodicity : string)
    (reminder : option string) : Prop :=
  raises (strptime start_date fmt_Ymd)
  \/ (exists r, reminder = Some r /\ raises (strptime r fmt_HM))
  \/ periodicity ∉ periodicities.

(** The inputs [from_form] refuses: the empty reminder string counts as no
    reminder. *)
Definition invalid_input (start_date periodicity : string)
    (reminder : option string) : Prop :=
  raises (strptime start_date fmt_Ymd)
  \/ (exists r, reminder = Some r /\ r <> EmptyString
                /\ raises (strptime r fmt_HM))
  \/ periodicity ∉ periodicities.

(** The year [y] in four digits matches the group of [%Y] and converts
    back to [y]. *)
Definition year_text_ok (y : Z) : bool :=
  let s := format_0d 4 y in
  bool_decide (match_alt [Digit; Digit; Digit; Digit] s = Some (s, EmptyString))
  && bool_decide (int_of_str s = Ok y).

(** The rest of an ISO date after the year: the month and the day, a
    hyphen before each. *)
Definition month_day_text (m d : Z) : string :=
  String "-" (String.append (format_0d 2 m) (String "-" (format_0d 2 d))).

(** That rest matches the rest of the format, and month and day convert
    back; [k] runs over the pairs of a month in 1..12 and a day in 1..31. *)
Definition month_day_text_ok (k : Z) : bool :=
  let m := k / 31 + 1 in
  let d := k mod 31 + 1 in
  bool_decide
    (head (match_items [Char "-"; Group "m" re_m; Char "-"; Group "d" re_d]
             (month_day_text m d))
     = Some ([("m", format_0d 2 m); ("d", format_0d 2 d)], EmptyString))
  && bool_decide (int_of_str (format_0d 2 m) = Ok m)
  && bool_decide (int_of_str (format_0d 2 d) = Ok d).

(** The time of day [k] minutes after midnight, written as HH:MM, parses
    back to itself. *)
Definition time_text_ok (k : Z) : bool :=
  let t := mktime (k / 60) (k mod 60) 0 in
  bool_decide (strptime (time_isoformat_minutes t) fmt_HM
               = Ok (mkdatetime (mkdate 1900 1 1) t))
  && negb (String.eqb (time_isoformat_minutes t) EmptyString).

End HabitSpec.

Module AnalyseSpec.

Import builtins analyse.

(** The id and the streak a row carries: [int(r["id"])] and
    [int(r.get("streak", 0))]. *)
Definition row_id (r : Row) : result Z :=
  try v <~ subscript r "id" ;; py_int v.

Definition row_streak (r : Row) : result Z :=
  py_int (get r "streak" (PInt 0)).

(** A row the analytics functions can read: an id that [int] converts, a
    name, and a streak that [int] converts, or none. *)
Definition readable (r : Row) : Prop :=
  is_ok (row_id r) = true /\ is_Some (r !! "name")
  /\ is_ok (row_streak r) = true.

(** A row whose id converts and is not [habit_id]. *)
Definition other_id (habit_id : Z) (r : Row) : Prop :=
  exists n, row_id r = Ok n /\ n <> habit_id.

(** A row with an id and a streak, but without a name, and a row with a
    streak only. *)
Definition row_without_name : Row :=
  {[ "id" := PInt 1; "streak" := PInt 5 ]}.

Definition row_without_id : Row :=
  {[ "streak" := PInt 1 ]}.

(** Three rows; the last two share the greatest streak. *)
Definition sample_rows : list Row :=
  [ {[ "id" := PInt 1; "name" := PStr "Drink Water";
       "periodicity" := PStr "daily"; "streak" := PInt 7 ]};
    {[ "id" := PInt 2; "name" := PStr "Read";
       "periodicity" := PStr "daily"; "streak" := PInt 28 ]};
    {[ "id" := PInt 3; "name" := PStr "Meditate";
       "periodicity" := PStr "daily"; "streak" := PInt 28 ]} ].

End AnalyseSpec.

Module DatabaseSpec.

Import builtins database.

(** A database right after [initialize]: a connection, no row yet. *)
Definition fresh_database : Database Recorder :=
  {| path := ":memory:";
     conn := Some {| statements := []; rows_inserted := 0 |} |}.

(** The keyword arguments [add_habit_flow] passes to [save_habit]. *)
Definition new_habit_fields : list (string * pyval) :=
  [ ("user_id", PInt 1); ("name", PStr "Drink Water");
    ("description", PStr "8 glasses"); ("goal", PStr "Hydration");
    ("start_date", PStr "2025-01-06"); ("periodicity", PStr "daily");
    ("reminder", PStr "09:00"); ("completed", PInt 0); ("streak", PInt 0);
    ("last_completed_date", PNone) ].

End DatabaseSpec.

Module EngineSpec.

Import datetime builtins habit CalendarSpec HabitSpec.

(** The state after checking a habit off on each date of a list, one call
    after the other. *)
Definition check_off_all (dates : list date) (today : date) (h : Habit) : Habit :=
  fold_left (fun acc d => fst (check_off (Some d) today acc)) dates h.

(** The dates [d], [step d], [step (step d)], ...: [n] of them. *)
Definition stepped_dates (step : date -> date) (d : date) (n : nat) : list date :=
  map (fun k => Nat.iter k step d) (seq 0 n).

(** The date one period after [d]: the next day, the seventh next day, or
    the same day of the next month. *)
Definition period_step (periodicity : string) : date -> date :=
  if String.eqb periodicity "daily" then next_day
  else if String.eqb periodicity "weekly" then Nat.iter 7 next_day
  else same_day_next_month.

End EngineSpec.

Module FormSpec.

Import datetime builtins _strptime habit CalendarSpec.

(** The 256 characters of a string. *)
Definition all_ascii : list ascii := map ascii_of_nat (seq 0 256).

(** The characters a class matches. *)
Definition class_chars (k : chclass) : list ascii :=
  List.filter (chclass_match k) all_ascii.

(** The texts an alternative matches. *)
Fixpoint alt_texts (alt : list chclass) : list string :=
  match alt with
  | [] => [EmptyString]
  | k :: alt' =>
      flat_map (fun c => map (String c) (alt_texts alt')) (class_chars k)
  end.

(** The texts a group matches. *)
Definition group_texts (alts : list (list chclass)) : list string :=
  flat_map alt_texts alts.

(** A number in two digits, or as [str] writes it. *)
Definition spellings (v : Z) : list string := [format_0d 2 v; str_of_int v].

(** A day of the month: as before, or with a space in place of the
    zero. *)
Definition day_spellings (d : Z) : list string :=
  spellings d ++ (if d <? 10 then [String " " (str_of_int d)] else []).

(** The ways to write a time of day that [%H:%M] reads. *)
Definition time_spellings (hh mm : Z) : list string :=
  flat_map (fun th => map (fun tm => String.append th (String ":" tm))
                          (spellings mm))
           (spellings hh).

(** The ways to write month and day after the year, a hyphen before
    each. *)
Definition month_day_spellings (m d : Z) : list string :=
  flat_map (fun tm => map (fun td => String "-" (String.append tm (String "-" td)))
                          (day_spellings d))
           (spellings m).

(** The ways to write a date that [%Y-%m-%d] reads. *)
Definition date_spellings (d : date) : list string :=
  map (String.append (format_0d 4 (year d)))
      (month_day_spellings (month d) (day d)).

(** The habit [from_form] builds around a start date, without a
    reminder. *)
Definition new_habit (name description goal : string) (d : date)
    (periodicity : string) : Habit :=
  {| name := name; description := description; goal := goal;
     start_date := mkdatetime d (mktime 0 0 0); periodicity := periodicity;
     reminder := None;
     completed := false; streak := 0; last_completed_date := None |}.

Definition with_reminder (t : option time) (h : Habit) : Habit :=
  {| name := name h; description := description h; goal := goal h;
     start_date := start_date h; periodicity := periodicity h;
     reminder := t;
     completed := completed h; streak := streak h;
     last_completed_date := last_completed_date h |}.

(** A text of a group reads as a number between [lo] and [hi] of which it
    is one of the given spellings. *)
Definition text_ok (lo hi : Z) (spell : Z -> list string) (t : string) : bool :=
  match int_of_str t with
  | Ok v => (lo <=? v) && (v <=? hi) && existsb (String.eqb t) (spell v)
  | Raise _ => false
  end.


(** Every spelling of a month and a day matches the rest of the format and
    converts back; [k] runs over the pairs of a month and a day. *)
Definition month_day_spellings_ok (k : Z) : bool :=
  let m := k / 31 + 1 in
  let d := k mod 31 + 1 in
  forallb (fun tm =>
    forallb (fun td =>
      bool_decide
        (head (match_items [Char "-"; Group "m" re_m; Char "-"; Group "d" re_d]
                 (String "-" (String.append tm (String "-" td))))
         = Some ([("m", tm); ("d", td)], EmptyString))
      && bool_decide (int_of_str tm = Ok m)
      && bool_decide (int_of_str td = Ok d))
      (day_spellings d))
    (spellings m).

End FormSpec.

Module QuerySpec.

Import builtins analyse.

(** A row without the key [periodicity], and a list of two rows with the
    same streak. *)
Definition bare_row : Row :=
  {[ "id" := PInt 7; "name" := PStr "Stretch"; "streak" := PInt 2 ]}.

Definition tied_rows : list Row :=
  [ {[ "id" := PInt 1; "name" := PStr "Drink Water";
       "periodicity" := PStr "daily"; "streak" := PInt 3 ]};
    {[ "id" := PInt 2; "name" := PStr "Call Family";
       "periodicity" := PStr "weekly"; "streak" := PInt 3 ]} ].

(** The streak of the first view with the id, 0 without one. *)
Definition streak_of_first (views : list HabitView) (habit_id : Z) : Z :=
  match List.find (fun v => id v =? habit_id) views with
  | Some v => streak v
  | None => 0
  end.

End QuerySpec.

Module CliSpec.

Import datetime builtins _strptime habit database cli HabitSpec.

(** The row of the table [habits] that holds a habit: the columns written
    by [add_habit_flow] through [save_habit], with the progress columns as
    [check_off_flow] passes them to [update_habit_progress]. *)
Definition stored_row (id user_id : pyval) (h : Habit) : analyse.Row :=
  <["id" := id]>
  (<["user_id" := user_id]>
  (<["name" := PStr (name h)]>
  (<["description" := PStr (description h)]>
  (<["goal" := PStr (goal h)]>
  (<["start_date" := PStr (date_isoformat (dt_date (start_date h)))]>
  (<["periodicity" := PStr (periodicity h)]>
  (<["reminder" := match reminder h with
                   | Some t => PStr (time_isoformat_minutes t)
                   | None => PNone
                   end]>
  (<["completed" := PInt (if completed h then 1 else 0)]>
  (<["streak" := PInt (streak h)]>
  (<["last_completed_date" := match last_completed_date h with
                              | Some d => PStr (date_isoformat d)
                              | None => PNone
                              end]> ∅)))))))))).

(** A habit as the program builds it: a start date of the calendar at
    midnight, a reminder to the minute, a known periodicity, a last
    completion of the calendar. *)
Definition storable (h : Habit) : Prop :=
  valid_date (dt_date (start_date h))
  /\ dt_time (start_date h) = mktime 0 0 0
  /\ (forall t, reminder h = Some t ->
        0 <= hour t <= 23 /\ 0 <= minute t <= 59 /\ second t = 0)
  /\ periodicity h ∈ periodicities
  /\ (forall d, last_completed_date h = Some d -> valid_date d).

(** [datetime.fromisoformat] reads what [date.isoformat] writes. *)
Definition reads_isoformat (fromisoformat : string -> result datetime) : Prop :=
  forall d, valid_date d ->
    fromisoformat (date_isoformat d) = Ok (mkdatetime d (mktime 0 0 0)).

(** What [view_history_flow] prints for the completions of a habit. *)
Definition history_lines (name : pyval) (history : list analyse.Row)
  : list printed :=
  match history with
  | [] => [Line "No completions logged yet."]
  | _ =>
      Line (String.append "Completion history for '"
              (String.append (py_str name) "':"))
      :: map (fun h => Line (String.append "  - "
                               (py_str (analyse.get h "completed_at" PNone))))
             history
  end.

(** A row the flows can list: it has a name, a periodicity and a
    streak. *)
Definition listable (r : analyse.Row) : Prop :=
  is_Some (r !! "name") /\ is_Some (r !! "periodicity")
  /\ is_Some (r !! "streak").

(** What [add_habit_flow] writes before it builds the habit. *)
Definition add_habit_prompts : list printed :=
  [ Line (String (chr 10) "Add a new habit:");
    Prompt "Habit name: "; Prompt "Description: "; Prompt "Goal: ";
    Prompt "Start date (YYYY-MM-DD): ";
    Prompt "Periodicity (daily/weekly/monthly) [daily]: ";
    Prompt "Reminder time (HH:MM, optional): " ].

(** A store for the instances: it holds the given rows and notes every
    call in the list of statements of the connection. *)
Definition noted (method : string) (arguments : list pyval)
  : M (Database Recorder) unit :=
  run on_conn (execute method arguments) ;; mret tt.

Definition recording_store (rows : list analyse.Row)
  : Store (Database Recorder) :=
  {| fetch_habits_by_user user_id := mret rows;
     update_habit_progress id completed streak last :=
       noted "update_habit_progress"
             [id; PInt completed; PInt streak; PStr last];
     save_completion id completed_at :=
       noted "save_completion" [id; PStr completed_at];
     fetch_completions id limit :=
       mret [ {[ "completed_at" := PStr "2025-01-31T18:00:00" ]} ];
     delete_habit id := noted "delete_habit" [id] |}.

(** Two stored habits: the first one new, the second one last completed
    on 31 January 2025. *)
Definition two_rows : list analyse.Row :=
  [ stored_row (PInt 1) (PInt 1) fresh_habit;
    stored_row (PInt 2) (PInt 1) monthly_habit ].

Definition some_user : user.User :=
  {| user.name := "Jonas"; user.email := "jonas@example.com";
     user.user_id := PInt 1 |}.

End CliSpec.

(** * Properties of the calendar *)

Module CalendarFacts.

Import datetime CalendarSpec.

(** Boolean tests on integers, turned into propositions. *)
Ltac unbool :=
  repeat match goal with
  | H : _ && _ = true |- _ => apply andb_true_iff in H; destruct H
  | H : _ || _ = false |- _ => apply orb_false_iff in H; destruct H
  | H : negb _ = true |- _ => apply negb_true_iff in H
  | H : negb _ = false |- _ => apply negb_false_iff in H
  | H : (_ <=? _) = true |- _ => apply Z.leb_le in H
  | H : (_ <=? _) = false |- _ => apply Z.leb_gt in H
  | H : (_ <? _) = true |- _ => apply Z.ltb_lt in H
  | H : (_ <? _) = false |- _ => apply Z.ltb_ge in H
  | H : (_ =? _) = true |- _ => apply Z.eqb_eq in H
  | H : (_ =? _) = false |- _ => apply Z.eqb_neq in H
  end.

Lemma valid_date_iff d :
  valid_date d <->
  1 <= year d <= 9999 /\ 1 <= month d <= 12 /\
  1 <= day d <= _days_in_month (year d) (month d).
Proof.
  unfold valid_date, check_date_fields, MINYEAR, MAXYEAR.
  rewrite !andb_true_iff, !Z.leb_le. tauto.
Qed.

Lemma month_cases m :
  1 <= m <= 12 ->
  m = 1 \/ m = 2 \/ m = 3 \/ m = 4 \/ m = 5 \/ m = 6 \/
  m = 7 \/ m = 8 \/ m = 9 \/ m = 10 \/ m = 11 \/ m = 12.
Proof. lia. Qed.

Ltac each_month m H :=
  destruct (month_cases m H)
    as [->|[->|[->|[->|[->|[->|[->|[->|[->|[->|[->| ->]]]]]]]]]]].

Lemma days_in_month_bounds y m :
  1 <= m <= 12 -> 28 <= _days_in_month y m <= 31.
Proof.
  intros Hm. each_month m Hm; unfold _days_in_month;
    destruct (_is_leap y); cbv -[Z.le Z.lt]; lia.
Qed.

Lemma days_before_month_succ y m :
  1 <= m <= 11 ->
  _days_before_month y (m + 1) = _days_before_month y m + _days_in_month y m.
Proof.
  intros Hm. assert (Hm' : 1 <= m <= 12) by lia.
  each_month m Hm'; try lia;
    unfold _days_before_month, _days_in_month; destruct (_is_leap y); reflexivity.
Qed.

Lemma days_before_month_12 y :
  _days_before_month y 12 + _days_in_month y 12 = days_in_year y.
Proof.
  unfold _days_before_month, _days_in_month, days_in_year.
  destruct (_is_leap y); reflexivity.
Qed.

(** Months are laid out one after the other inside a year. *)
Lemma days_before_month_mono y m1 m2 :
  1 <= m1 -> m1 < m2 -> m2 <= 12 ->
  _days_before_month y m1 + _days_in_month y m1 <= _days_before_month y m2.
Proof.
  intros H1 Hlt H2.
  assert (Hm1 : 1 <= m1 <= 12) by lia. assert (Hm2 : 1 <= m2 <= 12) by lia.
  each_month m1 Hm1; each_month m2 Hm2; try lia;
    unfold _days_before_month, _days_in_month; destruct (_is_leap y); cbv -[Z.le Z.lt]; lia.
Qed.

Lemma days_before_year_succ y :
  _days_before_year (y + 1) = _days_before_year y + days_in_year y.
Proof.
  unfold _days_before_year, days_in_year, _is_leap. cbv zeta.
  replace (y + 1 - 1) with y by lia.
  destruct (y mod 4 =? 0) eqn:E4; destruct (y mod 100 =? 0) eqn:E100;
    destruct (y mod 400 =? 0) eqn:E400; cbn [andb orb negb]; unbool;
    Z.div_mod_to_equations; lia.
Qed.

Lemma days_before_year_mono y1 y2 :
  y1 <= y2 -> _days_before_year y1 <= _days_before_year y2.
Proof.
  intros H. unfold _days_before_year. cbv zeta.
  Z.div_mod_to_equations. lia.
Qed.

(** The day number inside its year. *)
Lemma day_of_year_bounds d :
  valid_date d ->
  1 <= _days_before_month (year d) (month d) + day d <= days_in_year (year d).
Proof.
  rewrite valid_date_iff. intros (Hy & Hm & Hd).
  split.
  - assert (0 <= _days_before_month (year d) (month d)).
    { each_month (month d) Hm; unfold _days_before_month;
        destruct (_is_leap (year d)); cbv -[Z.le Z.lt]; lia. }
    lia.
  - rewrite <- days_before_month_12.
    destruct (Z.eq_dec (month d) 12) as [E|E].
    + rewrite E in *. lia.
    + pose proof (days_before_month_mono (year d) (month d) 12).
      pose proof (days_in_month_bounds (year d) 12). lia.
Qed.

Lemma toordinal_lt a b :
  valid_date a -> valid_date b -> date_ltb a b = true ->
  toordinal a < toordinal b.
Proof.
  intros Ha Hb Hlt.
  pose proof (day_of_year_bounds a Ha) as Ba.
  pose proof (day_of_year_bounds b Hb) as Bb.
  apply valid_date_iff in Ha. apply valid_date_iff in Hb.
  unfold toordinal, _ymd2ord. unfold date_ltb in Hlt.
  apply orb_true_iff in Hlt. destruct Hlt as [Hy|Hlt].
  - apply Z.ltb_lt in Hy.
    pose proof (days_before_year_succ (year a)).
    pose proof (days_before_year_mono (year a + 1) (year b)). lia.
  - apply andb_true_iff in Hlt. destruct Hlt as [Hy Hlt].
    apply Z.eqb_eq in Hy. rewrite Hy in *.
    apply orb_true_iff in Hlt. destruct Hlt as [Hm|Hlt].
    + apply Z.ltb_lt in Hm.
      pose proof (days_before_month_mono (year b) (month a) (month b)). lia.
    + apply andb_true_iff in Hlt. destruct Hlt as [Hm Hd].
      apply Z.eqb_eq in Hm. apply Z.ltb_lt in Hd. rewrite Hm. lia.
Qed.

Lemma all_below_spec (P : Z -> bool) (k : Z) :
  all_below P k = true -> forall n, 0 <= n < k -> P n = true.
Proof.
  unfold all_below. intros H n Hn. rewrite forallb_forall in H. apply H.
  apply in_map_iff. exists (Z.to_nat n). split; [lia|].
  apply in_seq. lia.
Qed.

Lemma month_day_correct (leapyear : bool) n :
  0 <= n < (if leapyear then 366 else 365) ->
  month_day_ok leapyear n = true.
Proof.
  intros Hn. destruct leapyear.
  - apply (all_below_spec (month_day_ok true) 366); [vm_compute; reflexivity | lia].
  - apply (all_below_spec (month_day_ok false) 365); [vm_compute; reflexivity | lia].
Qed.

Lemma ord2ymd_eq n :
  _ord2ymd n =
  let a := (n - 1) / 146097 in
  let r400 := (n - 1) mod 146097 in
  let b := r400 / 36524 in
  let r100 := r400 mod 36524 in
  let c := r100 / 1461 in
  let r4 := r100 mod 1461 in
  let d := r4 / 365 in
  let r := r4 mod 365 in
  let year := a * 400 + 1 + b * 100 + c * 4 + d in
  if (d =? 4) || (b =? 4) then (year - 1, 12, 31)
  else
    let leapyear := (d =? 3) && (negb (c =? 24) || (b =? 3)) in
    (year, fst (month_day leapyear r), snd (month_day leapyear r)).
Proof.
  unfold _ord2ymd, month_day, _DI400Y, _DI100Y, _DI4Y. cbv zeta.
  destruct (Z.eqb _ 4 || Z.eqb _ 4)%bool; [reflexivity|].
  destruct (Z.ltb (_ mod 365) _); reflexivity.
Qed.

Lemma is_leap_cycle a b c d :
  0 <= b <= 3 -> 0 <= c <= 24 -> 0 <= d <= 3 ->
  _is_leap (a * 400 + 1 + b * 100 + c * 4 + d)
  = (d =? 3) && (negb (c =? 24) || (b =? 3)).
Proof.
  intros Hb Hc Hd. unfold _is_leap.
  destruct (Z.eqb (_ mod 4) 0) eqn:E4; destruct (Z.eqb (_ mod 100) 0) eqn:E100;
    destruct (Z.eqb (_ mod 400) 0) eqn:E400;
    destruct (d =? 3) eqn:Ed; destruct (c =? 24) eqn:Ec;
    destruct (b =? 3) eqn:Eb; cbn [andb orb negb]; try reflexivity;
    exfalso; unbool; Z.div_mod_to_equations; lia.
Qed.

Lemma days_before_year_cycle a b c d :
  0 <= b <= 3 -> 0 <= c <= 24 -> 0 <= d <= 3 ->
  _days_before_year (a * 400 + 1 + b * 100 + c * 4 + d)
  = 146097 * a + 36524 * b + 1461 * c + 365 * d.
Proof.
  intros Hb Hc Hd. unfold _days_before_year. cbv zeta.
  Z.div_mod_to_equations. lia.
Qed.

Lemma days_in_month_12 y : _days_in_month y 12 = 31.
Proof. reflexivity. Qed.

Lemma days_before_month_12_leap y :
  _is_leap y = true -> _days_before_month y 12 = 335.
Proof. intros H. unfold _days_before_month. rewrite H. reflexivity. Qed.

Lemma date_new_ok y m d :
  1 <= y <= 9999 -> 1 <= m <= 12 -> 1 <= d <= _days_in_month y m ->
  date_new y m d = Ok (mkdate y m d).
Proof.
  intros Hy Hm Hd. unfold date_new, MINYEAR, MAXYEAR.
  replace (1 <=? y) with true by (symmetry; apply Z.leb_le; lia).
  replace (y <=? 9999) with true by (symmetry; apply Z.leb_le; lia).
  replace (1 <=? m) with true by (symmetry; apply Z.leb_le; lia).
  replace (m <=? 12) with true by (symmetry; apply Z.leb_le; lia).
  replace (1 <=? d) with true by (symmetry; apply Z.leb_le; lia).
  replace (d <=? _days_in_month y m) with true by (symmetry; apply Z.leb_le; lia).
  reflexivity.
Qed.

Lemma date_new_inv y m d e :
  date_new y m d = Ok e -> e = mkdate y m d /\ valid_date e.
Proof.
  unfold date_new, MINYEAR, MAXYEAR.
  destruct ((1 <=? y) && (y <=? 9999)) eqn:Ey; cbn [negb]; [|discriminate].
  destruct ((1 <=? m) && (m <=? 12)) eqn:Em; cbn [negb]; [|discriminate].
  destruct ((1 <=? d) && (d <=? _days_in_month y m)) eqn:Ed; cbn [negb];
    [|discriminate].
  intros [= <-]. split; [reflexivity|].
  apply valid_date_iff. cbn. unbool. lia.
Qed.

(** [fromordinal] inverts [toordinal] on the whole range of [date]. *)
Theorem fromordinal_toordinal n :
  1 <= n <= _MAXORDINAL ->
  exists d, fromordinal n = Ok d /\ valid_date d /\ toordinal d = n.
Proof.
  unfold _MAXORDINAL. intros Hn.
  unfold fromordinal. rewrite ord2ymd_eq. cbv zeta.
  set (a := (n - 1) / 146097).
  set (r400 := (n - 1) mod 146097).
  set (b := r400 / 36524).
  set (r100 := r400 mod 36524).
  set (c := r100 / 1461).
  set (r4 := r100 mod 1461).
  set (d := r4 / 365).
  set (r := r4 mod 365).
  assert (Ha : 0 <= a <= 24 /\ n - 1 = 146097 * a + r400 /\ 0 <= r400 < 146097).
  { subst a r400. Z.div_mod_to_equations. lia. }
  assert (Hb : 0 <= b <= 4 /\ r400 = 36524 * b + r100 /\ 0 <= r100 < 36524).
  { subst b r100. Z.div_mod_to_equations. lia. }
  assert (Hc : 0 <= c <= 24 /\ r100 = 1461 * c + r4 /\ 0 <= r4 < 1461).
  { subst c r4. Z.div_mod_to_equations. lia. }
  assert (Hd : 0 <= d <= 4 /\ r4 = 365 * d + r /\ 0 <= r < 365).
  { subst d r. Z.div_mod_to_equations. lia. }
  clearbody a r400 b r100 c r4 d r.
  destruct ((d =? 4) || (b =? 4)) eqn:Elast.
  - (* the last day of a 4-year or of a 400-year cycle *)
    set (y := a * 400 + 1 + b * 100 + c * 4 + d - 1).
    assert (Hleap : _is_leap y = true /\ _days_before_year y + 366 = n
                    /\ 1 <= y <= 9999).
    { apply orb_true_iff in Elast. destruct Elast as [E|E]; apply Z.eqb_eq in E.
      - assert (b <= 3 /\ c <= 23) as [Hb3 Hc23] by lia.
        replace y with (a * 400 + 1 + b * 100 + c * 4 + 3) by (unfold y; lia).
        rewrite is_leap_cycle, days_before_year_cycle by lia.
        split; [|lia].
        replace (3 =? 3) with true by reflexivity.
        replace (c =? 24) with false by (symmetry; apply Z.eqb_neq; lia).
        reflexivity.
      - assert (c = 0 /\ d = 0) as [-> ->] by lia.
        replace y with (a * 400 + 1 + 3 * 100 + 24 * 4 + 3) by (unfold y; lia).
        rewrite is_leap_cycle, days_before_year_cycle by lia.
        split; [reflexivity|lia]. }
    destruct Hleap as (Hleap & Hord & Hy).
    rewrite date_new_ok; [| lia | lia |].
    + eexists; split; [reflexivity|]. split.
      * apply valid_date_iff. cbn [year month day].
        rewrite days_in_month_12. lia.
      * unfold toordinal, _ymd2ord. cbn [year month day].
        rewrite days_before_month_12_leap by assumption. lia.
    + rewrite days_in_month_12. lia.
  - apply orb_false_iff in Elast. destruct Elast as [Ed Eb]. unbool.
    set (leapyear := (d =? 3) && (negb (c =? 24) || (b =? 3))).
    set (y := a * 400 + 1 + b * 100 + c * 4 + d).
    assert (Hleap : _is_leap y = leapyear) by (apply is_leap_cycle; lia).
    assert (Hdby : _days_before_year y = 146097 * a + 36524 * b + 1461 * c + 365 * d)
      by (apply days_before_year_cycle; lia).
    assert (Hmd : month_day_ok leapyear r = true).
    { apply month_day_correct. destruct leapyear; lia. }
    unfold month_day_ok in Hmd.
    destruct (month_day leapyear r) as [m dd]. cbn [fst snd].
    unbool.
    assert (Hdim : _days_in_month y m
                   = (if (m =? 2) && leapyear then 29 else table _DAYS_IN_MONTH m)).
    { unfold _days_in_month. rewrite Hleap. reflexivity. }
    rewrite date_new_ok; [| lia | lia | lia].
    eexists; split; [reflexivity|]. split.
    + apply valid_date_iff. cbn [year month day]. lia.
    + unfold toordinal, _ymd2ord, _days_before_month. cbn [year month day].
      rewrite Hleap, Hdby. lia.
Qed.

Lemma toordinal_range d :
  valid_date d -> 1 <= toordinal d <= _MAXORDINAL.
Proof.
  intros Hd. pose proof (day_of_year_bounds d Hd) as B.
  apply valid_date_iff in Hd. destruct Hd as (Hy & _).
  unfold toordinal, _ymd2ord, _MAXORDINAL.
  pose proof (days_before_year_mono 1 (year d)) as Hlo.
  pose proof (days_before_year_succ (year d)) as Hs.
  pose proof (days_before_year_mono (year d + 1) 10000) as Hhi.
  change (_days_before_year 1) with 0 in Hlo.
  change (_days_before_year 10000) with 3652059 in Hhi.
  lia.
Qed.

(** The order of dates. *)
Lemma date_eqb_eq a b : date_eqb a b = true <-> a = b.
Proof.
  unfold date_eqb. rewrite !andb_true_iff, !Z.eqb_eq.
  destruct a, b; cbn. split.
  - intros [[-> ->] ->]. reflexivity.
  - intros [= -> -> ->]. auto.
Qed.

Lemma date_ltb_irrefl a : date_ltb a a = false.
Proof.
  unfold date_ltb. rewrite !Z.ltb_irrefl, !Z.eqb_refl. reflexivity.
Qed.

Lemma date_ltb_asym a b : date_ltb a b = true -> date_ltb b a = false.
Proof.
  unfold date_ltb. intros H.
  destruct (year a <? year b) eqn:E1, (year a =? year b) eqn:E2,
    (month a <? month b) eqn:E3, (month a =? month b) eqn:E4,
    (day a <? day b) eqn:E5; cbn in H; try discriminate; unbool;
    repeat match goal with
    | |- context [?x <? ?y] => destruct (Z.ltb_spec x y); try lia
    | |- context [?x =? ?y] => destruct (Z.eqb_spec x y); try lia
    end; reflexivity.
Qed.

(** Exactly one of [a == b], [a > b], [a < b] holds. *)
Lemma date_trichotomy a b :
  (a = b /\ date_gtb a b = false /\ date_ltb a b = false) \/
  (a <> b /\ date_gtb a b = true /\ date_ltb a b = false) \/
  (a <> b /\ date_gtb a b = false /\ date_ltb a b = true).
Proof.
  destruct (date_ltb a b) eqn:Hab.
  - right; right. split; [|split; [apply date_ltb_asym; assumption | reflexivity]].
    intros ->. rewrite date_ltb_irrefl in Hab. discriminate.
  - destruct (date_ltb b a) eqn:Hba.
    + right; left. split; [|split; [assumption | reflexivity]].
      intros ->. rewrite date_ltb_irrefl in Hba. discriminate.
    + left. split; [|split; [assumption | reflexivity]].
      unfold date_ltb in *. destruct a as [ya ma da], b as [yb mb db].
      cbn in *.
      destruct (Z.ltb_spec ya yb), (Z.ltb_spec yb ya), (Z.eqb_spec ya yb),
        (Z.eqb_spec yb ya), (Z.ltb_spec ma mb), (Z.ltb_spec mb ma),
        (Z.eqb_spec ma mb), (Z.eqb_spec mb ma), (Z.ltb_spec da db),
        (Z.ltb_spec db da); cbn in *; try discriminate; try lia.
      f_equal; lia.
Qed.

Lemma toordinal_lt_inv a b :
  valid_date a -> valid_date b -> toordinal a < toordinal b ->
  date_ltb a b = true.
Proof.
  intros Ha Hb Hlt.
  destruct (date_trichotomy a b) as [(-> & _)|[(_ & Hgt & _)|(_ & _ & H)]].
  - lia.
  - pose proof (toordinal_lt b a Hb Ha Hgt). lia.
  - exact H.
Qed.

(** [date_add]: the date [days] later, when there is one. *)
Lemma date_add_ok d days :
  valid_date d -> 0 <= days -> toordinal d + days <= _MAXORDINAL ->
  exists e, date_add d days = Ok e /\ valid_date e
            /\ toordinal e = toordinal d + days.
Proof.
  intros Hd Hk Hmax. pose proof (toordinal_range d Hd).
  unfold date_add. cbv zeta.
  replace (0 <? toordinal d + days) with true by (symmetry; apply Z.ltb_lt; lia).
  replace (toordinal d + days <=? _MAXORDINAL) with true
    by (symmetry; apply Z.leb_le; lia).
  apply fromordinal_toordinal. lia.
Qed.

Lemma date_add_inv d days e :
  date_add d days = Ok e ->
  valid_date e /\ toordinal e = toordinal d + days.
Proof.
  unfold date_add. cbv zeta.
  destruct ((0 <? toordinal d + days) && (toordinal d + days <=? _MAXORDINAL))
    eqn:E; [|discriminate].
  unbool. intros He.
  destruct (fromordinal_toordinal (toordinal d + days)) as (e' & He' & Hv & Ho);
    [lia|].
  rewrite He in He'. injection He' as <-. auto.
Qed.

Lemma date_add_overflow d days :
  _MAXORDINAL < toordinal d + days ->
  date_add d days = Raise (OverflowError "date value out of range").
Proof.
  intros H. unfold date_add. cbv zeta.
  replace (toordinal d + days <=? _MAXORDINAL) with false
    by (symmetry; apply Z.leb_gt; lia).
  rewrite andb_false_r. reflexivity.
Qed.

Lemma date_add_later d days e :
  valid_date d -> 0 < days -> date_add d days = Ok e -> date_ltb d e = true.
Proof.
  intros Hd Hk He. apply date_add_inv in He. destruct He as [Hv Ho].
  apply toordinal_lt_inv; [assumption.. | lia].
Qed.

Lemma toordinal_inj a b :
  valid_date a -> valid_date b -> toordinal a = toordinal b -> a = b.
Proof.
  intros Ha Hb Heq.
  destruct (date_trichotomy a b) as [(E & _)|[(_ & Hgt & _)|(_ & _ & Hlt)]].
  - exact E.
  - pose proof (toordinal_lt b a Hb Ha Hgt). lia.
  - pose proof (toordinal_lt a b Ha Hb Hlt). lia.
Qed.

Lemma next_day_ordinal d :
  valid_date d -> toordinal (next_day d) = toordinal d + 1.
Proof.
  intros Hv. apply valid_date_iff in Hv. destruct Hv as (Hy & Hm & Hd).
  unfold next_day, toordinal, _ymd2ord.
  destruct (Z.ltb_spec (day d) (_days_in_month (year d) (month d))).
  - cbn [year month day]. lia.
  - destruct (Z.ltb_spec (month d) 12); cbn [year month day].
    + rewrite days_before_month_succ by lia. lia.
    + assert (Hm12 : month d = 12) by lia. rewrite Hm12 in *.
      rewrite days_before_year_succ, <- days_before_month_12.
      change (_days_before_month (year d + 1) 1) with 0. lia.
Qed.

Lemma next_day_valid d :
  valid_date d -> toordinal d < _MAXORDINAL -> valid_date (next_day d).
Proof.
  intros Hv Hlt. pose proof Hv as Hv'.
  apply valid_date_iff in Hv. destruct Hv as (Hy & Hm & Hd).
  apply valid_date_iff. unfold next_day.
  destruct (Z.ltb_spec (day d) (_days_in_month (year d) (month d))).
  - cbn [year month day]. lia.
  - destruct (Z.ltb_spec (month d) 12); cbn [year month day].
    + pose proof (days_in_month_bounds (year d) (month d + 1)). lia.
    + assert (Hm12 : month d = 12) by lia.
      change (_days_in_month (year d + 1) 1) with 31.
      assert (year d <> 9999); [|lia].
      intros E. unfold toordinal, _ymd2ord, _MAXORDINAL in Hlt.
      rewrite Hm12, E in *.
      change (_days_before_year 9999) with 3651694 in Hlt.
      change (_days_before_month 9999 12) with 334 in Hlt.
      change (_days_in_month 9999 12) with 31 in *. lia.
Qed.

Lemma iter_next_day k d :
  valid_date d -> toordinal d + Z.of_nat k <= _MAXORDINAL ->
  valid_date (Nat.iter k next_day d)
  /\ toordinal (Nat.iter k next_day d) = toordinal d + Z.of_nat k.
Proof.
  intros Hv. induction k as [|k IH]; intros Hk.
  - cbn. split; [assumption|lia].
  - destruct IH as [IHv IHo]; [lia|]. cbn [Nat.iter nat_rect].
    change (nat_rect _ d (fun _ => next_day) k) with (Nat.iter k next_day d).
    split.
    + apply next_day_valid; [assumption|lia].
    + rewrite next_day_ordinal by assumption. lia.
Qed.

(** Adding [k] days is taking the successor [k] times. *)
Lemma date_add_iter d k :
  valid_date d -> toordinal d + Z.of_nat k <= _MAXORDINAL ->
  date_add d (Z.of_nat k) = Ok (Nat.iter k next_day d).
Proof.
  intros Hv Hk.
  destruct (date_add_ok d (Z.of_nat k) Hv) as (e & He & Hev & Heo); [lia|lia|].
  destruct (iter_next_day k d Hv Hk) as [Hiv Hio].
  rewrite He. f_equal. apply toordinal_inj; [assumption..|lia].
Qed.

End CalendarFacts.

(** * The streak engine and the construction of habits *)

Module HabitFacts.

Import datetime builtins _strptime habit CalendarSpec HabitSpec CalendarFacts.

(** [_expected_next_date] leaves the object as it is. *)
Lemma expected_next_date_eq h :
  _expected_next_date h = (h, expected_value h).
Proof.
  unfold _expected_next_date, expected_value, mbind, mget, mret, mlift.
  destruct (last_completed_date h) as [last|]; [|reflexivity].
  destruct (String.eqb (periodicity h) "daily").
  { destruct (date_add last 1); reflexivity. }
  destruct (String.eqb (periodicity h) "weekly").
  { destruct (date_add last 7); reflexivity. }
  destruct (month last + 1 =? 13).
  - destruct (calendar.monthrange _ _); [|reflexivity]. cbn [rbind].
    destruct (date_new _ _ _); reflexivity.
  - destruct (calendar.monthrange _ _); [|reflexivity]. cbn [rbind].
    destruct (date_new _ _ _); reflexivity.
Qed.

Lemma check_off_eq od today h :
  check_off od today h =
  let on_date := match od with Some d => d | None => today end in
  match last_completed_date h with
  | None => (completed_on on_date 1 h, Ok tt)
  | Some _ =>
      match expected_value h with
      | Raise e => (h, Raise e)
      | Ok (Some e) =>
          if date_eqb on_date e then (completed_on on_date (streak h + 1) h, Ok tt)
          else if date_gtb on_date e then (completed_on on_date 1 h, Ok tt)
          else (completed_on on_date (streak h) h, Ok tt)
      | Ok None => (completed_on on_date (streak h) h, Ok tt)
      end
  end.
Proof.
  unfold check_off. cbv zeta. unfold mbind at 1. unfold mget at 1.
  destruct (last_completed_date h) as [last|] eqn:Hlast.
  - unfold mbind at 1. unfold mbind at 1. rewrite expected_next_date_eq.
    destruct (expected_value h) as [[e|]|err]; [| |reflexivity].
    + destruct (date_eqb _ e); [reflexivity|].
      destruct (date_gtb _ e); [reflexivity|].
      destruct h; reflexivity.
    + destruct h; reflexivity.
  - reflexivity.
Qed.

Lemma expected_value_some h last :
  last_completed_date h = Some last ->
  expected_value h <> Ok None.
Proof.
  intros Hl. unfold expected_value. rewrite Hl.
  destruct (String.eqb _ "daily"). { destruct (date_add last 1); discriminate. }
  destruct (String.eqb _ "weekly"). { destruct (date_add last 7); discriminate. }
  cbv zeta. destruct (calendar.monthrange _ _); [|discriminate]. cbn [rbind].
  destruct (date_new _ _ _); discriminate.
Qed.

(** [calendar.monthrange] and [datetime] agree on the length of a month. *)
Lemma monthrange_ok y m :
  1 <= m <= 12 ->
  exists day1, calendar.monthrange y m = Ok (day1, _days_in_month y m).
Proof.
  intros Hm. unfold calendar.monthrange.
  replace ((1 <=? m) && (m <=? 12)) with true
    by (symmetry; apply andb_true_iff; split; apply Z.leb_le; lia).
  cbn [negb]. unfold calendar.weekday.
  set (y' := if negb _ then _ else y).
  assert (Hy' : 1 <= y' <= 9999).
  { subst y'. unfold MINYEAR, MAXYEAR.
    destruct ((1 <=? y) && (y <=? 9999)) eqn:E; cbn [negb].
    - unbool. lia.
    - pose proof (Z.mod_pos_bound y 400). lia. }
  rewrite date_new_ok; [|lia|lia|pose proof (days_in_month_bounds y' m Hm); lia].
  cbn [rbind]. eexists. f_equal. f_equal.
  unfold _days_in_month, calendar.isleap, _is_leap.
  assert (Hc : m = 1 \/ m = 2 \/ m = 3 \/ m = 4 \/ m = 5 \/ m = 6 \/
               m = 7 \/ m = 8 \/ m = 9 \/ m = 10 \/ m = 11 \/ m = 12) by lia.
  destruct Hc as [->|[->|[->|[->|[->|[->|[->|[->|[->|[->|[->| ->]]]]]]]]]]];
    try reflexivity.
  destruct ((y mod 4 =? 0) && _); reflexivity.
Qed.

Lemma expected_value_monthly h last :
  last_completed_date h = Some last -> valid_date last ->
  String.eqb (periodicity h) "daily" = false ->
  String.eqb (periodicity h) "weekly" = false ->
  expected_value h =
  if next_month_year last <=? MAXYEAR
  then Ok (Some (same_day_next_month last))
  else Raise (ValueError "year must be in 1..9999").
Proof.
  intros Hl Hv Hd Hw. unfold expected_value. rewrite Hl, Hd, Hw. cbv zeta.
  apply valid_date_iff in Hv. destruct Hv as (Hy & Hm & Hday).
  unfold same_day_next_month, next_month_year, next_month.
  replace (month last + 1 =? 13) with (month last =? 12)
    by (destruct (Z.eqb_spec (month last) 12), (Z.eqb_spec (month last + 1) 13); lia).
  set (y := if month last =? 12 then year last + 1 else year last).
  set (m := if month last =? 12 then 1 else month last + 1).
  assert (Hm' : 1 <= m <= 12).
  { subst m. destruct (Z.eqb_spec (month last) 12); lia. }
  assert (Hy' : 1 <= y).
  { subst y. destruct (Z.eqb_spec (month last) 12); lia. }
  destruct (monthrange_ok y m Hm') as [day1 ->]. cbn [rbind snd].
  pose proof (days_in_month_bounds y m Hm').
  unfold MAXYEAR. destruct (Z.leb_spec y 9999).
  - rewrite date_new_ok; [reflexivity|lia..].
  - unfold date_new, MINYEAR, MAXYEAR.
    replace (y <=? 9999) with false by (symmetry; apply Z.leb_gt; lia).
    rewrite andb_false_r. reflexivity.
Qed.

Lemma same_day_next_month_valid d :
  valid_date d -> next_month_year d <= MAXYEAR ->
  valid_date (same_day_next_month d).
Proof.
  intros Hv Hy. apply valid_date_iff in Hv. destruct Hv as (Hy0 & Hm & Hday).
  apply valid_date_iff. unfold same_day_next_month. cbn [year month day].
  unfold MAXYEAR in Hy.
  assert (Hm' : 1 <= next_month d <= 12).
  { unfold next_month. destruct (Z.eqb_spec (month d) 12); lia. }
  pose proof (days_in_month_bounds (next_month_year d) (next_month d) Hm').
  unfold next_month_year in *. destruct (Z.eqb_spec (month d) 12); lia.
Qed.

Lemma same_day_next_month_later d :
  valid_date d -> date_ltb d (same_day_next_month d) = true.
Proof.
  intros Hv. apply valid_date_iff in Hv. destruct Hv as (Hy0 & Hm & Hday).
  unfold date_ltb, same_day_next_month, next_month_year, next_month.
  cbn [year month day].
  destruct (Z.eqb_spec (month d) 12).
  - replace (year d <? year d + 1) with true by (symmetry; apply Z.ltb_lt; lia).
    reflexivity.
  - rewrite Z.eqb_refl.
    replace (month d <? month d + 1) with true by (symmetry; apply Z.ltb_lt; lia).
    apply orb_true_r.
Qed.

(** Whatever the periodicity, the expected date lies after the last
    completion. *)
Lemma expected_value_later h last e :
  last_completed_date h = Some last -> valid_date last ->
  expected_value h = Ok (Some e) ->
  date_ltb last e = true.
Proof.
  intros Hl Hv He.
  destruct (String.eqb (periodicity h) "daily") eqn:Hd.
  { unfold expected_value in He. rewrite Hl, Hd in He.
    destruct (date_add last 1) as [e'|] eqn:Ha; [|discriminate].
    injection He as <-. apply (date_add_later last 1); [assumption|lia|assumption]. }
  destruct (String.eqb (periodicity h) "weekly") eqn:Hw.
  { unfold expected_value in He. rewrite Hl, Hd, Hw in He.
    destruct (date_add last 7) as [e'|] eqn:Ha; [|discriminate].
    injection He as <-. apply (date_add_later last 7); [assumption|lia|assumption]. }
  rewrite (expected_value_monthly h last Hl Hv Hd Hw) in He.
  destruct (next_month_year last <=? MAXYEAR); [|discriminate].
  injection He as <-. apply same_day_next_month_later. assumption.
Qed.

(** Before year 9999 the expected date always exists. *)
Lemma expected_value_ok h last :
  last_completed_date h = Some last -> valid_date last ->
  year last < MAXYEAR ->
  exists e, expected_value h = Ok (Some e).
Proof.
  intros Hl Hv Hy.
  assert (Hord : toordinal last + 7 <= _MAXORDINAL).
  { pose proof (day_of_year_bounds last Hv) as B.
    unfold toordinal, _ymd2ord, _MAXORDINAL, MAXYEAR in *.
    pose proof (days_before_year_succ (year last)).
    pose proof (days_before_year_mono (year last + 1) 9999) as Hm.
    change (_days_before_year 9999) with 3651694 in Hm. lia. }
  destruct (String.eqb (periodicity h) "daily") eqn:Hd.
  { destruct (date_add_ok last 1 Hv) as (e & He & _); [lia|lia|].
    exists e. unfold expected_value. rewrite Hl, Hd, He. reflexivity. }
  destruct (String.eqb (periodicity h) "weekly") eqn:Hw.
  { destruct (date_add_ok last 7 Hv) as (e & He & _); [lia|lia|].
    exists e. unfold expected_value. rewrite Hl, Hd, Hw, He. reflexivity. }
  rewrite (expected_value_monthly h last Hl Hv Hd Hw).
  replace (next_month_year last <=? MAXYEAR) with true.
  - eexists; reflexivity.
  - symmetry. apply Z.leb_le. unfold next_month_year, MAXYEAR in *.
    destruct (month last =? 12); lia.
Qed.

(** C1. For every habit state and every completion date, [check_off]
    follows the transition rule: with no last completion the streak becomes
    1; otherwise, [expected] being the date [_expected_next_date] returns, a
    completion on [expected] adds 1 to the streak, a completion after
    [expected] sets the streak to 1 however large the gap, and a completion
    before [expected] leaves the streak as it is.  In each case the call
    returns normally. *)
Theorem check_off_transition_rule (h : Habit) (on_date today : date) :
  (last_completed_date h = None ->
   exists h', check_off (Some on_date) today h = (h', Ok tt) /\ streak h' = 1)
  /\
  (forall last expected,
     last_completed_date h = Some last ->
     _expected_next_date h = (h, Ok (Some expected)) ->
     exists h', check_off (Some on_date) today h = (h', Ok tt)
       /\ (on_date = expected -> streak h' = streak h + 1)
       /\ (date_gt on_date expected -> streak h' = 1)
       /\ (date_lt on_date expected -> streak h' = streak h)).
Proof.
  split.
  - intros Hl. rewrite check_off_eq. cbv zeta. rewrite Hl.
    eexists; split; reflexivity.
  - intros last expected Hl He.
    rewrite expected_next_date_eq in He. injection He as He.
    rewrite check_off_eq. cbv zeta. rewrite Hl, He.
    unfold date_gt, date_lt.
    destruct (date_trichotomy on_date expected)
      as [(Heq & Hgt & Hlt)|[(Hne & Hgt & Hlt)|(Hne & Hgt & Hlt)]].
    + apply date_eqb_eq in Heq as Heqb. rewrite Heqb.
      eexists; split; [reflexivity|]. rewrite Hgt, Hlt.
      repeat split; intros; try discriminate; reflexivity.
    + replace (date_eqb on_date expected) with false.
      2:{ symmetry. apply not_true_iff_false. rewrite date_eqb_eq. exact Hne. }
      rewrite Hgt. eexists; split; [reflexivity|]. rewrite Hlt.
      repeat split; intros; try discriminate; try contradiction; reflexivity.
    + replace (date_eqb on_date expected) with false.
      2:{ symmetry. apply not_true_iff_false. rewrite date_eqb_eq. exact Hne. }
      rewrite Hgt. eexists; split; [reflexivity|]. rewrite Hlt.
      repeat split; intros; try discriminate; try contradiction; reflexivity.
Qed.

Lemma check_off_transition_rule_witness :
  exists h', check_off (Some (mkdate 2025 1 13)) (mkdate 2025 1 13) weekly_habit
             = (h', Ok tt)
             /\ streak h' = 2.
Proof.
  destruct (check_off_transition_rule weekly_habit (mkdate 2025 1 13)
              (mkdate 2025 1 13)) as [_ H].
  destruct (H (mkdate 2025 1 6) (mkdate 2025 1 13) eq_refl
              ltac:(vm_compute; reflexivity)) as (h' & E & Hon & _).
  exists h'. split; [exact E|]. rewrite (Hon eq_refl). reflexivity.
Defined.

(** C2. For every habit state with a last completion, the expected next
    date is: for a daily habit the day after the last completion; for a
    weekly habit the seventh day after it; for a monthly habit the same day
    of the following month, clamped to the last day of that month, December
    being followed by January of the next year.  (The day count of [date]
    ends with 9999-12-31: the statement is about the last completions whose
    expected date is a [date].) *)
Theorem expected_next_date_rule (h : Habit) (last : date) :
  last_completed_date h = Some last -> valid_date last ->
  (periodicity h = "daily" -> toordinal last + 1 <= _MAXORDINAL ->
   _expected_next_date h = (h, Ok (Some (next_day last)))
   /\ valid_date (next_day last)
   /\ toordinal (next_day last) = toordinal last + 1)
  /\
  (periodicity h = "weekly" -> toordinal last + 7 <= _MAXORDINAL ->
   _expected_next_date h = (h, Ok (Some (Nat.iter 7 next_day last)))
   /\ valid_date (Nat.iter 7 next_day last)
   /\ toordinal (Nat.iter 7 next_day last) = toordinal last + 7)
  /\
  (periodicity h = "monthly" -> next_month_year last <= MAXYEAR ->
   _expected_next_date h = (h, Ok (Some (same_day_next_month last)))
   /\ valid_date (same_day_next_month last)).
Proof.
  intros Hl Hv. rewrite expected_next_date_eq. repeat split.
  - unfold expected_value. rewrite Hl, H. cbn [String.eqb Ascii.eqb Bool.eqb].
    assert (E : date_add last 1 = Ok (next_day last))
      by (apply (date_add_iter last 1 Hv); cbn; lia).
    rewrite E. reflexivity.
  - apply (iter_next_day 1 last Hv). cbn; lia.
  - apply (iter_next_day 1 last Hv). cbn; lia.
  - unfold expected_value. rewrite Hl, H. cbn [String.eqb Ascii.eqb Bool.eqb].
    assert (E : date_add last 7 = Ok (Nat.iter 7 next_day last))
      by (apply (date_add_iter last 7 Hv); cbn; lia).
    rewrite E. reflexivity.
  - apply (iter_next_day 7 last Hv). cbn; lia.
  - apply (iter_next_day 7 last Hv). cbn; lia.
  - rewrite (expected_value_monthly h last Hl Hv) by (rewrite H; reflexivity).
    replace (next_month_year last <=? MAXYEAR) with true
      by (symmetry; apply Z.leb_le; assumption).
    reflexivity.
  - apply same_day_next_month_valid; assumption.
Qed.

(** A last completion on 31 January 2025 is followed by 28 February. *)
Lemma expected_next_date_rule_witness :
  _expected_next_date monthly_habit
  = (monthly_habit, Ok (Some (mkdate 2025 2 28))).
Proof.
  destruct (expected_next_date_rule monthly_habit (mkdate 2025 1 31) eq_refl
              eq_refl) as (_ & _ & H).
  destruct (H eq_refl ltac:(vm_compute; discriminate)) as [E _].
  exact E.
Defined.

(** Reading a field of a state [check_off] has written. *)
Ltac simpl_state :=
  cbn [fst snd streak completed last_completed_date completed_on set_streak
       set_completed set_last_completed_date].

(** C4 as stated fails.  A same-day completion on a state with a last
    completion and streak 0 leaves the streak at 0; and on a state whose
    expected date is beyond 9999-12-31 the call raises and leaves the state
    as it was, whatever date is passed in. *)
Lemma check_off_guarantee_counterexample :
  ~ check_off_guarantee (mkdate 2025 1 1)
      (fst (check_off (Some (mkdate 2025 1 1)) (mkdate 2025 1 1)
              zero_streak_habit))
  /\
  (check_off (Some (mkdate 9999 12 30)) (mkdate 9999 12 30) last_day_habit
   = (last_day_habit, Raise (OverflowError "date value out of range"))
   /\ ~ check_off_guarantee (mkdate 9999 12 30)
        (fst (check_off (Some (mkdate 9999 12 30)) (mkdate 9999 12 30)
                last_day_habit))).
Proof.
  split; [|split].
  - vm_compute. intros (H & _). apply H. reflexivity.
  - vm_compute. reflexivity.
  - vm_compute. intros (_ & _ & H). discriminate H.
Qed.

(** C4, amended.  On a prior state whose streak is at least 1 whenever it
    has a last completion, and whose expected date exists, every call
    [check_off(on_date)] returns and leaves a state with streak at least 1,
    [completed] set and [last_completed_date] equal to [on_date]; a
    completion before the expected date (also one before the last
    completion) keeps the streak. *)
Theorem check_off_guarantee_amended (h : Habit) (on_date today : date) :
  (forall last, last_completed_date h = Some last ->
     1 <= streak h /\ is_ok (snd (_expected_next_date h)) = true) ->
  exists h',
    check_off (Some on_date) today h = (h', Ok tt)
    /\ check_off_guarantee on_date h'
    /\ (forall last expected,
          last_completed_date h = Some last ->
          _expected_next_date h = (h, Ok (Some expected)) ->
          date_lt on_date expected -> streak h' = streak h).
Proof.
  intros Hpre. rewrite check_off_eq. cbv zeta. unfold check_off_guarantee.
  destruct (last_completed_date h) as [last|] eqn:Hl.
  - destruct (Hpre last eq_refl) as [Hs Hok].
    rewrite expected_next_date_eq in Hok. cbn [snd] in Hok.
    pose proof (expected_value_some h last Hl) as Hsome.
    destruct (expected_value h) as [[e|]|err] eqn:He;
      [|contradiction|discriminate].
    destruct (date_trichotomy on_date e)
      as [(Heq & Hgt & Hlt)|[(Hne & Hgt & Hlt)|(Hne & Hgt & Hlt)]].
    + apply date_eqb_eq in Heq as Heqb. rewrite Heqb.
      eexists; split; [reflexivity|]. simpl_state. repeat split; try lia.
      intros l' e' _ He'. rewrite expected_next_date_eq in He'.
      injection He' as He'. rewrite He in He'. injection He' as <-.
      unfold date_lt. rewrite Hlt. discriminate.
    + replace (date_eqb on_date e) with false.
      2:{ symmetry. apply not_true_iff_false. rewrite date_eqb_eq. exact Hne. }
      rewrite Hgt. eexists; split; [reflexivity|]. simpl_state. repeat split; try lia.
      intros l' e' _ He'. rewrite expected_next_date_eq in He'.
      injection He' as He'. rewrite He in He'. injection He' as <-.
      unfold date_lt. rewrite Hlt. discriminate.
    + replace (date_eqb on_date e) with false.
      2:{ symmetry. apply not_true_iff_false. rewrite date_eqb_eq. exact Hne. }
      rewrite Hgt. eexists; split; [reflexivity|]. simpl_state. repeat split; try lia.
  - eexists; split; [reflexivity|]. simpl_state. repeat split; try lia.
    intros l' e' Habs. discriminate.
Qed.

(** An early completion, before the last one: the streak stays, the
    anchor moves back. *)
Lemma check_off_guarantee_amended_witness :
  exists h',
    check_off (Some (mkdate 2025 1 3)) (mkdate 2025 1 3) weekly_habit
    = (h', Ok tt)
    /\ streak h' = 1
    /\ last_completed_date h' = Some (mkdate 2025 1 3).
Proof.
  destruct (check_off_guarantee_amended weekly_habit (mkdate 2025 1 3)
              (mkdate 2025 1 3)) as (h' & E & (_ & _ & Hlast) & Hkeep).
  - intros last Hl. split; [cbn; lia | vm_compute; reflexivity].
  - exists h'. split; [exact E|]. split; [|exact Hlast].
    rewrite (Hkeep (mkdate 2025 1 6) (mkdate 2025 1 13) eq_refl
               ltac:(vm_compute; reflexivity) ltac:(vm_compute; reflexivity)).
    reflexivity.
Defined.

Lemma from_form_fresh name description goal start_date periodicity reminder h :
  from_form name description goal start_date periodicity reminder = Ok h ->
  streak h = 0 /\ completed h = false /\ last_completed_date h = None.
Proof.
  unfold from_form.
  destruct (_strptime.strptime start_date _) as [dt|]; [|discriminate].
  cbn [rbind].
  destruct (match reminder with Some _ => _ | None => _ end) as [rt|];
    [|discriminate].
  cbn [rbind]. destruct (negb _); [discriminate|].
  intros [= <-]. auto.
Qed.

(** One call of [check_off] on a state with the invariant and a streak that
    is not negative. *)
Lemma check_off_step h od today :
  0 <= streak h -> streak_invariant h ->
  let on_date := match od with Some d => d | None => today end in
  let h' := fst (check_off od today h) in
  0 <= streak h' /\ streak_invariant h'
  /\ (streak h <= streak h' \/ (streak h' = 1 /\ missed_period h on_date)).
Proof.
  intros Hs Hinv. cbv zeta. rewrite check_off_eq. cbv zeta.
  set (on_date := match od with Some d => d | None => today end).
  unfold streak_invariant in *.
  destruct (last_completed_date h) as [last|] eqn:Hl.
  - assert (Hpos : 1 <= streak h).
    { destruct (Z.eq_dec (streak h) 0) as [E|E]; [|lia].
      apply Hinv in E. discriminate. }
    destruct (expected_value h) as [[e|]|err] eqn:He; cbn [fst].
    + destruct (date_eqb on_date e).
      { simpl_state. split; [lia|]. split; [|lia]. split; [lia|discriminate]. }
      destruct (date_gtb on_date e) eqn:Hgt.
      * simpl_state. split; [lia|]. split; [split; [lia|discriminate]|].
        right. split; [reflexivity|]. exists last, e.
        rewrite expected_next_date_eq, He. auto.
      * simpl_state. split; [lia|]. split; [|lia]. split; [lia|discriminate].
    + simpl_state. split; [lia|]. split; [|lia]. split; [lia|discriminate].
    + rewrite Hl. split; [lia|]. split; [|lia]. split; [lia|discriminate].
  - cbn [fst]. simpl_state.
    assert (streak h = 0) by (apply Hinv; reflexivity).
    split; [lia|]. split; [|lia]. split; [lia|discriminate].
Qed.

Lemma reachable_invariant h :
  reachable h -> 0 <= streak h /\ streak_invariant h.
Proof.
  induction 1 as [n de g sd p r h Hf | h od today Hr [IHs IHi]].
  - destruct (from_form_fresh _ _ _ _ _ _ _ Hf) as (Hs & _ & Hl).
    unfold streak_invariant. rewrite Hs, Hl. split; [lia|tauto].
  - destruct (check_off_step h od today IHs IHi) as (H1 & H2 & _). auto.
Qed.

(** C5. A habit built by [from_form] has streak 0, is not completed and has
    no last completion, so the invariant (streak = 0 iff there is no last
    completion) holds for it; every call of [check_off] preserves the
    invariant, and across a call the streak never decreases except to
    become exactly 1 when a period was missed.  This holds in every state a
    program reaches from [from_form] by calls of [check_off], and for one
    call on any state with the invariant whose streak is not negative. *)
Theorem streak_invariant_preserved :
  (forall name description goal start_date periodicity reminder h,
     from_form name description goal start_date periodicity reminder = Ok h ->
     streak h = 0 /\ completed h = false /\ last_completed_date h = None
     /\ streak_invariant h)
  /\
  (forall h, reachable h ->
     streak_invariant h
     /\ forall od today,
          let on_date := match od with Some d => d | None => today end in
          let h' := fst (check_off od today h) in
          streak_invariant h'
          /\ (streak h <= streak h'
              \/ (streak h' = 1 /\ missed_period h on_date)))
  /\
  (forall h od today,
     0 <= streak h -> streak_invariant h ->
     let on_date := match od with Some d => d | None => today end in
     let h' := fst (check_off od today h) in
     0 <= streak h' /\ streak_invariant h'
     /\ (streak h <= streak h'
         \/ (streak h' = 1 /\ missed_period h on_date))).
Proof.
  split; [|split].
  - intros n de g sd p r h Hf.
    destruct (from_form_fresh _ _ _ _ _ _ _ Hf) as (Hs & Hc & Hl).
    repeat split; try assumption; unfold streak_invariant; intros _; assumption.
  - intros h Hr. destruct (reachable_invariant h Hr) as [Hs Hi].
    split; [exact Hi|]. intros od today.
    destruct (check_off_step h od today Hs Hi) as (_ & H2 & H3). auto.
  - intros h od today Hs Hi. exact (check_off_step h od today Hs Hi).
Qed.

(** After a call that returned, the two fields every branch writes. *)
Lemma check_off_returns h h1 od today :
  check_off od today h = (h1, Ok tt) ->
  completed h1 = true
  /\ last_completed_date h1
     = Some (match od with Some d => d | None => today end).
Proof.
  intros H1. rewrite check_off_eq in H1. cbv zeta in H1.
  destruct (last_completed_date h); [|injection H1 as <-; auto].
  destruct (expected_value h) as [[e|]|err]; [| |discriminate].
  - destruct (date_eqb _ e); [injection H1 as <-; auto|].
    destruct (date_gtb _ e); injection H1 as <-; auto.
  - injection H1 as <-; auto.
Qed.

(** A call that raises leaves the object as it was. *)
Lemma check_off_raises h od today e :
  snd (check_off od today h) = Raise e -> fst (check_off od today h) = h.
Proof.
  rewrite check_off_eq. cbv zeta.
  destruct (last_completed_date h); [|discriminate].
  destruct (expected_value h) as [[e'|]|err]; [| |reflexivity].
  - destruct (date_eqb _ e'); [discriminate|].
    destruct (date_gtb _ e'); discriminate.
  - discriminate.
Qed.

(** A second completion on the date of the last one. *)
Lemma check_off_same_date h d today :
  valid_date d -> completed h = true -> last_completed_date h = Some d ->
  fst (check_off (Some d) today h) = h
  /\ (year d < MAXYEAR -> check_off (Some d) today h = (h, Ok tt)).
Proof.
  intros Hv Hc Hl.
  assert (Hid : completed_on d (streak h) h = h).
  { destruct h; cbn in *. rewrite Hc, Hl. reflexivity. }
  assert (Hbranch : forall e, expected_value h = Ok (Some e) ->
            date_eqb d e = false /\ date_gtb d e = false).
  { intros e He. pose proof (expected_value_later h d e Hl Hv He) as Hlt.
    split.
    - apply not_true_iff_false. rewrite date_eqb_eq. intros ->.
      rewrite date_ltb_irrefl in Hlt. discriminate.
    - apply date_ltb_asym. exact Hlt. }
  split.
  - rewrite check_off_eq. cbv zeta. rewrite Hl.
    destruct (expected_value h) as [[e|]|err] eqn:He; [| |reflexivity].
    + destruct (Hbranch e eq_refl) as [-> ->]. exact Hid.
    + exact Hid.
  - intros Hy. destruct (expected_value_ok h d Hl Hv Hy) as [e He].
    rewrite check_off_eq. cbv zeta. rewrite Hl, He.
    destruct (Hbranch e He) as [-> ->]. rewrite Hid. reflexivity.
Qed.

(** C10. [check_off] is idempotent on repeated calls with the same date:
    for every habit state, every periodicity and every date [d], a second
    call [check_off(d)] leaves the state the first call produced as it is,
    with the same streak, [completed] still set and [last_completed_date]
    still [d].  The second call returns whenever the date expected after [d]
    exists. *)
Theorem check_off_idempotent (h : Habit) (d today : date) :
  valid_date d ->
  let h1 := fst (check_off (Some d) today h) in
  fst (check_off (Some d) today h1) = h1
  /\ (snd (check_off (Some d) today h) = Ok tt ->
      streak (fst (check_off (Some d) today h1)) = streak h1
      /\ completed h1 = true
      /\ last_completed_date h1 = Some d
      /\ (year d < MAXYEAR -> check_off (Some d) today h1 = (h1, Ok tt))).
Proof.
  intros Hv h1.
  destruct (check_off (Some d) today h) as [h1' [[]|e]] eqn:H1; subst h1;
    cbn [fst snd].
  - destruct (check_off_returns h h1' (Some d) today H1) as [Hc Hl].
    destruct (check_off_same_date h1' d today Hv Hc Hl) as [Hsame Hret].
    split; [exact Hsame|]. intros _. rewrite Hsame. auto.
  - assert (Hh : h1' = h).
    { pose proof (check_off_raises h (Some d) today e) as Hr.
      rewrite H1 in Hr. apply Hr. reflexivity. }
    subst h1'. rewrite H1. split; [reflexivity|discriminate].
Qed.

Lemma streak_invariant_preserved_witness :
  streak_invariant fresh_habit
  /\ streak_invariant
       (fst (check_off (Some (mkdate 2025 1 6)) (mkdate 2025 1 6) fresh_habit)).
Proof.
  destruct streak_invariant_preserved as (Hnew & Hstep & _).
  assert (Hf : from_form "Drink Water" "8 glasses" "Hydration" "2025-01-06"
                 "daily" (Some "09:00") = Ok fresh_habit)
    by (vm_compute; reflexivity).
  split.
  - exact (proj2 (proj2 (proj2 (Hnew _ _ _ _ _ _ _ Hf)))).
  - exact (proj1 (proj2 (Hstep fresh_habit (reachable_from_form _ _ _ _ _ _ _ Hf))
                    (Some (mkdate 2025 1 6)) (mkdate 2025 1 6))).
Defined.

(** Checked off twice on 13 January 2025, the weekly habit keeps the
    streak 2 of the first call. *)
Lemma check_off_idempotent_witness :
  let h1 := fst (check_off (Some (mkdate 2025 1 13)) (mkdate 2025 1 13)
                   weekly_habit) in
  check_off (Some (mkdate 2025 1 13)) (mkdate 2025 1 13) h1 = (h1, Ok tt)
  /\ streak h1 = 2.
Proof.
  destruct (check_off_idempotent weekly_habit (mkdate 2025 1 13)
              (mkdate 2025 1 13) eq_refl) as [_ H].
  destruct (H ltac:(vm_compute; reflexivity)) as (_ & _ & _ & Hret).
  split; [apply Hret; vm_compute; reflexivity | vm_compute; reflexivity].
Defined.

(** ** The scenarios of the specification *)

Lemma raises_iff_not_ok {A} (r : result A) : raises r <-> is_ok r = false.
Proof.
  unfold raises. destruct r; cbn; split; try discriminate; eauto.
  intros [e He]. discriminate.
Qed.

(** C8 as stated fails: the empty string is not a time of day, yet
    [from_form] accepts it as a reminder and builds a habit without one. *)
Lemma from_form_empty_reminder_counterexample :
  ~ (raises (from_form "Read" "Read 10 pages" "Learning" "2025-01-06" "daily"
               (Some ""))
     <-> invalid_input_as_stated "2025-01-06" "daily" (Some "")).
Proof.
  intros [_ H].
  assert (Hinv : invalid_input_as_stated "2025-01-06" "daily" (Some "")).
  { right; left. exists "". split; [reflexivity|].
    eexists. vm_compute. reflexivity. }
  destruct (H Hinv) as [e He]. vm_compute in He. discriminate He.
Qed.

(** One case of [from_form]: the three parts of C8 follow from what the
    case analysis has put into the context. *)
Ltac from_form_case :=
  repeat match goal with
  | |- _ /\ _ => split
  | |- _ <-> _ => split
  | |- forall _, _ => intro
  | H : exists _, _ |- _ => destruct H
  | H : _ /\ _ |- _ => destruct H
  | H : _ \/ _ |- _ => destruct H
  | H : Some _ = Some _ |- _ => injection H as H; subst
  | H : Ok _ = Ok _ |- _ => injection H as H; subst
  | H : ?x = Raise _, H' : ?x = Ok _ |- _ => rewrite H in H'
  | H : ?x = Ok _, H' : ?x = Raise _ |- _ => rewrite H in H'
  end;
  try discriminate; try contradiction; try congruence; try reflexivity;
  try (exfalso; eauto; fail); eauto.

(** C8, amended.  [from_form] raises exactly when the start date does not
    parse as YYYY-MM-DD, or a reminder other than the empty string is passed
    and does not parse as HH:MM, or the periodicity is not one of daily,
    weekly, monthly; the last error, when the two strings parse, is the
    [ValueError] that names the three values.  No reminder, or the empty
    string, gives a habit without reminder. *)
Theorem from_form_fails_exactly_when_invalid
    (name description goal start_date periodicity : string)
    (reminder : option string) :
  (raises (from_form name description goal start_date periodicity reminder)
   <-> invalid_input start_date periodicity reminder)
  /\
  (forall h,
     from_form name description goal start_date periodicity reminder = Ok h ->
     reminder = None \/ reminder = Some EmptyString ->
     habit.reminder h = None)
  /\
  (periodicity ∉ periodicities ->
   ~ raises (strptime start_date fmt_Ymd) ->
   ~ (exists r, reminder = Some r /\ r <> EmptyString
                /\ raises (strptime r fmt_HM)) ->
   from_form name description goal start_date periodicity reminder
   = Raise (ValueError "Periodicity must be one of: daily, weekly, monthly.")).
Proof.
  unfold invalid_input, from_form, raises.
  destruct (strptime start_date fmt_Ymd) as [dt|e1] eqn:Hd; cbn [rbind];
    [|from_form_case].
  destruct reminder as [r|]; cbn [rbind].
  - destruct (String.eqb_spec r EmptyString) as [->|Hne]; cbn [negb rbind].
    + destruct (bool_decide_reflect (periodicity ∈ periodicities)) as [Hp|Hp];
        cbn [negb]; from_form_case.
    + destruct (strptime r fmt_HM) as [t|e2] eqn:Ht; cbn [rbind].
      * destruct (bool_decide_reflect (periodicity ∈ periodicities)) as [Hp|Hp];
          cbn [negb]; from_form_case.
      * from_form_case.
        -- right; left. exists r. eauto.
        -- exfalso.
           match goal with H : ~ (exists _, _) |- _ => apply H end.
           exists r. eauto.
  - destruct (bool_decide_reflect (periodicity ∈ periodicities)) as [Hp|Hp];
      cbn [negb]; from_form_case.
Qed.

Lemma from_form_fails_exactly_when_invalid_witness :
  from_form "Run" "5 km" "Fitness" "2025-01-06" "yearly" (Some "09:00")
  = Raise (ValueError "Periodicity must be one of: daily, weekly, monthly.").
Proof.
  refine (proj2 (proj2 (from_form_fails_exactly_when_invalid
                          "Run" "5 km" "Fitness" "2025-01-06" "yearly"
                          (Some "09:00"))) _ _ _).
  - apply (proj1 (bool_decide_eq_false _)). vm_compute. reflexivity.
  - intros [e He]. vm_compute in He. discriminate He.
  - intros (r & Hr & _ & e & He). injection Hr as <-.
    vm_compute in He. discriminate He.
Defined.

(** ** Round trip through the ISO formats *)

Lemma match_alt_app alt s m rest :
  match_alt alt s = Some (m, EmptyString) ->
  match_alt alt (String.append s rest) = Some (m, rest).
Proof.
  revert s m. induction alt as [|k alt IH]; intros s m H.
  - cbn in H. injection H as <- ->. reflexivity.
  - destruct s as [|c s]; [discriminate|].
    change (String.append (String c s) rest) with (String c (String.append s rest)).
    cbn [match_alt] in *.
    destruct (chclass_match k c); [|discriminate].
    destruct (match_alt alt s) as [[m' r']|] eqn:E; [|discriminate].
    injection H as <- ->. rewrite (IH s m' E). reflexivity.
Qed.

Lemma year_text y :
  1 <= y <= 9999 ->
  match_alt [Digit; Digit; Digit; Digit] (format_0d 4 y)
  = Some (format_0d 4 y, EmptyString)
  /\ int_of_str (format_0d 4 y) = Ok y.
Proof.
  intros Hy.
  assert (H : year_text_ok y = true).
  { apply (all_below_spec year_text_ok 10000); [vm_compute; reflexivity | lia]. }
  unfold year_text_ok in H. apply andb_true_iff in H. destruct H as [H1 H2].
  apply bool_decide_eq_true in H1. apply bool_decide_eq_true in H2. auto.
Qed.

Lemma month_day_text_parses m d :
  1 <= m <= 12 -> 1 <= d <= 31 ->
  head (match_items [Char "-"; Group "m" re_m; Char "-"; Group "d" re_d]
          (month_day_text m d))
  = Some ([("m", format_0d 2 m); ("d", format_0d 2 d)], EmptyString)
  /\ int_of_str (format_0d 2 m) = Ok m
  /\ int_of_str (format_0d 2 d) = Ok d.
Proof.
  intros Hm Hd.
  assert (H : month_day_text_ok ((m - 1) * 31 + (d - 1)) = true).
  { apply (all_below_spec month_day_text_ok 372); [vm_compute; reflexivity | lia]. }
  unfold month_day_text_ok in H. cbv zeta in H.
  replace (((m - 1) * 31 + (d - 1)) / 31 + 1) with m in H
    by (Z.div_mod_to_equations; lia).
  replace (((m - 1) * 31 + (d - 1)) mod 31 + 1) with d in H
    by (Z.div_mod_to_equations; lia).
  apply andb_true_iff in H. destruct H as [H H3].
  apply andb_true_iff in H. destruct H as [H1 H2].
  apply bool_decide_eq_true in H1, H2, H3. auto.
Qed.

Lemma head_map_app {A B} (g : A -> B) (l : list A) (l' : list B) x :
  head l = Some x -> head (map g l ++ l') = Some (g x).
Proof. destruct l; [discriminate|]. intros [= ->]. reflexivity. Qed.

(** A date in ISO format parses back to itself. *)
Lemma strptime_date_isoformat d :
  valid_date d ->
  strptime (date_isoformat d) fmt_Ymd = Ok (mkdatetime d (mktime 0 0 0)).
Proof.
  intros Hv. pose proof Hv as Hv'.
  apply valid_date_iff in Hv'. destruct Hv' as (Hy & Hm & Hd).
  pose proof (days_in_month_bounds (year d) (month d) Hm) as Hdim.
  destruct (year_text (year d) Hy) as [Hy1 Hy2].
  destruct (month_day_text_parses (month d) (day d) Hm) as (Hmd & Hm2 & Hd2);
    [lia|].
  unfold strptime, re_match.
  change (date_isoformat d)
    with (String.append (format_0d 4 (year d))
            (month_day_text (month d) (day d))).
  change (pattern fmt_Ymd)
    with (Group "Y" [[Digit; Digit; Digit; Digit]]
          :: [Char "-"; Group "m" re_m; Char "-"; Group "d" re_d]).
  cbn [match_items flat_map].
  rewrite (match_alt_app _ _ _ _ Hy1).
  rewrite (head_map_app _ _ _ _ Hmd).
  cbn [negb String.eqb convert_groups convert_group rbind].
  rewrite Hy2. cbn [rbind String.eqb Ascii.eqb Bool.eqb f_year f_month f_day
                      f_hour f_minute fields0].
  rewrite Hm2. cbn [rbind String.eqb Ascii.eqb Bool.eqb f_year f_month f_day
                      f_hour f_minute fields0].
  rewrite Hd2. cbn [rbind String.eqb Ascii.eqb Bool.eqb f_year f_month f_day
                      f_hour f_minute fields0].
  rewrite date_new_ok by lia. cbn [rbind]. destruct d; reflexivity.
Qed.

(** A time of day in ISO format, to the minute, parses back to itself. *)
Lemma strptime_time_isoformat hh mm :
  0 <= hh <= 23 -> 0 <= mm <= 59 ->
  strptime (time_isoformat_minutes (mktime hh mm 0)) fmt_HM
  = Ok (mkdatetime (mkdate 1900 1 1) (mktime hh mm 0))
  /\ time_isoformat_minutes (mktime hh mm 0) <> EmptyString.
Proof.
  intros Hh Hmn.
  assert (H : time_text_ok (hh * 60 + mm) = true).
  { apply (all_below_spec time_text_ok 1440); [vm_compute; reflexivity | lia]. }
  unfold time_text_ok in H. cbv zeta in H.
  replace ((hh * 60 + mm) / 60) with hh in H by (Z.div_mod_to_equations; lia).
  replace ((hh * 60 + mm) mod 60) with mm in H by (Z.div_mod_to_equations; lia).
  apply andb_true_iff in H. destruct H as [H1 H2].
  apply bool_decide_eq_true in H1. split; [exact H1|].
  intros E. rewrite E in H2. discriminate.
Qed.

(** C9. Round trip of construction: a habit built by [from_form] from a
    start date and a reminder time written in the forms "YYYY-MM-DD" and
    "HH:MM" (such as "2025-01-06" and "09:00") holds exactly that calendar
    date and that time of day, and writing the two fields out again gives
    the original strings. *)
Theorem from_form_round_trip (name description goal periodicity : string)
    (d : date) (hh mm : Z) :
  valid_date d -> 0 <= hh <= 23 -> 0 <= mm <= 59 ->
  periodicity ∈ periodicities ->
  exists h,
    from_form name description goal (date_isoformat d) periodicity
      (Some (time_isoformat_minutes (mktime hh mm 0))) = Ok h
    /\ dt_date (start_date h) = d
    /\ reminder h = Some (mktime hh mm 0)
    /\ date_isoformat (dt_date (start_date h)) = date_isoformat d
    /\ option_map time_isoformat_minutes (reminder h)
       = Some (time_isoformat_minutes (mktime hh mm 0)).
Proof.
  intros Hv Hh Hm Hp.
  destruct (strptime_time_isoformat hh mm Hh Hm) as [Ht Hne].
  unfold from_form. rewrite (strptime_date_isoformat d Hv). cbn [rbind].
  destruct (String.eqb_spec (time_isoformat_minutes (mktime hh mm 0)) EmptyString)
    as [E|_]; [contradiction|].
  cbn [negb]. rewrite Ht. cbn [rbind dt_time].
  rewrite (bool_decide_eq_true_2 _ Hp). cbn [negb].
  eexists. split; [reflexivity|]. cbn. auto.
Qed.

Lemma from_form_round_trip_witness :
  exists h,
    from_form "Drink Water" "8 glasses" "Hydration" "2025-01-06" "daily"
      (Some "09:00") = Ok h
    /\ dt_date (start_date h) = mkdate 2025 1 6
    /\ reminder h = Some (mktime 9 0 0)
    /\ date_isoformat (dt_date (start_date h)) = "2025-01-06"
    /\ option_map time_isoformat_minutes (reminder h) = Some "09:00".
Proof.
  exact (from_form_round_trip "Drink Water" "8 glasses" "Hydration" "daily"
           (mkdate 2025 1 6) 9 0 eq_refl ltac:(lia) ltac:(lia)
           ltac:(apply (proj1 (bool_decide_eq_true _)); vm_compute; reflexivity)).
Defined.

End HabitFacts.

(** * The analytics functions *)

Module AnalyseFacts.

Import builtins analyse AnalyseSpec.

Section MaxBy.

Context {A : Type} (key : A -> Z).

Lemma max_by_snoc x xs y :
  max_by key x (xs ++ [y]) =
  if key (max_by key x xs) <? key y then y else max_by key x xs.
Proof. unfold max_by. rewrite fold_left_app. reflexivity. Qed.

(** [max_by] returns the first item with the greatest key. *)
Lemma max_by_first x xs :
  exists i : nat,
    (x :: xs) !! i = Some (max_by key x xs)
    /\ forall (j : nat) w, (x :: xs) !! j = Some w ->
         key w <= key (max_by key x xs)
         /\ ((j < i)%nat -> key w < key (max_by key x xs)).
Proof.
  induction xs as [|y xs IH] using rev_ind.
  - exists 0%nat. split; [reflexivity|].
    intros [|j] w Hw; cbn in Hw; [|discriminate].
    injection Hw as <-. split; [cbn; lia|lia].
  - destruct IH as (i & Hi & Hall). rewrite max_by_snoc.
    set (best := max_by key x xs) in *.
    assert (Hlen : (i < List.length (x :: xs))%nat) by (eapply lookup_lt_Some; eauto).
    destruct (Z.ltb_spec (key best) (key y)) as [Hlt|Hge].
    + exists (List.length (x :: xs)). split.
      * change (x :: xs ++ [y]) with ((x :: xs) ++ [y]).
        rewrite lookup_app_r by lia. rewrite Nat.sub_diag. reflexivity.
      * intros j w Hw. change (x :: xs ++ [y]) with ((x :: xs) ++ [y]) in Hw.
        destruct (Nat.lt_ge_cases j (List.length (x :: xs))) as [Hj|Hj].
        -- rewrite lookup_app_l in Hw by exact Hj.
           destruct (Hall j w Hw) as [Hle _]. lia.
        -- rewrite lookup_app_r in Hw by exact Hj.
           destruct (j - List.length (x :: xs))%nat as [|k] eqn:E;
             cbn in Hw; [|discriminate].
           injection Hw as <-. split; [lia|lia].
    + exists i. split.
      * change (x :: xs ++ [y]) with ((x :: xs) ++ [y]).
        rewrite lookup_app_l by exact Hlen. exact Hi.
      * intros j w Hw. change (x :: xs ++ [y]) with ((x :: xs) ++ [y]) in Hw.
        destruct (Nat.lt_ge_cases j (List.length (x :: xs))) as [Hj|Hj].
        -- rewrite lookup_app_l in Hw by exact Hj. apply Hall. exact Hw.
        -- rewrite lookup_app_r in Hw by exact Hj.
           destruct (j - List.length (x :: xs))%nat as [|k] eqn:E;
             cbn in Hw; [|discriminate].
           injection Hw as <-. split; [lia|lia].
Qed.

End MaxBy.

Section ListMap.

Context {A B : Type} (f : A -> result B).

Lemma list_map_ok l :
  (forall x, x ∈ l -> is_ok (f x) = true) ->
  exists ys, list_map f l = Ok ys
    /\ List.length ys = List.length l
    /\ forall (i : nat) x, l !! i = Some x ->
         exists y, ys !! i = Some y /\ f x = Ok y.
Proof.
  induction l as [|x l IH]; intros Hall.
  - exists []. repeat split. intros i x Hx. discriminate.
  - destruct IH as (ys & Hys & Hlen & Hlook).
    { intros z Hz. apply Hall. right. exact Hz. }
    assert (Hx : is_ok (f x) = true) by (apply Hall; left).
    destruct (f x) as [y|] eqn:Hfx; [|discriminate].
    exists (y :: ys). cbn [list_map rbind]. rewrite Hfx, Hys. cbn [rbind].
    split; [reflexivity|]. split; [cbn; lia|].
    intros [|i] z Hz; cbn in Hz.
    + injection Hz as <-. exists y. auto.
    + apply Hlook in Hz. exact Hz.
Qed.

Lemma list_map_lookup l ys (i : nat) y :
  list_map f l = Ok ys -> ys !! i = Some y ->
  exists x, l !! i = Some x /\ f x = Ok y.
Proof.
  revert ys i. induction l as [|x l IH]; intros ys i Hm Hy.
  - injection Hm as <-. discriminate.
  - cbn [list_map] in Hm. destruct (f x) as [y0|] eqn:Hfx; [|discriminate].
    cbn [rbind] in Hm. destruct (list_map f l) as [ys0|]; [|discriminate].
    injection Hm as <-. destruct i as [|i]; cbn in Hy.
    + injection Hy as <-. exists x. auto.
    + destruct (IH ys0 i eq_refl Hy) as (x' & Hx' & Hfx'). exists x'. auto.
Qed.

End ListMap.

(** A view holds the id and the streak of its row, and exists exactly for
    the rows that can be read. *)
Lemma as_view_columns r v :
  _as_view r = Ok v ->
  row_id r = Ok (id v) /\ row_streak r = Ok (streak v) /\ readable r.
Proof.
  unfold _as_view, readable, row_id, row_streak, subscript.
  destruct (r !! "id") as [iv|]; [|discriminate]. cbn [rbind].
  destruct (py_int iv) as [n|]; [|discriminate]. cbn [rbind].
  destruct (r !! "name") as [nv|]; [|discriminate]. cbn [rbind].
  destruct (py_int (get r "streak" (PInt 0))) as [s|]; [|discriminate].
  cbn [rbind]. intros [= <-]. cbn. eauto 6.
Qed.

Lemma readable_as_view r :
  readable r <-> is_ok (_as_view r) = true.
Proof.
  split.
  - intros (Hid & [nv Hn] & Hs).
    unfold _as_view, row_id, row_streak, subscript in *.
    destruct (r !! "id") as [iv|]; [|discriminate]. cbn [rbind] in *.
    destruct (py_int iv) as [n|]; [|discriminate]. cbn [rbind].
    rewrite Hn. cbn [rbind].
    destruct (py_int (get r "streak" (PInt 0))) as [s|]; [|discriminate].
    reflexivity.
  - destruct (_as_view r) as [v|] eqn:Hv; [|discriminate]. intros _.
    apply (as_view_columns r v Hv).
Qed.

Lemma list_map_is_ok {A B} (f : A -> result B) l :
  is_ok (list_map f l) = true <-> Forall (fun x => is_ok (f x) = true) l.
Proof.
  induction l as [|x l IH]; [split; [constructor|reflexivity]|].
  cbn [list_map]. split.
  - destruct (f x) as [y|] eqn:Hfx; [|discriminate]. cbn [rbind].
    destruct (list_map f l) as [ys|]; [|discriminate]. intros _.
    constructor; [rewrite Hfx; reflexivity|]. apply IH. reflexivity.
  - intros H. inversion H as [|x0 l0 Hx Hl]; subst.
    destruct (f x) as [y|]; [|discriminate]. cbn [rbind].
    apply IH in Hl. destruct (list_map f l); [reflexivity|discriminate].
Qed.

(** C6 as stated fails.  A row with id 1 and streak 5 is the only row of
    its list, so the pair to return would be (1, 5); but the row has no
    name, and [longest_run_streak], which converts every row to a view
    first, raises the [KeyError] of that column.  A row without an id
    raises likewise. *)
Lemma longest_run_streak_first_max_counterexample :
  (row_id row_without_name = Ok 1 /\ row_streak row_without_name = Ok 5
   /\ longest_run_streak [row_without_name] = Raise (KeyError "name"))
  /\ longest_run_streak [row_without_id] = Raise (KeyError "id").
Proof. repeat split; vm_compute; reflexivity. Qed.

(** C6, amended.  On a list of rows that can all be read,
    [longest_run_streak] returns the pair of [int(r["id"])] and
    [int(r.get("streak", 0))] of a row [r] with the greatest streak, the
    first such row in the order of the list, and [(None, 0)] for the empty
    list; on a list with a row that cannot be read it raises. *)
Theorem longest_run_streak_first_max_amended (rows : list Row) :
  (Forall readable rows ->
   (rows = [] -> longest_run_streak rows = Ok (None, 0))
   /\
   (rows <> [] ->
    exists (i : nat) r n s,
      rows !! i = Some r /\ row_id r = Ok n /\ row_streak r = Ok s
      /\ longest_run_streak rows = Ok (Some n, s)
      /\ forall (j : nat) r' s',
           rows !! j = Some r' -> row_streak r' = Ok s' ->
           s' <= s /\ ((j < i)%nat -> s' < s)))
  /\ (~ Forall readable rows -> raises (longest_run_streak rows)).
Proof.
  split.
  - intros Hrows. split; [intros ->; reflexivity|]. intros Hne.
    assert (Hok : forall r, r ∈ rows -> is_ok (_as_view r) = true).
    { intros r Hr. apply readable_as_view.
      rewrite Forall_forall in Hrows. apply Hrows. exact Hr. }
    destruct (list_map_ok _as_view rows Hok) as (views & Hviews & Hlen & Hlook).
    unfold longest_run_streak, list_all_habits. rewrite Hviews. cbn [rbind].
    destruct views as [|v0 vs].
    { destruct rows; [contradiction|discriminate]. }
    destruct (max_by_first streak v0 vs) as (i & Hi & Hmax).
    set (top := max_by streak v0 vs) in *.
    destruct (list_map_lookup _as_view rows (v0 :: vs) i top Hviews Hi)
      as (r & Hr & Hv).
    destruct (as_view_columns r top Hv) as (Hid & Hs & _).
    exists i, r, (id top), (streak top).
    split; [exact Hr|]. split; [exact Hid|]. split; [exact Hs|].
    split; [reflexivity|].
    intros j r' s' Hj Hs'.
    destruct (Hlook j r' Hj) as (v' & Hv' & Hfv').
    destruct (as_view_columns r' v' Hfv') as (_ & Hs'' & _).
    rewrite Hs' in Hs''. injection Hs'' as ->.
    apply (Hmax j v' Hv').
  - intros Hnot. unfold longest_run_streak, list_all_habits.
    destruct (list_map _as_view rows) as [views|e] eqn:Hviews;
      [|eexists; reflexivity].
    exfalso. apply Hnot.
    assert (H : is_ok (list_map _as_view rows) = true)
      by (rewrite Hviews; reflexivity).
    apply list_map_is_ok in H. rewrite Forall_forall in H |- *.
    intros r Hr. apply readable_as_view. apply H. exact Hr.
Qed.

Lemma first_with_id_cons r rows habit_id :
  first_with_id (r :: rows) habit_id =
  try n <~ row_id r ;;
  if n =? habit_id then Ok (Some r) else first_with_id rows habit_id.
Proof.
  cbn [first_with_id]. unfold row_id.
  destruct (subscript r "id"); reflexivity.
Qed.

(** The search passes over the rows whose id is another one. *)
Lemma first_with_id_skip rows habit_id (i : nat) r :
  rows !! i = Some r ->
  (forall (j : nat) r', (j < i)%nat -> rows !! j = Some r' ->
     other_id habit_id r') ->
  first_with_id rows habit_id
  = try n <~ row_id r ;;
    if n =? habit_id then Ok (Some r)
    else first_with_id (drop (S i) rows) habit_id.
Proof.
  revert rows. induction i as [|i IH]; intros rows Hi Hbefore.
  - destruct rows as [|r0 rows]; [discriminate|]. injection Hi as ->.
    apply first_with_id_cons.
  - destruct rows as [|r0 rows]; [discriminate|]. cbn in Hi.
    rewrite first_with_id_cons.
    destruct (Hbefore 0%nat r0 ltac:(lia) eq_refl) as (n & -> & Hn).
    cbn [rbind]. destruct (Z.eqb_spec n habit_id) as [E|_]; [contradiction|].
    apply (IH rows Hi). intros j r' Hj Hr'.
    apply (Hbefore (S j) r'); [lia|exact Hr'].
Qed.

Lemma first_with_id_none rows habit_id :
  (forall r, r ∈ rows -> other_id habit_id r) ->
  first_with_id rows habit_id = Ok None.
Proof.
  induction rows as [|r rows IH]; intros Hne; [reflexivity|].
  rewrite first_with_id_cons.
  destruct (Hne r ltac:(left)) as (n & -> & Hn). cbn [rbind].
  destruct (Z.eqb_spec n habit_id) as [E|_]; [contradiction|].
  apply IH. intros r' Hr'. apply Hne. right. exact Hr'.
Qed.

Lemma row_id_nonempty (r : Row) n : row_id r = Ok n -> r <> ∅.
Proof.
  unfold row_id, subscript. intros H ->.
  rewrite lookup_empty in H. discriminate.
Qed.

(** C7 as stated fails.  No row of the list has the id 9999, and yet
    [longest_run_streak_for] does not return 0: the one row of the list has
    no id, and reading it raises a [KeyError]. *)
Lemma not_found_is_a_sentinel_counterexample :
  (forall r, r ∈ [row_without_id] -> row_id r <> Ok 9999)
  /\ longest_run_streak_for [row_without_id] 9999 = Raise (KeyError "id").
Proof.
  split; [|vm_compute; reflexivity].
  intros r Hr. apply list_elem_of_In in Hr. destruct Hr as [<-|[]].
  vm_compute. discriminate.
Qed.

(** C7, amended.  [longest_run_streak_for] reads the rows in order up to
    the first one whose id is [habit_id].  As long as the rows it passes
    carry an id that converts, not finding the id is a result and not an
    error: it returns 0.  When it finds the id it returns the streak of
    that row, [int(r.get("streak", 0))], and raises only if that
    conversion does.  A row it cannot take the id of, met before any match,
    makes it raise what that conversion raises.  [list_by_periodicity]
    returns the empty list, on any rows, when no row has the periodicity
    asked for. *)
Theorem not_found_is_a_sentinel_amended (rows : list Row) (habit_id : Z)
    (periodicity : pyval) :
  (forall (i : nat) r,
     rows !! i = Some r -> row_id r = Ok habit_id ->
     (forall (j : nat) r', (j < i)%nat -> rows !! j = Some r' ->
        other_id habit_id r') ->
     longest_run_streak_for rows habit_id = row_streak r)
  /\
  ((forall r, r ∈ rows -> other_id habit_id r) ->
   longest_run_streak_for rows habit_id = Ok 0)
  /\
  (forall (i : nat) r e,
     rows !! i = Some r -> row_id r = Raise e ->
     (forall (j : nat) r', (j < i)%nat -> rows !! j = Some r' ->
        other_id habit_id r') ->
     longest_run_streak_for rows habit_id = Raise e)
  /\
  ((forall r, r ∈ rows -> get r "periodicity" PNone <> periodicity) ->
   list_by_periodicity rows periodicity = Ok []).
Proof.
  split; [|split; [|split]].
  - intros i r Hi Hid Hbefore. unfold longest_run_streak_for.
    rewrite (first_with_id_skip rows habit_id i r Hi Hbefore), Hid.
    cbn [rbind]. rewrite Z.eqb_refl. cbn [rbind].
    rewrite bool_decide_eq_true_2; [reflexivity|].
    eapply row_id_nonempty; eassumption.
  - intros Hne. unfold longest_run_streak_for.
    rewrite (first_with_id_none rows habit_id Hne). reflexivity.
  - intros i r e Hi Hid Hbefore. unfold longest_run_streak_for.
    rewrite (first_with_id_skip rows habit_id i r Hi Hbefore), Hid.
    reflexivity.
  - intros Hne. unfold list_by_periodicity.
    replace (List.filter _ rows) with (@nil Row); [reflexivity|].
    symmetry. induction rows as [|r rows IH]; [reflexivity|].
    cbn [List.filter]. rewrite bool_decide_eq_false_2.
    + apply IH. intros r' Hr'. apply Hne. right. exact Hr'.
    + apply Hne. left.
Qed.

Lemma sample_rows_elem (P : Row -> Prop) :
  Forall P sample_rows -> forall r, r ∈ sample_rows -> P r.
Proof. intros H r Hr. rewrite Forall_forall in H. apply H. exact Hr. Qed.

Lemma sample_rows_readable : Forall readable sample_rows.
Proof.
  repeat constructor; vm_compute; eauto.
Qed.

(** Of the three rows, two share the greatest streak, 28.  What the
    theorem says of the result leaves one answer only: the id 2 of the
    first of the two, with the streak 28. *)
Lemma longest_run_streak_first_max_amended_witness :
  longest_run_streak sample_rows = Ok (Some 2, 28).
Proof.
  destruct (longest_run_streak_first_max_amended sample_rows) as [Hread _].
  destruct (Hread sample_rows_readable) as [_ Hmax].
  destruct (Hmax ltac:(discriminate))
    as (i & r & n & s & Hi & Hid & Hs & Hl & Hall).
  assert (H1 : 28 <= s /\ ((1 < i)%nat -> 28 < s)).
  { apply (Hall 1%nat _ 28 eq_refl). vm_compute. reflexivity. }
  assert (H0 : 7 <= s /\ ((0 < i)%nat -> 7 < s)).
  { apply (Hall 0%nat _ 7 eq_refl). vm_compute. reflexivity. }
  destruct i as [|[|[|i]]]; cbn in Hi; [| | |discriminate];
    injection Hi as <-; vm_compute in Hid, Hs;
    injection Hid as <-; injection Hs as <-.
  - lia.
  - exact Hl.
  - lia.
Defined.

Lemma not_found_is_a_sentinel_amended_witness :
  longest_run_streak_for sample_rows 9999 = Ok 0
  /\ longest_run_streak_for sample_rows 3 = Ok 28
  /\ list_by_periodicity sample_rows (PStr "weekly") = Ok [].
Proof.
  destruct (not_found_is_a_sentinel_amended sample_rows 9999 (PStr "weekly"))
    as (_ & Hnone & _ & Hper).
  destruct (not_found_is_a_sentinel_amended sample_rows 3 (PStr "weekly"))
    as (Hfound & _).
  split; [|split].
  - apply Hnone. apply sample_rows_elem.
    repeat constructor; eexists; (split; [vm_compute; reflexivity|lia]).
  - apply (Hfound 2%nat _ eq_refl); [vm_compute; reflexivity|].
    intros [|[|j]] r' Hj Hr'; [| |lia]; cbn in Hr'; injection Hr' as <-;
      eexists; (split; [vm_compute; reflexivity|lia]).
  - apply Hper. apply sample_rows_elem.
    repeat constructor; vm_compute; discriminate.
Defined.

End AnalyseFacts.

(** * The store *)

Module DatabaseFacts.

Import builtins database DatabaseSpec.

(** Whatever the connection does, [save_habit] returns [None] or raises:
    it never returns an id. *)
Lemma save_habit_result {Connection : Type} `{Sqlite3 Connection}
    (fields : list (string * pyval)) (db : Database Connection) :
  snd (save_habit fields db) = Ok PNone \/ raises (snd (save_habit fields db)).
Proof.
  unfold save_habit, mbind, mret, on_conn.
  destruct (conn db) as [cn|]; cbn [snd].
  - destruct (execute _ _ cn) as [cn' [v|e]]; cbn [conn].
    + destruct (commit cn') as [cn'' [[]|e]]; cbn [snd].
      * left. reflexivity.
      * right. eexists; reflexivity.
    + right. eexists; reflexivity.
  - right. eexists; reflexivity.
Qed.

(** C3. The store's habit-creation operation is to return the id of the new
    row.  [save_habit] does not: on a fresh database, called as
    [add_habit_flow] calls it, it inserts the row (the first of the table,
    id 1) and returns [None], where [save_user] returns the id of the row it
    inserted. *)
Theorem save_habit_returns_None :
  save_habit new_habit_fields fresh_database
  = ({| path := ":memory:";
        conn := Some
          {| statements :=
               [("INSERT INTO habits(user_id,name,description,goal,start_date,periodicity,reminder,completed,streak,last_completed_date) VALUES (?,?,?,?,?,?,?,?,?,?)",
                 map snd new_habit_fields)];
             rows_inserted := 1 |} |},
     Ok PNone)
  /\ snd (save_user "Jonas" "jonas@example.com" fresh_database) = Ok (PInt 1).
Proof. split; vm_compute; reflexivity. Qed.

End DatabaseFacts.

(** * More on the streak engine *)

Module EngineFacts.

Import datetime builtins _strptime habit CalendarSpec HabitSpec EngineSpec
  CalendarFacts HabitFacts.

(** X1. [check_off] raises exactly when the habit has a last completion and
    [_expected_next_date] raises, with the same exception, and a call that
    raises leaves every field as it was; a call that returns changes nothing
    but [streak], [completed] and [last_completed_date]. *)
Theorem check_off_raises_or_completes (h : Habit) (od : option date)
    (today : date) :
  (forall e,
     snd (check_off od today h) = Raise e
     <-> last_completed_date h <> None
         /\ snd (_expected_next_date h) = Raise e)
  /\ (forall e, snd (check_off od today h) = Raise e ->
                fst (check_off od today h) = h)
  /\ (let h' := fst (check_off od today h) in
      name h' = name h /\ description h' = description h /\ goal h' = goal h
      /\ start_date h' = start_date h /\ periodicity h' = periodicity h
      /\ reminder h' = reminder h).
Proof.
  rewrite check_off_eq, expected_next_date_eq. cbv zeta. cbn [snd].
  destruct (last_completed_date h) as [last|] eqn:Hl.
  - destruct (expected_value h) as [[x|]|err] eqn:He.
    + destruct (date_eqb _ x); [|destruct (date_gtb _ x)];
        (split; [|split]; [split; [discriminate|intros [_ H]; discriminate]
                          |discriminate|cbn; auto 10]).
    + split; [|split]; [split; [discriminate|intros [_ H]; discriminate]
                       |discriminate|cbn; auto 10].
    + split; [|split]; [|reflexivity|cbn; auto 10].
      intros e. cbn [snd].
      split; [intros [= ->]; split; [discriminate|reflexivity]
             |intros [_ [= ->]]; reflexivity].
  - split; [|split]; [|discriminate|cbn; auto 10].
    intros e. cbn [snd]. split; [discriminate|intros [H _]; contradiction].
Qed.

Lemma toordinal_last_week last :
  valid_date last ->
  forall k, 0 <= k <= 30 ->
  (_MAXORDINAL < toordinal last + k
   <-> year last = 9999 /\ month last = 12 /\ 31 - k < day last).
Proof.
  intros Hv k Hk.
  pose proof (day_of_year_bounds last Hv) as B.
  pose proof Hv as Hv'. apply valid_date_iff in Hv'.
  destruct Hv' as (Hy & Hm & Hd).
  unfold toordinal, _ymd2ord, _MAXORDINAL in *.
  split.
  - intros Hlt.
    assert (Hy9 : year last = 9999).
    { destruct (Z.eq_dec (year last) 9999) as [E|E]; [exact E|].
      pose proof (days_before_year_succ (year last)) as Hs.
      pose proof (days_before_year_mono (year last + 1) 9999) as Hmono.
      change (_days_before_year 9999) with 3651694 in Hmono. lia. }
    rewrite Hy9 in *. change (_days_before_year 9999) with 3651694 in *.
    assert (Hm12 : month last = 12).
    { destruct (Z.eq_dec (month last) 12) as [E|E]; [exact E|].
      pose proof (days_before_month_mono 9999 (month last) 12) as Hmono.
      change (_days_before_month 9999 12) with 334 in Hmono. lia. }
    rewrite Hm12 in *. change (_days_before_month 9999 12) with 334 in *. lia.
  - intros (Hy9 & Hm12 & Hday). rewrite Hy9, Hm12.
    change (_days_before_year 9999) with 3651694.
    change (_days_before_month 9999 12) with 334. lia.
Qed.

Lemma date_add_raises last k :
  valid_date last -> 0 <= k ->
  (raises (date_add last k) <-> _MAXORDINAL < toordinal last + k)
  /\ (forall e, date_add last k = Raise e -> exists msg, e = OverflowError msg).
Proof.
  intros Hv Hk. split; [split|].
  - intros [e He]. destruct (Z.lt_ge_cases _MAXORDINAL (toordinal last + k)) as [H|H];
      [exact H|].
    destruct (date_add_ok last k Hv Hk) as (x & Hx & _); [lia|].
    rewrite Hx in He. discriminate.
  - intros H. eexists. apply date_add_overflow. exact H.
  - intros e He.
    destruct (Z.lt_ge_cases _MAXORDINAL (toordinal last + k)) as [H|H].
    + rewrite (date_add_overflow last k H) in He. injection He as <-. eauto.
    + destruct (date_add_ok last k Hv Hk) as (x & Hx & _); [lia|].
      rewrite Hx in He. discriminate.
Qed.

(** X2. The expected next date fails to exist only at the end of the
    calendar: for a last completion that is a date, [_expected_next_date]
    raises exactly when that date lies in December 9999 and, for a daily
    habit, is the 31st, for a weekly habit, the 25th or later.  The
    exception is an [OverflowError] for daily and weekly habits and a
    [ValueError] otherwise. *)
Theorem expected_next_date_raises_at_calendar_end (h : Habit) (last : date) :
  last_completed_date h = Some last -> valid_date last ->
  (raises (snd (_expected_next_date h))
   <-> year last = 9999 /\ month last = 12
       /\ (periodicity h = "daily" -> day last = 31)
       /\ (periodicity h = "weekly" -> 25 <= day last))
  /\ (forall e, snd (_expected_next_date h) = Raise e ->
        if String.eqb (periodicity h) "daily"
           || String.eqb (periodicity h) "weekly"
        then exists msg, e = OverflowError msg
        else exists msg, e = ValueError msg).
Proof.
  intros Hl Hv. rewrite expected_next_date_eq. cbn [snd].
  pose proof Hv as Hv'. apply valid_date_iff in Hv'.
  destruct Hv' as (Hy & Hm & Hd).
  pose proof (days_in_month_bounds (year last) (month last) Hm) as Hdim.
  destruct (String.eqb_spec (periodicity h) "daily") as [Ed|Ed].
  { unfold expected_value. rewrite Hl, Ed. cbn [String.eqb Ascii.eqb Bool.eqb orb].
    destruct (date_add_raises last 1 Hv) as [Hr Hk]; [lia|].
    pose proof (toordinal_last_week last Hv 1) as Hw.
    split.
    - transitivity (raises (date_add last 1)).
      { unfold raises. destruct (date_add last 1) as [x|e0]; cbn [rbind]; split;
          intros [e He]; try discriminate; eauto. }
      rewrite Hr, Hw by lia. split.
      + intros (H1 & H2 & H3). repeat split; try assumption.
        * intros _. rewrite H1, H2 in Hd.
          change (_days_in_month 9999 12) with 31 in Hd. lia.
        * discriminate.
      + intros (H1 & H2 & H3 & _). specialize (H3 eq_refl). lia.
    - intros e He. destruct (date_add last 1) as [x|e'] eqn:Ha; [discriminate|].
      cbn [rbind] in He. injection He as <-. apply Hk. reflexivity. }
  destruct (String.eqb_spec (periodicity h) "weekly") as [Ew|Ew].
  { unfold expected_value. rewrite Hl, Ew. cbn [String.eqb Ascii.eqb Bool.eqb orb].
    destruct (date_add_raises last 7 Hv) as [Hr Hk]; [lia|].
    pose proof (toordinal_last_week last Hv 7) as Hw.
    split.
    - transitivity (raises (date_add last 7)).
      { unfold raises. destruct (date_add last 7) as [x|e0]; cbn [rbind]; split;
          intros [e He]; try discriminate; eauto. }
      rewrite Hr, Hw by lia. split.
      + intros (H1 & H2 & H3). repeat split; try assumption.
        * discriminate.
        * intros _. lia.
      + intros (H1 & H2 & _ & H3). specialize (H3 eq_refl). lia.
    - intros e He. destruct (date_add last 7) as [x|e'] eqn:Ha; [discriminate|].
      cbn [rbind] in He. injection He as <-. apply Hk. reflexivity. }
  assert (Hd' : String.eqb (periodicity h) "daily" = false)
    by (apply String.eqb_neq; exact Ed).
  assert (Hw' : String.eqb (periodicity h) "weekly" = false)
    by (apply String.eqb_neq; exact Ew).
  rewrite (expected_value_monthly h last Hl Hv Hd' Hw'). cbn [orb].
  unfold next_month_year, MAXYEAR.
  split.
  - destruct (Z.eqb_spec (month last) 12) as [E12|E12];
      [destruct (Z.leb_spec (year last + 1) 9999)|destruct (Z.leb_spec (year last) 9999)].
    + split; [intros [e He]; discriminate|lia].
    + split; [intros _|intros _; eexists; reflexivity].
      repeat split; try lia; intros E; contradiction.
    + split; [intros [e He]; discriminate|lia].
    + lia.
  - intros e He.
    destruct (_ <=? 9999); [discriminate|]. injection He as <-. eauto.
Qed.

Lemma expected_next_date_raises_at_calendar_end_witness :
  raises (snd (_expected_next_date last_day_habit)).
Proof.
  apply (proj1 (expected_next_date_raises_at_calendar_end
                  last_day_habit (mkdate 9999 12 31) eq_refl eq_refl)).
  split; [reflexivity|split; [reflexivity|split]];
    intros _; [reflexivity|cbn; lia].
Defined.

(** Across one call the streak becomes 1, stays, or grows by 1. *)
Lemma check_off_streak_step h od today :
  let s' := streak (fst (check_off od today h)) in
  s' = 1 \/ s' = streak h \/ s' = streak h + 1.
Proof.
  cbv zeta. rewrite check_off_eq. cbv zeta.
  destruct (last_completed_date h); [|cbn; auto].
  destruct (expected_value h) as [[x|]|err]; [| cbn; auto | cbn; auto].
  destruct (date_eqb _ x); [cbn; auto|]. destruct (date_gtb _ x); cbn; auto.
Qed.

Lemma check_off_all_streak_bound dates today h :
  0 <= streak h ->
  0 <= streak (check_off_all dates today h)
    <= streak h + Z.of_nat (List.length dates).
Proof.
  revert h. induction dates as [|d dates IH]; intros h Hs.
  - cbn. lia.
  - cbn [check_off_all fold_left].
    pose proof (check_off_streak_step h (Some d) today) as Hstep. cbv zeta in Hstep.
    specialize (IH (fst (check_off (Some d) today h))).
    unfold check_off_all in IH. cbn [List.length]. lia.
Qed.

(** X3. The streak never exceeds the number of check-offs: a habit built by
    [from_form] and then checked off on any dates, in any order, has a
    streak between 0 and the number of calls. *)
Theorem streak_at_most_number_of_check_offs
    (name description goal start_date periodicity : string)
    (reminder : option string) (h : Habit) (dates : list date) (today : date) :
  from_form name description goal start_date periodicity reminder = Ok h ->
  0 <= streak (check_off_all dates today h) <= Z.of_nat (List.length dates).
Proof.
  intros Hf. destruct (from_form_fresh _ _ _ _ _ _ _ Hf) as (Hs & _).
  pose proof (check_off_all_streak_bound dates today h) as H.
  rewrite Hs in H. apply H. lia.
Qed.

Lemma streak_at_most_number_of_check_offs_witness :
  0 <= streak (check_off_all [mkdate 2025 1 6; mkdate 2025 1 7; mkdate 2025 1 9]
                 (mkdate 2025 1 9) fresh_habit) <= 3.
Proof.
  exact (streak_at_most_number_of_check_offs
           "Drink Water" "8 glasses" "Hydration" "2025-01-06" "daily"
           (Some "09:00") fresh_habit
           [mkdate 2025 1 6; mkdate 2025 1 7; mkdate 2025 1 9] (mkdate 2025 1 9)
           ltac:(vm_compute; reflexivity)).
Defined.

(** An on-time completion: the streak grows by 1 and the date becomes the
    new anchor. *)
Lemma check_off_on_time h last e today :
  last_completed_date h = Some last ->
  expected_value h = Ok (Some e) ->
  fst (check_off (Some e) today h) = completed_on e (streak h + 1) h.
Proof.
  intros Hl He. rewrite check_off_eq. cbv zeta. rewrite Hl, He.
  rewrite (proj2 (date_eqb_eq e e) eq_refl). reflexivity.
Qed.

Lemma completed_on_fields e s h :
  last_completed_date (completed_on e s h) = Some e
  /\ streak (completed_on e s h) = s
  /\ periodicity (completed_on e s h) = periodicity h.
Proof. repeat split. Qed.

(** A chain of on-time completions: each date is the one expected after
    the date before it. *)
Lemma check_off_all_on_time (step : date -> date) today :
  forall (n : nat) h d,
    last_completed_date h = Some d ->
    (forall k h', (k < n)%nat ->
       last_completed_date h' = Some (Nat.iter k step d) ->
       habit.periodicity h' = habit.periodicity h ->
       expected_value h' = Ok (Some (Nat.iter (S k) step d))) ->
    let h' := check_off_all (stepped_dates step (step d) n) today h in
    streak h' = streak h + Z.of_nat n
    /\ last_completed_date h' = Some (Nat.iter n step d)
    /\ habit.periodicity h' = habit.periodicity h.
Proof.
  induction n as [|n IH]; intros h d Hl Hexp; cbv zeta.
  - cbn. repeat split; [lia|exact Hl].
  - unfold stepped_dates. rewrite seq_S, map_app. cbn [map].
    unfold check_off_all. rewrite fold_left_app. cbn [fold_left].
    fold (stepped_dates step (step d) n).
    fold (check_off_all (stepped_dates step (step d) n) today h).
    destruct (IH h d Hl) as (Hs & Hl' & Hp).
    { intros k h' Hk. apply Hexp. lia. }
    set (hn := check_off_all (stepped_dates step (step d) n) today h) in *.
    assert (He : expected_value hn = Ok (Some (Nat.iter (S n) step d))).
    { apply Hexp; [lia|exact Hl'|exact Hp]. }
    replace (Nat.iter (0 + n) step (step d)) with (Nat.iter (S n) step d).
    2:{ cbn [Nat.add]. clear. induction n as [|n IHn]; [reflexivity|].
        cbn [Nat.iter nat_rect] in *. f_equal. exact IHn. }
    rewrite (check_off_on_time hn _ _ today Hl' He).
    cbn [streak last_completed_date habit.periodicity completed_on set_streak
         set_completed set_last_completed_date].
    repeat split; [lia|exact Hp].
Qed.

Lemma next_day_year x : year x <= year (next_day x).
Proof.
  unfold next_day. destruct (_ <? _); [cbn; lia|].
  destruct (_ <? 12); cbn; lia.
Qed.

Lemma iter_next_day_year k x : year x <= year (Nat.iter k next_day x).
Proof.
  induction k as [|k IH]; [cbn; lia|].
  cbn [Nat.iter nat_rect].
  change (nat_rect _ x (fun _ => next_day) k) with (Nat.iter k next_day x).
  pose proof (next_day_year (Nat.iter k next_day x)). lia.
Qed.

Lemma next_day_in_calendar x :
  valid_date x -> year (next_day x) <= MAXYEAR -> toordinal x < _MAXORDINAL.
Proof.
  intros Hv Hy. pose proof (toordinal_range x Hv) as Hr.
  destruct (Z.eq_dec (toordinal x) _MAXORDINAL) as [E|E]; [|lia].
  exfalso. destruct (proj1 (toordinal_last_week x Hv 1 ltac:(lia)) ltac:(lia))
    as (H1 & H2 & H3).
  apply valid_date_iff in Hv. destruct Hv as (_ & _ & Hd).
  rewrite H1, H2 in Hd. change (_days_in_month 9999 12) with 31 in Hd.
  unfold next_day, MAXYEAR in Hy. rewrite H1, H2 in Hy.
  change (_days_in_month 9999 12) with 31 in Hy.
  replace (day x <? 31) with false in Hy by (symmetry; apply Z.ltb_ge; lia).
  cbn in Hy. lia.
Qed.

Lemma iter_next_day_in_calendar k x :
  valid_date x -> year (Nat.iter k next_day x) <= MAXYEAR ->
  toordinal x + Z.of_nat k <= _MAXORDINAL.
Proof.
  intros Hv. induction k as [|k IH]; intros Hy.
  - pose proof (toordinal_range x Hv). cbn. lia.
  - cbn [Nat.iter nat_rect] in Hy.
    change (nat_rect _ x (fun _ => next_day) k) with (Nat.iter k next_day x) in Hy.
    pose proof (next_day_year (Nat.iter k next_day x)) as Hmono.
    assert (Hk : toordinal x + Z.of_nat k <= _MAXORDINAL) by (apply IH; lia).
    destruct (iter_next_day k x Hv Hk) as [Hvk Hok].
    pose proof (next_day_in_calendar _ Hvk Hy). lia.
Qed.

(** One period after a date, inside the calendar: the date the code
    expects. *)
Lemma expected_value_period_step h x :
  last_completed_date h = Some x -> valid_date x ->
  year (period_step (periodicity h) x) <= MAXYEAR ->
  expected_value h = Ok (Some (period_step (periodicity h) x))
  /\ valid_date (period_step (periodicity h) x).
Proof.
  intros Hl Hv Hy. unfold period_step in *.
  destruct (String.eqb (periodicity h) "daily") eqn:Ed.
  { pose proof (iter_next_day_in_calendar 1 x Hv Hy) as Hb.
    unfold expected_value. rewrite Hl, Ed.
    assert (E : date_add x 1 = Ok (next_day x))
      by (apply (date_add_iter x 1 Hv); exact Hb).
    rewrite E. split; [reflexivity|]. apply (iter_next_day 1 x Hv Hb). }
  destruct (String.eqb (periodicity h) "weekly") eqn:Ew.
  { pose proof (iter_next_day_in_calendar 7 x Hv Hy) as Hb.
    unfold expected_value. rewrite Hl, Ed, Ew.
    assert (E : date_add x 7 = Ok (Nat.iter 7 next_day x))
      by (apply (date_add_iter x 7 Hv); exact Hb).
    rewrite E. split; [reflexivity|]. apply (iter_next_day 7 x Hv Hb). }
  rewrite (expected_value_monthly h x Hl Hv Ed Ew).
  change (year (same_day_next_month x)) with (next_month_year x) in Hy.
  rewrite (proj2 (Z.leb_le _ _) Hy). split; [reflexivity|].
  apply same_day_next_month_valid; assumption.
Qed.

Lemma period_step_year p x : year x <= year (period_step p x).
Proof.
  unfold period_step. destruct (String.eqb p "daily"); [apply next_day_year|].
  destruct (String.eqb p "weekly"); [apply iter_next_day_year|].
  unfold same_day_next_month, next_month_year. cbn [year].
  destruct (month x =? 12); lia.
Qed.

Lemma iter_period_step_year p x (j k : nat) :
  (j <= k)%nat ->
  year (Nat.iter j (period_step p) x) <= year (Nat.iter k (period_step p) x).
Proof.
  induction 1 as [|k Hle IH]; [lia|].
  cbn [Nat.iter nat_rect].
  change (nat_rect _ x (fun _ => period_step p) k)
    with (Nat.iter k (period_step p) x).
  pose proof (period_step_year p (Nat.iter k (period_step p) x)). lia.
Qed.

Lemma iter_period_step_valid p x (n : nat) :
  valid_date x -> year (Nat.iter n (period_step p) x) <= MAXYEAR ->
  forall k, (k <= n)%nat -> valid_date (Nat.iter k (period_step p) x).
Proof.
  intros Hv Hy k. induction k as [|k IH]; intros Hk; [exact Hv|].
  cbn [Nat.iter nat_rect].
  change (nat_rect _ x (fun _ => period_step p) k)
    with (Nat.iter k (period_step p) x).
  pose proof (iter_period_step_year p x (S k) n Hk) as Hyk.
  cbn [Nat.iter nat_rect] in Hyk.
  change (nat_rect _ x (fun _ => period_step p) k)
    with (Nat.iter k (period_step p) x) in Hyk.
  set (xk := Nat.iter k (period_step p) x) in *.
  assert (Hvk : valid_date xk) by (apply IH; lia).
  (* a habit of periodicity [p] whose last completion is [xk] *)
  pose (hk := {| name := ""; description := ""; goal := "";
                 start_date := mkdatetime x (mktime 0 0 0);
                 periodicity := p; reminder := None; completed := true;
                 streak := 1; last_completed_date := Some xk |}).
  apply (expected_value_period_step hk xk eq_refl Hvk). cbn [periodicity hk]. lia.
Qed.

(** X4. On-time completions count up.  A habit without a last completion
    that is checked off on a date [d] and then, [n] times, exactly one
    period later (the next day, seven days later, or the same day of the
    next month, clamped) has streak [n + 1] and the last of these dates as
    its anchor; this as long as the dates stay within the calendar. *)
Theorem on_time_completions_count_up (h : Habit) (d today : date) (n : nat) :
  last_completed_date h = None -> valid_date d ->
  year (Nat.iter n (period_step (periodicity h)) d) <= MAXYEAR ->
  let h' := check_off_all
              (stepped_dates (period_step (periodicity h)) d (S n)) today h in
  streak h' = Z.of_nat (S n)
  /\ last_completed_date h'
     = Some (Nat.iter n (period_step (periodicity h)) d)
  /\ completed h' = true.
Proof.
  intros Hl Hv Hy. cbv zeta.
  set (step := period_step (periodicity h)) in *.
  assert (Hdates : stepped_dates step d (S n) = d :: stepped_dates step (step d) n).
  { unfold stepped_dates. cbn [seq map Nat.iter nat_rect]. f_equal.
    rewrite <- seq_shift, map_map. apply map_ext. intros k.
    clear. induction k as [|k IH]; [reflexivity|].
    cbn [Nat.iter nat_rect] in *. f_equal. exact IH. }
  rewrite Hdates. cbn [check_off_all fold_left].
  fold (check_off_all (stepped_dates step (step d) n) today
          (fst (check_off (Some d) today h))).
  assert (H1 : fst (check_off (Some d) today h) = completed_on d 1 h).
  { rewrite check_off_eq. cbv zeta. rewrite Hl. reflexivity. }
  rewrite H1.
  destruct (check_off_all_on_time step today n (completed_on d 1 h) d eq_refl)
    as (Hs & Hlast & Hp).
  { intros k h' Hk Hl' Hp'. cbn in Hp'.
    assert (Hvk : valid_date (Nat.iter k step d))
      by (apply (iter_period_step_valid (periodicity h) d n Hv Hy); lia).
    pose proof (iter_period_step_year (periodicity h) d (S k) n Hk) as Hyk.
    fold step in Hyk. cbn [Nat.iter nat_rect] in Hyk |- *.
    change (nat_rect _ d (fun _ => step) k) with (Nat.iter k step d) in *.
    unfold step in *. rewrite <- Hp' in *.
    apply (expected_value_period_step h' _ Hl' Hvk). lia. }
  cbv zeta in Hs, Hlast. rewrite Hs, Hlast.
  cbn [streak completed_on set_streak set_completed set_last_completed_date].
  split; [lia|]. split; [reflexivity|].
  (* [completed] is set by the first call and never cleared *)
  clear. generalize (stepped_dates step (step d) n).
  intros l. assert (Hc : completed (completed_on d 1 h) = true) by reflexivity.
  revert Hc. generalize (completed_on d 1 h). induction l as [|x l IH]; intros g Hc.
  - exact Hc.
  - cbn [check_off_all fold_left]. apply IH.
    rewrite check_off_eq. cbv zeta.
    destruct (last_completed_date g); [|reflexivity].
    destruct (expected_value g) as [[e|]|err]; [| reflexivity | exact Hc].
    destruct (date_eqb x e); [reflexivity|]. destruct (date_gtb x e); reflexivity.
Qed.

(** Twenty-eight daily check-offs from 6 January 2025, as in the four
    weeks of the test data, give streak 28. *)
Lemma on_time_completions_count_up_witness :
  streak (check_off_all (stepped_dates next_day (mkdate 2025 1 6) 28)
            (mkdate 2025 2 2) fresh_habit) = 28
  /\ last_completed_date
       (check_off_all (stepped_dates next_day (mkdate 2025 1 6) 28)
          (mkdate 2025 2 2) fresh_habit) = Some (mkdate 2025 2 2).
Proof.
  destruct (on_time_completions_count_up fresh_habit (mkdate 2025 1 6)
              (mkdate 2025 2 2) 27 eq_refl eq_refl
              ltac:(vm_compute; discriminate)) as (Hs & Hl & _).
  split; [exact Hs | exact Hl].
Defined.

(** ** The monthly anchor *)

Lemma same_day_next_month_day x :
  1 <= month x <= 12 ->
  Z.min (day x) 28 <= day (same_day_next_month x) <= day x
  /\ 1 <= month (same_day_next_month x) <= 12
  /\ (month x = 1 -> day (same_day_next_month x) <= 29).
Proof.
  intros Hm. unfold same_day_next_month. cbn [day month].
  assert (Hm' : 1 <= next_month x <= 12).
  { unfold next_month. destruct (Z.eqb_spec (month x) 12); lia. }
  pose proof (days_in_month_bounds (next_month_year x) (next_month x) Hm').
  split; [lia|]. split; [lia|]. intros H1.
  unfold next_month, next_month_year. rewrite H1. cbn [Z.eqb Pos.eqb].
  unfold _days_in_month.
  destruct (_is_leap (year x)); cbv -[Z.le Z.lt Z.min day]; lia.
Qed.

Lemma iter_same_day_next_month x (n : nat) :
  1 <= month x <= 12 ->
  Z.min (day x) 28 <= day (Nat.iter n same_day_next_month x) <= day x
  /\ month (Nat.iter n same_day_next_month x)
     = (month x - 1 + Z.of_nat n) mod 12 + 1
  /\ ((exists k, (k < n)%nat /\ (month x - 1 + Z.of_nat k) mod 12 = 0) ->
      day (Nat.iter n same_day_next_month x) <= 29).
Proof.
  intros Hm. induction n as [|n (IHd & IHm & IHf)].
  - cbn [Nat.iter nat_rect]. split; [lia|]. split.
    + rewrite Z.add_0_r, Z.mod_small; lia.
    + intros (k & Hk & _). lia.
  - cbn [Nat.iter nat_rect].
    change (nat_rect _ x (fun _ => same_day_next_month) n)
      with (Nat.iter n same_day_next_month x).
    set (xn := Nat.iter n same_day_next_month x) in *.
    assert (Hmn : 1 <= month xn <= 12).
    { rewrite IHm. pose proof (Z.mod_pos_bound (month x - 1 + Z.of_nat n) 12). lia. }
    destruct (same_day_next_month_day xn Hmn) as (Hd & Hm2 & Hf).
    split; [lia|]. split.
    + unfold same_day_next_month. cbn [month]. unfold next_month. rewrite IHm.
      replace (month x - 1 + Z.of_nat (S n)) with (month x - 1 + Z.of_nat n + 1) by lia.
      destruct (Z.eqb_spec ((month x - 1 + Z.of_nat n) mod 12 + 1) 12);
        Z.div_mod_to_equations; lia.
    + intros (k & Hk & Hk0).
      destruct (Nat.eq_dec k n) as [->|Hne].
      * apply Hf. rewrite IHm, Hk0. reflexivity.
      * assert (day xn <= 29) by (apply IHf; exists k; split; [lia|exact Hk0]). lia.
Qed.

(** X5. The monthly anchor drifts.  For a monthly habit whose completions
    all fall on the expected date, the day of the month of the anchor never
    grows: it stays between the smaller of the first day and 28, and the
    first day; once twelve months have passed it is at most 29, since the
    chain went through a February.  The streak counts every one of these
    completions. *)
Theorem monthly_anchor_drifts (h : Habit) (d today : date) (n : nat) :
  last_completed_date h = Some d -> valid_date d ->
  periodicity h <> "daily" -> periodicity h <> "weekly" ->
  year (Nat.iter n same_day_next_month d) <= MAXYEAR ->
  let h' := check_off_all
              (stepped_dates same_day_next_month (same_day_next_month d) n)
              today h in
  exists e,
    last_completed_date h' = Some e
    /\ streak h' = streak h + Z.of_nat n
    /\ Z.min (day d) 28 <= day e <= day d
    /\ ((12 <= n)%nat -> day e <= 29).
Proof.
  intros Hl Hv Hd Hw Hy. cbv zeta.
  apply String.eqb_neq in Hd, Hw.
  assert (Hstep : period_step (periodicity h) = same_day_next_month)
    by (unfold period_step; rewrite Hd, Hw; reflexivity).
  destruct (check_off_all_on_time same_day_next_month today n h d Hl)
    as (Hs & Hlast & _).
  { intros k h' Hk Hl' Hp'.
    assert (Hvk : valid_date (Nat.iter k same_day_next_month d)).
    { rewrite <- Hstep. apply (iter_period_step_valid _ d n Hv); [|lia].
      rewrite Hstep. exact Hy. }
    pose proof (iter_period_step_year (periodicity h) d (S k) n Hk) as Hyk.
    rewrite Hstep in Hyk.
    destruct (expected_value_period_step h' _ Hl' Hvk) as [He _].
    { rewrite Hp', Hstep. cbn [Nat.iter nat_rect] in Hyk. 
      change (nat_rect _ d (fun _ => same_day_next_month) k)
        with (Nat.iter k same_day_next_month d) in Hyk. lia. }
    rewrite Hp', Hstep in He. exact He. }
  cbv zeta in Hs, Hlast.
  exists (Nat.iter n same_day_next_month d).
  split; [exact Hlast|]. split; [exact Hs|].
  apply valid_date_iff in Hv. destruct Hv as (_ & Hm & _).
  destruct (iter_same_day_next_month d n Hm) as (Hday & _ & Hfeb).
  split; [exact Hday|]. intros Hn. apply Hfeb.
  exists (Z.to_nat ((13 - month d) mod 12)).
  pose proof (Z.mod_pos_bound (13 - month d) 12 ltac:(lia)).
  split; [lia|]. rewrite Z2Nat.id by lia.
  Z.div_mod_to_equations; lia.
Qed.

(** From 31 January 2025, two on-time completions lead to 28 March. *)
Lemma monthly_anchor_drifts_witness :
  exists e,
    last_completed_date
      (check_off_all [mkdate 2025 2 28; mkdate 2025 3 28] (mkdate 2025 3 28)
         monthly_habit) = Some e
    /\ day e <= 31.
Proof.
  destruct (monthly_anchor_drifts monthly_habit (mkdate 2025 1 31)
              (mkdate 2025 3 28) 2 eq_refl eq_refl
              ltac:(discriminate) ltac:(discriminate)
              ltac:(vm_compute; discriminate)) as (e & Hl & _ & Hd & _).
  exists e. split; [exact Hl|]. cbn in Hd. lia.
Defined.

End EngineFacts.

(** * What the construction of habits accepts *)

Module FormFacts.

Import datetime builtins _strptime habit CalendarSpec HabitSpec FormSpec
  CalendarFacts HabitFacts.

(** ** The matcher, read backwards *)

Lemma In_all_ascii c : In c all_ascii.
Proof.
  unfold all_ascii. rewrite <- (ascii_nat_embedding c).
  apply in_map, in_seq. pose proof (nat_ascii_bounded c). lia.
Qed.

Lemma match_alt_texts alt s m rest :
  match_alt alt s = Some (m, rest) ->
  In m (alt_texts alt) /\ s = String.append m rest.
Proof.
  revert s m. induction alt as [|k alt IH]; intros s m H.
  - cbn in H. injection H as <- <-. split; [left|]; reflexivity.
  - destruct s as [|c s]; [discriminate|]. cbn [match_alt] in H.
    destruct (chclass_match k c) eqn:Ek; [|discriminate].
    destruct (match_alt alt s) as [[m' r']|] eqn:E; [|discriminate].
    injection H as <- <-. destruct (IH s m' E) as [Hin ->].
    split; [|reflexivity]. cbn [alt_texts]. apply in_flat_map.
    exists c. split.
    + apply filter_In. split; [apply In_all_ascii | exact Ek].
    + apply in_map. exact Hin.
Qed.

Lemma match_items_nil s found rest :
  In (found, rest) (match_items [] s) -> found = [] /\ rest = s.
Proof. intros [[= <- <-]|[]]. auto. Qed.

Lemma match_items_char c items s x :
  In x (match_items (Char c :: items) s) ->
  exists r, s = String c r /\ In x (match_items items r).
Proof.
  cbn [match_items]. destruct s as [|c' r]; [intros []|].
  destruct (Ascii.eqb_spec c' c) as [->|_]; [|intros []].
  intros H. exists r. auto.
Qed.

Lemma match_items_group name alts items s found rest :
  In (found, rest) (match_items (Group name alts :: items) s) ->
  exists m r found',
    In m (group_texts alts) /\ s = String.append m r
    /\ found = (name, m) :: found'
    /\ In (found', rest) (match_items items r).
Proof.
  cbn [match_items]. intros H. apply in_flat_map in H.
  destruct H as (alt & Halt & H).
  destruct (match_alt alt s) as [[m r]|] eqn:E; [|destruct H].
  apply in_map_iff in H. destruct H as ([found' rest'] & [= <- <-] & H).
  destruct (match_alt_texts alt s m r E) as [Hm Hs].
  exists m, r, found'. split; [|auto].
  unfold group_texts. apply in_flat_map. exists alt. auto.
Qed.

Lemma append_empty_r (s : string) : String.append s EmptyString = s.
Proof.
  induction s as [|c s IH]; [reflexivity|].
  change (String c (String.append s EmptyString) = String c s). f_equal. exact IH.
Qed.

Lemma head_In {A} (l : list A) x : head l = Some x -> In x l.
Proof. destruct l; [discriminate|]. intros [= ->]. left. reflexivity. Qed.

Lemma text_ok_spec lo hi spell texts t :
  forallb (text_ok lo hi spell) texts = true -> In t texts ->
  exists v, int_of_str t = Ok v /\ lo <= v <= hi /\ In t (spell v).
Proof.
  intros H Hin. rewrite forallb_forall in H. specialize (H t Hin).
  unfold text_ok in H. destruct (int_of_str t) as [v|]; [|discriminate].
  apply andb_true_iff in H. destruct H as [H H3].
  apply andb_true_iff in H. destruct H as [H1 H2].
  exists v. split; [reflexivity|]. split; [lia|].
  apply existsb_exists in H3. destruct H3 as (u & Hu & E).
  apply String.eqb_eq in E. subst u. exact Hu.
Qed.

Lemma hour_texts t :
  In t (group_texts re_H) ->
  exists v, int_of_str t = Ok v /\ 0 <= v <= 23 /\ In t (spellings v).
Proof. apply text_ok_spec. vm_compute. reflexivity. Qed.

Lemma minute_texts t :
  In t (group_texts re_M) ->
  exists v, int_of_str t = Ok v /\ 0 <= v <= 59 /\ In t (spellings v).
Proof. apply text_ok_spec. vm_compute. reflexivity. Qed.

Lemma month_texts t :
  In t (group_texts re_m) ->
  exists v, int_of_str t = Ok v /\ 1 <= v <= 12 /\ In t (spellings v).
Proof. apply text_ok_spec. vm_compute. reflexivity. Qed.

Lemma day_texts t :
  In t (group_texts re_d) ->
  exists v, int_of_str t = Ok v /\ 1 <= v <= 31 /\ In t (day_spellings v).
Proof. apply text_ok_spec. vm_compute. reflexivity. Qed.

Lemma year_texts t :
  In t (group_texts re_Y) ->
  exists v, int_of_str t = Ok v /\ 0 <= v <= 9999 /\ In t [format_0d 4 v].
Proof. apply text_ok_spec. vm_compute. reflexivity. Qed.

(** What a successful [strptime] with ["%H:%M"] has read. *)
Lemma strptime_HM_inv r dt :
  strptime r fmt_HM = Ok dt ->
  exists hh mm,
    0 <= hh <= 23 /\ 0 <= mm <= 59 /\ In r (time_spellings hh mm)
    /\ dt = mkdatetime (mkdate 1900 1 1) (mktime hh mm 0).
Proof.
  unfold strptime, re_match.
  destruct (head (match_items (pattern fmt_HM) r)) as [[found rest]|] eqn:E;
    [|discriminate].
  destruct (String.eqb_spec rest EmptyString) as [->|_]; [|discriminate].
  cbn [negb]. apply head_In in E. cbn [pattern] in E.
  apply match_items_group in E.
  destruct E as (th & r1 & f1 & Hth & -> & -> & E).
  apply match_items_char in E. destruct E as (r2 & -> & E).
  apply match_items_group in E.
  destruct E as (tm & r3 & f2 & Htm & -> & -> & E).
  apply match_items_nil in E. destruct E as [-> <-].
  destruct (hour_texts th Hth) as (hh & Eh & Hh & Sh).
  destruct (minute_texts tm Htm) as (mm & Em & Hm & Sm).
  cbn [convert_groups convert_group rbind]. rewrite Eh.
  cbn [rbind String.eqb Ascii.eqb Bool.eqb f_year f_month f_day f_hour
         f_minute fields0].
  rewrite Em.
  cbn [rbind String.eqb Ascii.eqb Bool.eqb f_year f_month f_day f_hour
         f_minute fields0].
  change (date_new 1900 1 1) with (Ok (mkdate 1900 1 1)). cbn [rbind].
  intros [= <-]. exists hh, mm. split; [exact Hh|]. split; [exact Hm|].
  split; [|reflexivity].
  unfold time_spellings. apply in_flat_map. exists th. split; [exact Sh|].
  apply in_map_iff. exists tm. split; [|exact Sm].
  rewrite append_empty_r. reflexivity.
Qed.


(** What a successful [strptime] with ["%Y-%m-%d"] has read. *)
Lemma strptime_Ymd_inv s dt :
  strptime s fmt_Ymd = Ok dt ->
  exists d,
    valid_date d /\ In s (date_spellings d)
    /\ dt = mkdatetime d (mktime 0 0 0).
Proof.
  unfold strptime, re_match.
  destruct (head (match_items (pattern fmt_Ymd) s)) as [[found rest]|] eqn:E;
    [|discriminate].
  destruct (String.eqb_spec rest EmptyString) as [->|_]; [|discriminate].
  cbn [negb]. apply head_In in E. cbn [pattern] in E.
  apply match_items_group in E.
  destruct E as (ty & r1 & f1 & Hty & -> & -> & E).
  apply match_items_char in E. destruct E as (r2 & -> & E).
  apply match_items_group in E.
  destruct E as (tm & r3 & f2 & Htm & -> & -> & E).
  apply match_items_char in E. destruct E as (r4 & -> & E).
  apply match_items_group in E.
  destruct E as (td & r5 & f3 & Htd & -> & -> & E).
  apply match_items_nil in E. destruct E as [-> <-].
  destruct (year_texts ty Hty) as (y & Ey & Hy & Sy).
  destruct (month_texts tm Htm) as (m & Em & Hm & Sm).
  destruct (day_texts td Htd) as (d & Ed & Hd & Sd).
  destruct Sy as [Sy|[]].
  cbn [convert_groups convert_group rbind]. rewrite Ey.
  cbn [rbind String.eqb Ascii.eqb Bool.eqb f_year f_month f_day f_hour
         f_minute fields0].
  rewrite Em.
  cbn [rbind String.eqb Ascii.eqb Bool.eqb f_year f_month f_day f_hour
         f_minute fields0].
  rewrite Ed.
  cbn [rbind String.eqb Ascii.eqb Bool.eqb f_year f_month f_day f_hour
         f_minute fields0].
  destruct (date_new y m d) as [e|] eqn:En; [|discriminate].
  cbn [rbind]. intros [= <-].
  destruct (date_new_inv y m d e En) as [-> Hv].
  exists (mkdate y m d). split; [exact Hv|]. split; [|reflexivity].
  unfold date_spellings. cbn [year month day]. apply in_map_iff.
  exists (String "-" (String.append tm (String "-" td))).
  split.
  - rewrite <- Sy, append_empty_r. reflexivity.
  - unfold month_day_spellings. apply in_flat_map. exists tm.
    split; [exact Sm|]. apply in_map_iff. exists td. split; [reflexivity|exact Sd].
Qed.

(** Every spelling of a date of the calendar is read as that date. *)
Lemma strptime_date_spellings d s :
  valid_date d -> In s (date_spellings d) ->
  strptime s fmt_Ymd = Ok (mkdatetime d (mktime 0 0 0)).
Proof.
  intros Hv Hin. pose proof Hv as Hv'.
  apply valid_date_iff in Hv'. destruct Hv' as (Hy & Hm & Hd).
  pose proof (days_in_month_bounds (year d) (month d) Hm) as Hdim.
  destruct (year_text (year d) Hy) as [Hy1 Hy2].
  unfold date_spellings in Hin. apply in_map_iff in Hin.
  destruct Hin as (md & <- & Hin).
  unfold month_day_spellings in Hin. apply in_flat_map in Hin.
  destruct Hin as (tm & Htm & Hin). apply in_map_iff in Hin.
  destruct Hin as (td & <- & Htd).
  assert (H : month_day_spellings_ok ((month d - 1) * 31 + (day d - 1)) = true).
  { apply (all_below_spec month_day_spellings_ok 372);
      [vm_compute; reflexivity | lia]. }
  unfold month_day_spellings_ok in H. cbv zeta in H.
  replace (((month d - 1) * 31 + (day d - 1)) / 31 + 1) with (month d) in H
    by (Z.div_mod_to_equations; lia).
  replace (((month d - 1) * 31 + (day d - 1)) mod 31 + 1) with (day d) in H
    by (Z.div_mod_to_equations; lia).
  rewrite forallb_forall in H. specialize (H tm Htm).
  rewrite forallb_forall in H. specialize (H td Htd).
  apply andb_true_iff in H. destruct H as [H H3].
  apply andb_true_iff in H. destruct H as [H1 H2].
  apply bool_decide_eq_true in H1, H2, H3.
  unfold strptime, re_match.
  change (pattern fmt_Ymd)
    with (Group "Y" [[Digit; Digit; Digit; Digit]]
          :: [Char "-"; Group "m" re_m; Char "-"; Group "d" re_d]).
  cbn [match_items flat_map].
  rewrite (match_alt_app _ _ _ _ Hy1).
  rewrite (head_map_app _ _ _ _ H1).
  cbn [negb String.eqb convert_groups convert_group rbind].
  rewrite Hy2. cbn [rbind String.eqb Ascii.eqb Bool.eqb f_year f_month f_day
                      f_hour f_minute fields0].
  rewrite H2. cbn [rbind String.eqb Ascii.eqb Bool.eqb f_year f_month f_day
                      f_hour f_minute fields0].
  rewrite H3. cbn [rbind String.eqb Ascii.eqb Bool.eqb f_year f_month f_day
                      f_hour f_minute fields0].
  rewrite date_new_ok by lia. cbn [rbind]. destruct d; reflexivity.
Qed.

(** The two parts of [from_form]: the habit without a reminder, then the
    reminder. *)
Lemma from_form_None name description goal start_date periodicity h :
  from_form name description goal start_date periodicity None = Ok h
  <-> exists dt,
        strptime start_date fmt_Ymd = Ok dt
        /\ periodicity ∈ periodicities
        /\ h = {| name := name; description := description; goal := goal;
                  start_date := dt; periodicity := periodicity;
                  reminder := None;
                  completed := false; streak := 0;
                  last_completed_date := None |}.
Proof.
  unfold from_form.
  destruct (strptime start_date fmt_Ymd) as [dt|e]; cbn [rbind].
  - destruct (decide (periodicity ∈ periodicities)) as [Hp|Hp].
    + rewrite (bool_decide_eq_true_2 _ Hp). cbn [negb]. split.
      * intros [= <-]. exists dt. auto.
      * intros (dt' & [= <-] & _ & ->). reflexivity.
    + rewrite (bool_decide_eq_false_2 _ Hp). cbn [negb]. split.
      * discriminate.
      * intros (dt' & _ & Hp' & _). contradiction.
  - split; [discriminate|]. intros (dt' & [=] & _).
Qed.

Lemma from_form_Some name description goal start_date periodicity r h :
  r <> EmptyString ->
  (from_form name description goal start_date periodicity (Some r) = Ok h
   <-> exists h0 t,
         from_form name description goal start_date periodicity None = Ok h0
         /\ strptime r fmt_HM = Ok t
         /\ h = with_reminder (Some (dt_time t)) h0).
Proof.
  intros Hr. unfold from_form.
  destruct (strptime start_date fmt_Ymd) as [dt|e]; cbn [rbind].
  - destruct (String.eqb_spec r EmptyString) as [E|_]; [contradiction|].
    cbn [negb].
    destruct (strptime r fmt_HM) as [t|e]; cbn [rbind].
    + destruct (negb (bool_decide (periodicity ∈ periodicities))).
      * split; [discriminate|]. intros (h0 & t' & [=] & _).
      * split.
        -- intros [= <-]. eexists _, t. split; [reflexivity|].
           split; reflexivity.
        -- intros (h0 & t' & [= <-] & [= <-] & ->). reflexivity.
    + split; [discriminate|]. intros (h0 & t' & _ & [=] & _).
  - split; [discriminate|]. intros (h0 & t' & [=] & _).
Qed.

(** X6. What [from_form] returns is well formed: the start date is a date
    of the calendar at midnight, a reminder is a time of day with hour
    0..23, minute 0..59 and second 0, there is no reminder exactly when
    none or the empty string was passed, the periodicity is one of the
    three, and the texts are stored as passed. *)
Theorem from_form_result_well_formed
    (name description goal start_date periodicity : string)
    (reminder : option string) (h : Habit) :
  from_form name description goal start_date periodicity reminder = Ok h ->
  valid_date (dt_date (habit.start_date h))
  /\ dt_time (habit.start_date h) = mktime 0 0 0
  /\ (forall t, habit.reminder h = Some t ->
        0 <= hour t <= 23 /\ 0 <= minute t <= 59 /\ second t = 0)
  /\ (habit.reminder h = None
      <-> reminder = None \/ reminder = Some EmptyString)
  /\ habit.periodicity h ∈ periodicities
  /\ habit.name h = name /\ habit.description h = description
  /\ habit.goal h = goal /\ habit.periodicity h = periodicity.
Proof.
  intros H.
  assert (Hbase : forall h0,
            from_form name description goal start_date periodicity None = Ok h0 ->
            valid_date (dt_date (habit.start_date h0))
            /\ dt_time (habit.start_date h0) = mktime 0 0 0
            /\ habit.reminder h0 = None
            /\ habit.periodicity h0 ∈ periodicities
            /\ habit.name h0 = name /\ habit.description h0 = description
            /\ habit.goal h0 = goal /\ habit.periodicity h0 = periodicity).
  { intros h0 H0. apply from_form_None in H0.
    destruct H0 as (dt & Hdt & Hp & ->).
    apply strptime_Ymd_inv in Hdt. destruct Hdt as (d & Hv & _ & ->).
    cbn. auto 10. }
  destruct reminder as [r|].
  - destruct (String.eqb_spec r EmptyString) as [->|Hr].
    + assert (H0 : from_form name description goal start_date periodicity None
                   = Ok h) by exact H.
      destruct (Hbase h H0) as (H1 & H2 & H3 & H4 & H5).
      split; [exact H1|]. split; [exact H2|]. split.
      { intros t Ht. rewrite H3 in Ht. discriminate. }
      split; [|split; [exact H4|exact H5]]. split; auto.
    + apply (from_form_Some _ _ _ _ _ _ _ Hr) in H.
      destruct H as (h0 & t & H0 & Ht & ->).
      destruct (Hbase h0 H0) as (H1 & H2 & H3 & H4 & H5).
      apply strptime_HM_inv in Ht. destruct Ht as (hh & mm & Hh & Hm & _ & ->).
      cbn [with_reminder habit.start_date habit.reminder habit.periodicity
             habit.name habit.description habit.goal dt_time].
      split; [exact H1|]. split; [exact H2|]. split.
      { intros t [= <-]. cbn. auto. }
      split; [|split; [exact H4|exact H5]]. split; [discriminate|].
      intros [[=]|[= ->]]. contradiction.
  - destruct (Hbase h H) as (H1 & H2 & H3 & H4 & H5).
    split; [exact H1|]. split; [exact H2|]. split.
    { intros t Ht. rewrite H3 in Ht. discriminate. }
    split; [|split; [exact H4|exact H5]]. split; auto.
Qed.

Lemma from_form_result_well_formed_witness :
  valid_date (dt_date (habit.start_date fresh_habit))
  /\ habit.reminder fresh_habit <> None.
Proof.
  destruct (from_form_result_well_formed "Drink Water" "8 glasses" "Hydration"
              "2025-01-06" "daily" (Some "09:00") fresh_habit eq_refl)
    as (Hv & _ & _ & Hr & _).
  split; [exact Hv|]. intros E. apply Hr in E. destruct E as [E|E]; discriminate E.
Defined.

(** X7. The start dates [from_form] accepts.  With a valid periodicity and
    no reminder, the call returns exactly when the start date is a spelling
    of a date of the calendar: the year in four digits, a hyphen, the month
    in one or two digits, a hyphen, and the day in one or two digits or, for
    a day below 10, after a space; the habit then starts on that date.
    (Strings are sequences of the code points 0..255.) *)
Theorem from_form_accepted_start_dates
    (name description goal start_date periodicity : string) (h : Habit) :
  periodicity ∈ periodicities ->
  (from_form name description goal start_date periodicity None = Ok h
   <-> exists d,
         valid_date d /\ In start_date (date_spellings d)
         /\ h = new_habit name description goal d periodicity).
Proof.
  intros Hp. rewrite from_form_None. split.
  - intros (dt & Hdt & _ & ->). apply strptime_Ymd_inv in Hdt.
    destruct Hdt as (d & Hv & Hin & ->). exists d. auto.
  - intros (d & Hv & Hin & ->). eexists. split; [|split; [exact Hp|reflexivity]].
    apply strptime_date_spellings; assumption.
Qed.

(** "2025-1- 5" is read as 5 January 2025. *)
Lemma from_form_accepted_start_dates_witness :
  from_form "Read" "Read 10 pages" "Learning" "2025-1- 5" "daily" None
  = Ok (new_habit "Read" "Read 10 pages" "Learning" (mkdate 2025 1 5) "daily").
Proof.
  apply (from_form_accepted_start_dates "Read" "Read 10 pages" "Learning"
           "2025-1- 5" "daily").
  - apply (proj1 (bool_decide_eq_true _)). vm_compute. reflexivity.
  - exists (mkdate 2025 1 5). split; [reflexivity|]. split; [|reflexivity].
    vm_compute. auto 10.
Defined.



End FormFacts.

(** * More on the analytics functions *)

Module QueryFacts.

Import builtins analyse AnalyseSpec QuerySpec AnalyseFacts.

Section ListMapMore.

Context {A B : Type} (f : A -> result B).

Lemma list_map_Forall2 l ys :
  list_map f l = Ok ys <-> Forall2 (fun x y => f x = Ok y) l ys.
Proof.
  revert ys. induction l as [|x l IH]; intros ys.
  - split.
    + intros [= <-]. constructor.
    + intros H. inversion H. reflexivity.
  - cbn [list_map]. split.
    + destruct (f x) as [y|] eqn:Hfx; [|discriminate]. cbn [rbind].
      destruct (list_map f l) as [ys0|]; [|discriminate]. intros [= <-].
      constructor; [exact Hfx|]. apply IH. reflexivity.
    + intros H. inversion H as [|x0 y l0 ys0 Hfx Hrest]; subst.
      rewrite Hfx. cbn [rbind]. apply IH in Hrest. rewrite Hrest. reflexivity.
Qed.

(** The exception of [list(map(f, l))] is the one of the first item on
    which [f] raises. *)
Lemma list_map_Raise l e :
  list_map f l = Raise e
  <-> exists (i : nat) x,
        l !! i = Some x /\ f x = Raise e
        /\ forall (j : nat) x', (j < i)%nat -> l !! j = Some x' ->
             is_ok (f x') = true.
Proof.
  induction l as [|x l IH].
  - split; [discriminate|]. intros (i & x & Hx & _). discriminate.
  - cbn [list_map]. destruct (f x) as [y|e0] eqn:Hfx; cbn [rbind].
    + destruct (list_map f l) as [ys|e1] eqn:Hl; cbn [rbind].
      * split; [discriminate|].
        intros ([|i] & x' & Hx' & Hf & Hbefore); cbn in Hx'.
        -- injection Hx' as <-. congruence.
        -- assert (Hc : @Ok (list B) ys = Raise e); [|discriminate Hc].
           apply IH. exists i, x'. split; [exact Hx'|]. split; [exact Hf|].
           intros j z Hj Hz. apply (Hbefore (S j) z); [lia|exact Hz].
      * split.
        -- intros [= ->]. destruct (proj1 IH eq_refl) as (i & x' & Hx' & Hf & Hb).
           exists (S i), x'. split; [exact Hx'|]. split; [exact Hf|].
           intros [|j] z Hj Hz; cbn in Hz.
           ++ injection Hz as <-. rewrite Hfx. reflexivity.
           ++ apply (Hb j z); [lia|exact Hz].
        -- intros ([|i] & x' & Hx' & Hf & Hbefore); cbn in Hx'.
           ++ injection Hx' as <-. congruence.
           ++ apply IH. exists i, x'. split; [exact Hx'|]. split; [exact Hf|].
              intros j z Hj Hz. apply (Hbefore (S j) z); [lia|exact Hz].
    + split.
      * intros [= ->]. exists 0%nat, x. split; [reflexivity|].
        split; [exact Hfx|]. intros j z Hj. lia.
      * intros ([|i] & x' & Hx' & Hf & Hbefore); cbn in Hx'.
        -- injection Hx' as <-. congruence.
        -- specialize (Hbefore 0%nat x ltac:(lia) eq_refl).
           rewrite Hfx in Hbefore. discriminate.
Qed.

Lemma list_map_Permutation l l' ys :
  Permutation l l' -> list_map f l = Ok ys ->
  exists ys', list_map f l' = Ok ys' /\ Permutation ys ys'.
Proof.
  intros Hp. revert ys.
  induction Hp as [|x l l' Hp IH|x y l|l l' l'' Hp1 IH1 Hp2 IH2]; intros ys H.
  - exists ys. split; [exact H|reflexivity].
  - cbn [list_map] in *. destruct (f x) as [z|]; [|discriminate].
    cbn [rbind] in *. destruct (list_map f l) as [zs|]; [|discriminate].
    injection H as <-. destruct (IH zs eq_refl) as (zs' & -> & Hzs).
    exists (z :: zs'). split; [reflexivity|]. constructor. exact Hzs.
  - cbn [list_map] in *. destruct (f y) as [b|]; [|discriminate].
    cbn [rbind] in *. destruct (f x) as [a|]; [|discriminate].
    cbn [rbind] in *. destruct (list_map f l) as [zs|]; [|discriminate].
    injection H as <-. exists (a :: b :: zs). split; [reflexivity|].
    apply perm_swap.
  - destruct (IH1 ys H) as (ys1 & H1 & P1).
    destruct (IH2 ys1 H1) as (ys2 & H2 & P2).
    exists ys2. split; [exact H2|]. etransitivity; eassumption.
Qed.

End ListMapMore.

(** What a view tells about its row. *)
Lemma as_view_fields r v :
  _as_view r = Ok v ->
  row_id r = Ok (id v)
  /\ py_int (get r "streak" (PInt 0)) = Ok (streak v)
  /\ periodicity v = get r "periodicity" (PStr "daily")
  /\ r <> ∅.
Proof.
  unfold _as_view, row_id, subscript.
  destruct (r !! "id") as [iv|] eqn:Hid; [|discriminate]. cbn [rbind].
  destruct (py_int iv) as [n|]; [|discriminate]. cbn [rbind].
  destruct (r !! "name") as [nv|]; [|discriminate]. cbn [rbind].
  destruct (py_int (get r "streak" (PInt 0))) as [s|]; [|discriminate].
  cbn [rbind]. intros [= <-]. cbn. repeat split.
  intros ->. rewrite lookup_empty in Hid. discriminate.
Qed.

Lemma longest_run_streak_for_cons r rows habit_id n :
  row_id r = Ok n ->
  longest_run_streak_for (r :: rows) habit_id =
  if n =? habit_id
  then (if bool_decide (r <> ∅) then py_int (get r "streak" (PInt 0)) else Ok 0)
  else longest_run_streak_for rows habit_id.
Proof.
  unfold longest_run_streak_for, row_id. cbn [first_with_id].
  destruct (subscript r "id") as [iv|]; [|discriminate]. cbn [rbind].
  intros ->. cbn [rbind]. destruct (n =? habit_id); reflexivity.
Qed.

(** On rows that convert, [longest_run_streak_for] is the streak of the
    first view with the id. *)
Lemma longest_run_streak_for_views rows views habit_id :
  list_all_habits rows = Ok views ->
  longest_run_streak_for rows habit_id = Ok (streak_of_first views habit_id).
Proof.
  unfold list_all_habits. revert views.
  induction rows as [|r rows IH]; intros views H.
  - injection H as <-. reflexivity.
  - cbn [list_map] in H. destruct (_as_view r) as [v|] eqn:Hv; [|discriminate].
    cbn [rbind] in H. destruct (list_map _as_view rows) as [vs|]; [|discriminate].
    injection H as <-.
    destruct (as_view_fields r v Hv) as (Hid & Hs & _ & Hne).
    rewrite (longest_run_streak_for_cons r rows habit_id (id v) Hid).
    unfold streak_of_first. cbn [List.find].
    destruct (id v =? habit_id).
    + rewrite (bool_decide_eq_true_2 _ Hne). exact Hs.
    + apply IH. reflexivity.
Qed.

(** The greatest streak of a list of views that is not empty. *)
Lemma max_by_streak_greatest (v : HabitView) vs :
  In (max_by streak v vs) (v :: vs)
  /\ forall w, In w (v :: vs) -> streak w <= streak (max_by streak v vs).
Proof.
  destruct (max_by_first streak v vs) as (i & Hi & Hall). split.
  - apply list_elem_of_In. eapply list_elem_of_lookup_2. exact Hi.
  - intros w Hw. apply list_elem_of_In, list_elem_of_lookup_1 in Hw.
    destruct Hw as [j Hj]. apply (Hall j w Hj).
Qed.

Lemma find_some_first {A} (P : A -> bool) (f : A -> Z) l x y :
  NoDup (map f l) -> List.find P l = Some x -> In y l -> f y = f x -> y = x.
Proof.
  intros Hnd Hx Hy E. apply find_some in Hx. destruct Hx as [Hx _].
  clear P. induction l as [|z l IH]; [destruct Hy|].
  cbn [map] in Hnd. apply NoDup_cons in Hnd. destruct Hnd as [Hz Hnd].
  destruct Hx as [->|Hx], Hy as [->|Hy]; try reflexivity.
  - exfalso. apply Hz. rewrite <- E. apply list_elem_of_In, in_map.
    exact Hy.
  - exfalso. apply Hz. rewrite E. apply list_elem_of_In, in_map. exact Hx.
  - apply IH; assumption.
Qed.

(** X9. [list_all_habits] converts every row or none: it returns a list
    exactly when every row converts, and that list holds the views of the
    rows one by one, in the order of the rows; otherwise it raises what
    [_as_view] raises on the first row that does not convert. *)
Theorem list_all_habits_all_or_first_error (rows : list Row) :
  (forall views,
     list_all_habits rows = Ok views
     <-> Forall2 (fun r v => _as_view r = Ok v) rows views)
  /\ (forall e,
        list_all_habits rows = Raise e
        <-> exists (i : nat) r,
              rows !! i = Some r /\ _as_view r = Raise e
              /\ forall (j : nat) r', (j < i)%nat -> rows !! j = Some r' ->
                   is_ok (_as_view r') = true).
Proof.
  split.
  - intros views. apply list_map_Forall2.
  - intros e. apply list_map_Raise.
Qed.

(** X10. On rows that all carry the key [periodicity] and all convert,
    [list_by_periodicity] returns the views of [list_all_habits] that have
    the periodicity asked for, in the same order. *)
Theorem list_by_periodicity_filters_views (rows : list Row)
    (views : list HabitView) (p : pyval) :
  list_all_habits rows = Ok views ->
  (forall r, In r rows -> is_Some (r !! "periodicity")) ->
  list_by_periodicity rows p
  = Ok (List.filter (fun v => bool_decide (periodicity v = p)) views).
Proof.
  unfold list_all_habits, list_by_periodicity. revert views.
  induction rows as [|r rows IH]; intros views H Hkey.
  - injection H as <-. reflexivity.
  - cbn [list_map] in H. destruct (_as_view r) as [v|] eqn:Hv; [|discriminate].
    cbn [rbind] in H. destruct (list_map _as_view rows) as [vs|]; [|discriminate].
    injection H as <-.
    destruct (as_view_fields r v Hv) as (_ & _ & Hp & _).
    destruct (Hkey r (or_introl eq_refl)) as [pv Hpv].
    assert (E : get r "periodicity" PNone = periodicity v).
    { rewrite Hp. unfold get. rewrite Hpv. reflexivity. }
    cbn [List.filter]. rewrite E.
    specialize (IH vs eq_refl (fun r' Hr' => Hkey r' (or_intror Hr'))).
    destruct (bool_decide (periodicity v = p)).
    + cbn [list_map]. rewrite Hv. cbn [rbind]. rewrite IH. reflexivity.
    + exact IH.
Qed.

Lemma list_by_periodicity_filters_views_witness :
  list_by_periodicity tied_rows (PStr "weekly")
  = Ok [ {| id := 2; name := "Call Family"; periodicity := PStr "weekly";
            streak := 3; last_completed_date := PNone |} ].
Proof.
  apply (list_by_periodicity_filters_views tied_rows
           [ {| id := 1; name := "Drink Water"; periodicity := PStr "daily";
                streak := 3; last_completed_date := PNone |};
             {| id := 2; name := "Call Family"; periodicity := PStr "weekly";
                streak := 3; last_completed_date := PNone |} ]
           (PStr "weekly")).
  - vm_compute. reflexivity.
  - intros r [<-|[<-|[]]]; vm_compute; eauto.
Defined.

(** X11. A row without the key [periodicity] converts to a view with
    periodicity "daily", yet [list_by_periodicity] leaves it out whatever
    periodicity is asked for, "daily" included, unless that is [None]: then
    the row is listed. *)
Theorem row_without_periodicity (r : Row) (v : HabitView) :
  _as_view r = Ok v -> r !! "periodicity" = None ->
  periodicity v = PStr "daily"
  /\ (forall rows1 rows2 p, p <> PNone ->
        list_by_periodicity (rows1 ++ r :: rows2) p
        = list_by_periodicity (rows1 ++ rows2) p)
  /\ list_by_periodicity [r] PNone = Ok [v].
Proof.
  intros Hv Hkey. destruct (as_view_fields r v Hv) as (_ & _ & Hp & _).
  assert (Hget : forall dflt, get r "periodicity" dflt = dflt)
    by (intros dflt; unfold get; rewrite Hkey; reflexivity).
  rewrite Hget in Hp. split; [exact Hp|]. split.
  - intros rows1 rows2 p Hne. unfold list_by_periodicity.
    rewrite !List.filter_app. cbn [List.filter]. rewrite Hget.
    rewrite bool_decide_eq_false_2 by congruence. reflexivity.
  - unfold list_by_periodicity. cbn [List.filter]. rewrite Hget.
    rewrite bool_decide_eq_true_2 by reflexivity.
    cbn [list_map]. rewrite Hv. reflexivity.
Qed.

Lemma row_without_periodicity_witness :
  list_all_habits [bare_row]
  = Ok [ {| id := 7; name := "Stretch"; periodicity := PStr "daily";
            streak := 2; last_completed_date := PNone |} ]
  /\ list_by_periodicity [bare_row] (PStr "daily") = Ok [].
Proof.
  destruct (row_without_periodicity bare_row
              {| id := 7; name := "Stretch"; periodicity := PStr "daily";
                 streak := 2; last_completed_date := PNone |}
              ltac:(vm_compute; reflexivity) ltac:(vm_compute; reflexivity))
    as (_ & Hleft & _).
  split; [vm_compute; reflexivity|].
  exact (Hleft [] [] (PStr "daily") ltac:(discriminate)).
Defined.

(** X12. The two streak queries agree.  On rows that all convert,
    [longest_run_streak_for] returns for every id the streak of the first
    row with that id, and 0 when no row has it; no such answer exceeds the
    streak [longest_run_streak] reports, unless that is negative; and when
    the ids are pairwise different, asking for the id that
    [longest_run_streak] reports gives the streak it reports. *)
Theorem longest_run_streak_for_agrees (rows : list Row)
    (views : list HabitView) :
  list_all_habits rows = Ok views ->
  exists top s,
    longest_run_streak rows = Ok (top, s)
    /\ (forall habit_id,
          longest_run_streak_for rows habit_id
          = Ok (streak_of_first views habit_id)
          /\ streak_of_first views habit_id <= Z.max s 0)
    /\ (forall i, top = Some i -> NoDup (map id views) ->
          longest_run_streak_for rows i = Ok s).
Proof.
  intros H. unfold longest_run_streak. rewrite H. cbn [rbind].
  destruct views as [|v vs].
  - exists None, 0. split; [reflexivity|]. split; [|discriminate].
    intros j. split; [apply longest_run_streak_for_views; exact H|].
    cbn. lia.
  - destruct (max_by_streak_greatest v vs) as [Hin Hmax].
    set (best := max_by streak v vs) in *.
    exists (Some (id best)), (streak best). split; [reflexivity|]. split.
    + intros j. split; [apply longest_run_streak_for_views; exact H|].
      unfold streak_of_first.
      destruct (List.find (fun w => id w =? j) (v :: vs)) as [w|] eqn:Hf; [|lia].
      apply find_some in Hf. destruct Hf as [Hw _].
      specialize (Hmax w Hw). lia.
    + intros i [= <-] Hnd.
      rewrite (longest_run_streak_for_views rows (v :: vs) (id best) H).
      unfold streak_of_first.
      destruct (List.find (fun w => id w =? id best) (v :: vs)) as [w|] eqn:Hf.
      * pose proof (find_some _ _ Hf) as [_ Hid]. apply Z.eqb_eq in Hid.
        rewrite (find_some_first _ id (v :: vs) w best Hnd Hf Hin (eq_sym Hid)).
        reflexivity.
      * exfalso. pose proof (find_none _ _ Hf best Hin) as Hn.
        cbn in Hn. rewrite Z.eqb_refl in Hn. discriminate.
Qed.

Lemma longest_run_streak_for_agrees_witness :
  longest_run_streak tied_rows = Ok (Some 1, 3)
  /\ longest_run_streak_for tied_rows 1 = Ok 3
  /\ longest_run_streak_for tied_rows 2 = Ok 3.
Proof.
  destruct (longest_run_streak_for_agrees tied_rows
              [ {| id := 1; name := "Drink Water"; periodicity := PStr "daily";
                   streak := 3; last_completed_date := PNone |};
                {| id := 2; name := "Call Family"; periodicity := PStr "weekly";
                   streak := 3; last_completed_date := PNone |} ]
              ltac:(vm_compute; reflexivity)) as (top & s & _ & Hfor & _).
  split; [vm_compute; reflexivity|].
  split; [exact (proj1 (Hfor 1)) | exact (proj1 (Hfor 2))].
Defined.

(** X13. The longest streak does not depend on the order of the rows, the
    habit reported with it may: for two lists holding the same rows in
    different orders, [longest_run_streak] returns on both or raises on
    both, and when it returns the streaks are equal and both ids are
    absent or both present. *)
Theorem longest_run_streak_order (rows rows' : list Row) :
  Permutation rows rows' ->
  (is_ok (longest_run_streak rows) = is_ok (longest_run_streak rows'))
  /\ (forall top s top' s',
        longest_run_streak rows = Ok (top, s) ->
        longest_run_streak rows' = Ok (top', s') ->
        s = s' /\ (top = None <-> top' = None)).
Proof.
  intros Hp.
  assert (Hok : forall l l' : list Row, Permutation l l' ->
            forall vs, list_all_habits l = Ok vs ->
            exists vs', list_all_habits l' = Ok vs' /\ Permutation vs vs').
  { intros l l' Hl vs. apply list_map_Permutation. exact Hl. }
  assert (Hlrs : forall l vs, list_all_habits l = Ok vs ->
            exists top s, longest_run_streak l = Ok (top, s)
              /\ (vs = [] -> top = None /\ s = 0)
              /\ (vs <> [] -> top <> None
                  /\ (exists w, In w vs /\ streak w = s)
                  /\ forall w, In w vs -> streak w <= s)).
  { intros l vs Hl. unfold longest_run_streak. rewrite Hl. cbn [rbind].
    destruct vs as [|v vs].
    - exists None, 0. split; [reflexivity|]. split; [auto|]. intros []. reflexivity.
    - destruct (max_by_streak_greatest v vs) as [Hin Hmax].
      eexists _, _. split; [reflexivity|]. split; [discriminate|].
      intros _. split; [discriminate|]. split; [|exact Hmax].
      eexists. split; [exact Hin|reflexivity]. }
  split.
  - unfold longest_run_streak.
    destruct (list_all_habits rows) as [vs|e] eqn:H1.
    + destruct (Hok rows rows' Hp vs H1) as (vs' & -> & _).
      cbn [rbind]. destruct vs, vs'; reflexivity.
    + destruct (list_all_habits rows') as [vs'|e'] eqn:H2; [|reflexivity].
      symmetry in Hp. destruct (Hok rows' rows Hp vs' H2) as (vs & Hvs & _).
      rewrite H1 in Hvs. discriminate.
  - intros top s top' s' H1 H2.
    destruct (list_all_habits rows) as [vs|e] eqn:Hvs;
      [|unfold longest_run_streak in H1; rewrite Hvs in H1; discriminate].
    destruct (Hok rows rows' Hp vs Hvs) as (vs' & Hvs' & Hperm).
    destruct (Hlrs rows vs Hvs) as (t1 & s1 & E1 & Hnil1 & Hcons1).
    destruct (Hlrs rows' vs' Hvs') as (t2 & s2 & E2 & Hnil2 & Hcons2).
    rewrite H1 in E1. injection E1 as <- <-.
    rewrite H2 in E2. injection E2 as <- <-.
    destruct vs as [|v vs].
    + apply Permutation_nil in Hperm. subst vs'.
      destruct (Hnil1 eq_refl) as [-> ->], (Hnil2 eq_refl) as [-> ->].
      split; [reflexivity|]. split; auto.
    + assert (Hne' : vs' <> []).
      { intros ->. symmetry in Hperm. apply Permutation_nil in Hperm.
        discriminate. }
      destruct (Hcons1 ltac:(discriminate)) as (Ht1 & (w1 & Hw1 & Es1) & Hmax1).
      destruct (Hcons2 Hne') as (Ht2 & (w2 & Hw2 & Es2) & Hmax2).
      split.
      * pose proof (Hmax2 w1 (Permutation_in _ Hperm Hw1)).
        symmetry in Hperm.
        pose proof (Hmax1 w2 (Permutation_in _ Hperm Hw2)). lia.
      * split; intros E; contradiction.
Qed.

(** Two rows share the streak 3: the streak is the same in both orders, the
    id is the one of the row that comes first. *)
Lemma longest_run_streak_order_witness :
  longest_run_streak tied_rows = Ok (Some 1, 3)
  /\ longest_run_streak (rev tied_rows) = Ok (Some 2, 3)
  /\ is_ok (longest_run_streak tied_rows)
     = is_ok (longest_run_streak (rev tied_rows)).
Proof.
  destruct (longest_run_streak_order tied_rows (rev tied_rows)
              (Permutation_rev tied_rows)) as [Hok _].
  split; [vm_compute; reflexivity|]. split; [vm_compute; reflexivity|].
  exact Hok.
Defined.

End QueryFacts.

(** * The command-line flows *)

Module CliFacts.

Import datetime builtins _strptime habit database cli CalendarSpec HabitSpec
  EngineSpec FormSpec DatabaseSpec CliSpec CalendarFacts HabitFacts
  EngineFacts FormFacts DatabaseFacts.

Lemma stored_row_lookup id user_id h :
  let r := stored_row id user_id h in
  r !! "id" = Some id
  /\ r !! "name" = Some (PStr (name h))
  /\ r !! "description" = Some (PStr (description h))
  /\ r !! "goal" = Some (PStr (goal h))
  /\ r !! "start_date" = Some (PStr (date_isoformat (dt_date (start_date h))))
  /\ r !! "periodicity" = Some (PStr (periodicity h))
  /\ r !! "reminder" = Some (match reminder h with
                             | Some t => PStr (time_isoformat_minutes t)
                             | None => PNone
                             end)
  /\ r !! "completed" = Some (PInt (if completed h then 1 else 0))
  /\ r !! "streak" = Some (PInt (streak h))
  /\ r !! "last_completed_date"
     = Some (match last_completed_date h with
             | Some d => PStr (date_isoformat d)
             | None => PNone
             end).
Proof.
  cbv zeta. unfold stored_row.
  repeat split; repeat (rewrite lookup_insert_ne by discriminate);
    rewrite lookup_insert; reflexivity.
Qed.

Lemma date_isoformat_truthy d : truthy (PStr (date_isoformat d)) = true.
Proof.
  unfold truthy, date_isoformat.
  destruct (format_0d 4 (year d)); reflexivity.
Qed.

Lemma from_form_storable name description goal start_date periodicity reminder h :
  from_form name description goal start_date periodicity reminder = Ok h ->
  storable h.
Proof.
  intros H.
  assert (Hbase : forall h0,
            from_form name description goal start_date periodicity None = Ok h0 ->
            storable h0 /\ habit.reminder h0 = None).
  { intros h0 H0. apply from_form_None in H0.
    destruct H0 as (dt & Hdt & Hp & ->).
    apply strptime_Ymd_inv in Hdt. destruct Hdt as (d & Hv & _ & ->).
    split; [|reflexivity]. unfold storable. cbn.
    split; [exact Hv|]. split; [reflexivity|]. split; [discriminate|].
    split; [exact Hp|discriminate]. }
  destruct reminder as [r|].
  - destruct (String.eqb_spec r EmptyString) as [->|Hr].
    + apply Hbase. exact H.
    + apply (from_form_Some _ _ _ _ _ _ _ Hr) in H.
      destruct H as (h0 & t & H0 & Ht & ->).
      destruct (Hbase h0 H0) as ((H1 & H2 & _ & H4 & H5) & _).
      apply strptime_HM_inv in Ht. destruct Ht as (hh & mm & Hh & Hm & _ & ->).
      unfold storable. cbn [with_reminder habit.start_date habit.reminder
                             habit.periodicity habit.last_completed_date dt_time].
      split; [exact H1|]. split; [exact H2|]. split; [|split; [exact H4|exact H5]].
      intros t [= <-]. cbn. lia.
  - apply Hbase. exact H.
Qed.

Lemma check_off_storable h od today :
  storable h -> valid_date today ->
  (forall d, od = Some d -> valid_date d) ->
  storable (fst (check_off od today h)).
Proof.
  intros (H1 & H2 & H3 & H4 & H5) Ht Hod. rewrite check_off_eq. cbv zeta.
  assert (Hon : valid_date (match od with Some d => d | None => today end))
    by (destruct od; auto).
  assert (Hc : forall s, storable
            (completed_on (match od with Some d => d | None => today end) s h)).
  { intros s. unfold storable, completed_on. cbn.
    split; [exact H1|]. split; [exact H2|]. split; [exact H3|].
    split; [exact H4|]. intros d [= <-]. exact Hon. }
  assert (Hh : storable h) by (unfold storable; auto).
  destruct (last_completed_date h); [|apply Hc].
  destruct (expected_value h) as [[e|]|err]; [|apply Hc|exact Hh].
  destruct (date_eqb _ e); [apply Hc|]. destruct (date_gtb _ e); apply Hc.
Qed.

Lemma check_off_all_storable dates today h :
  storable h -> valid_date today -> Forall valid_date dates ->
  storable (check_off_all dates today h).
Proof.
  intros Hs Ht Hd. revert h Hs.
  induction Hd as [|d dates Hv _ IH]; intros h Hs; [exact Hs|].
  cbn [check_off_all fold_left]. apply IH.
  apply check_off_storable; [assumption..|]. intros d' [= <-]. exact Hv.
Qed.

Section Rehydrate.

Context (fromisoformat : string -> result datetime).
Context (Hiso : reads_isoformat fromisoformat).

Lemma rehydrate_storable id user_id h :
  storable h ->
  _rehydrate_habit_from_row fromisoformat (stored_row id user_id h)
  = Some (Ok h).
Proof.
  intros (H1 & H2 & H3 & H4 & H5).
  destruct (stored_row_lookup id user_id h)
    as (Lid & Lname & Ldesc & Lgoal & Lstart & Lper & Lrem & Lcomp & Lstreak
        & Llast).
  unfold _rehydrate_habit_from_row, in_model, text_columns.
  cbn [forallb]. rewrite Lname, Ldesc, Lgoal. cbn [andb negb].
  unfold analyse.subscript, analyse.get.
  rewrite Lname, Ldesc, Lgoal, Lstart, Lper, Lrem, Lcomp, Lstreak, Llast.
  cbn [rbind the_text].
  assert (Hform :
    from_form_any (name h) (description h) (goal h)
      (PStr (date_isoformat (dt_date (start_date h)))) (PStr (periodicity h))
      (if truthy (match reminder h with
                  | Some t => PStr (time_isoformat_minutes t)
                  | None => PNone
                  end)
       then match reminder h with
            | Some t => PStr (time_isoformat_minutes t)
            | None => PNone
            end
       else PNone)
    = Ok {| name := name h; description := description h; goal := goal h;
            start_date := start_date h; periodicity := periodicity h;
            reminder := reminder h; completed := false; streak := 0;
            last_completed_date := None |}).
  { unfold from_form_any. cbn [rbind].
    rewrite (strptime_date_isoformat _ H1). cbn [rbind].
    assert (Hstart : mkdatetime (dt_date (start_date h)) (mktime 0 0 0)
                     = start_date h).
    { destruct (start_date h) as [d t]. cbn in H2 |- *. rewrite H2. reflexivity. }
    destruct (reminder h) as [t|] eqn:Hr.
    - destruct (H3 t eq_refl) as (Hh & Hm & Hsec).
      assert (Et : t = mktime (hour t) (minute t) 0)
        by (destruct t; cbn in Hsec |- *; rewrite Hsec; reflexivity).
      rewrite Et.
      destruct (strptime_time_isoformat (hour t) (minute t) Hh Hm) as [Hp Hne].
      unfold truthy.
      destruct (String.eqb_spec
                  (time_isoformat_minutes (mktime (hour t) (minute t) 0))
                  EmptyString) as [E|_]; [contradiction|].
      cbn [negb rbind]. unfold from_form.
      rewrite (strptime_date_isoformat _ H1). cbn [rbind].
      destruct (String.eqb_spec
                  (time_isoformat_minutes (mktime (hour t) (minute t) 0))
                  EmptyString) as [E|_]; [contradiction|].
      cbn [negb]. rewrite Hp. cbn [rbind dt_time].
      rewrite (bool_decide_eq_true_2 _ H4). cbn [negb].
      rewrite Hstart. reflexivity.
    - cbn [truthy rbind]. unfold from_form.
      rewrite (strptime_date_isoformat _ H1). cbn [rbind].
      rewrite (bool_decide_eq_true_2 _ H4). cbn [negb].
      rewrite Hstart. reflexivity. }
  rewrite Hform. cbn [rbind py_int].
  assert (Hlast :
    (if truthy (match last_completed_date h with
                | Some d => PStr (date_isoformat d)
                | None => PNone
                end)
     then match match last_completed_date h with
                | Some d => PStr (date_isoformat d)
                | None => PNone
                end with
          | PStr s => try dt <~ fromisoformat s ;; Ok (Some (dt_date dt))
          | _ => Raise (TypeError "fromisoformat: argument must be str")
          end
     else Ok None) = Ok (last_completed_date h)).
  { destruct (last_completed_date h) as [d|]; [|reflexivity].
    rewrite date_isoformat_truthy, (Hiso d (H5 d eq_refl)). reflexivity. }
  rewrite Hlast. cbn [rbind].
  assert (Hc : truthy (PInt (if completed h then 1 else 0)) = completed h)
    by (destruct (completed h); reflexivity).
  rewrite Hc. destruct h; reflexivity.
Qed.

(** The row of a new habit holds what [add_habit_flow] passes to
    [save_habit], and the id. *)
Lemma stored_row_new_habit name description goal start_date periodicity
    reminder h (u : user.User) (id : pyval) :
  from_form name description goal start_date periodicity reminder = Ok h ->
  stored_row id (user.user_id u) h
  = <["id" := id]> (list_to_map (save_habit_arguments u h)).
Proof.
  intros Hh. destruct (from_form_fresh _ _ _ _ _ _ _ Hh) as (Hs & Hc & Hl).
  unfold stored_row, save_habit_arguments. rewrite Hs, Hc, Hl. reflexivity.
Qed.

(** X14. Rehydration gives back the habit that was stored.  Take a habit
    built by [from_form] and the row that holds it: the arguments
    [add_habit_flow] passes to [save_habit], with the id of the row.  Check
    the habit off any number of times on dates of the calendar and write
    the progress to the row as [check_off_flow] does.  Then
    [_rehydrate_habit_from_row] returns exactly the habit checked off,
    provided [datetime.fromisoformat] reads what [date.isoformat]
    writes. *)
Theorem rehydrate_stored_row
    (name description goal start_date periodicity : string)
    (reminder : option string) (h0 : Habit) (dates : list date) (today : date)
    (u : user.User) (id : pyval) :
  from_form name description goal start_date periodicity reminder = Ok h0 ->
  Forall valid_date dates -> valid_date today ->
  stored_row id (user.user_id u) h0
  = <["id" := id]> (list_to_map (save_habit_arguments u h0))
  /\ _rehydrate_habit_from_row fromisoformat
       (stored_row id (user.user_id u) (check_off_all dates today h0))
     = Some (Ok (check_off_all dates today h0)).
Proof.
  intros H0 Hd Ht. split.
  - apply (stored_row_new_habit _ _ _ _ _ _ _ u id H0).
  - apply rehydrate_storable.
    apply check_off_all_storable; [|assumption..].
    apply (from_form_storable _ _ _ _ _ _ _ H0).
Qed.

End Rehydrate.

(** ** The flows *)

Lemma stored_row_listable id user_id h : listable (stored_row id user_id h).
Proof.
  destruct (stored_row_lookup id user_id h)
    as (_ & Hn & _ & _ & _ & Hp & _ & _ & Hs & _).
  unfold listable. rewrite Hn, Hp, Hs. eauto.
Qed.

Lemma int_of_str_raises s e :
  int_of_str s = Raise e -> exists msg, e = ValueError msg.
Proof.
  unfold int_of_str.
  destruct (match strip s with
            | String "-" r => (true, r)
            | String "+" r => (false, r)
            | _ => (false, strip s)
            end) as [negative body].
  destruct (parse_digits body 0 0 false) as [[v count]|].
  - destruct (int_max_str_digits <? count); [|discriminate].
    intros [= <-]. eauto.
  - intros [= <-]. eauto.
Qed.

Lemma convert_groups_raises found acc e :
  convert_groups acc found = Raise e -> exists msg, e = ValueError msg.
Proof.
  revert acc. induction found as [|[key text] found IH]; intros acc;
    [discriminate|].
  cbn [convert_groups convert_group].
  destruct (int_of_str text) as [v|e0] eqn:Ei; cbn [rbind].
  - apply IH.
  - intros [= <-]. apply (int_of_str_raises text e0 Ei).
Qed.

Lemma strptime_raises s f e :
  strptime s f = Raise e -> exists msg, e = ValueError msg.
Proof.
  unfold strptime.
  destruct (re_match (pattern f) s) as [[found rest]|]; [|intros [= <-]; eauto].
  destruct (negb (String.eqb rest EmptyString)); [intros [= <-]; eauto|].
  destruct (convert_groups fields0 found) as [fs|e0] eqn:Ec; cbn [rbind].
  - unfold date_new.
    repeat (destruct (negb _); [intros [= <-]; eauto|]). discriminate.
  - intros [= <-]. apply (convert_groups_raises found fields0 e0 Ec).
Qed.

(** Called with strings, [from_form] raises nothing but a [ValueError]. *)
Lemma from_form_raises name description goal start_date periodicity reminder e :
  from_form name description goal start_date periodicity reminder = Raise e ->
  exists msg, e = ValueError msg.
Proof.
  unfold from_form.
  destruct (strptime start_date fmt_Ymd) as [dt|e0] eqn:Es; cbn [rbind];
    [|intros [= <-]; apply (strptime_raises _ _ _ Es)].
  destruct reminder as [r|]; cbn [rbind].
  - destruct (negb (String.eqb r EmptyString)); cbn [rbind].
    + destruct (strptime r fmt_HM) as [t|e0] eqn:Et; cbn [rbind];
        [|intros [= <-]; apply (strptime_raises _ _ _ Et)].
      destruct (negb _); [intros [= <-]; eauto|discriminate].
    + destruct (negb _); [intros [= <-]; eauto|discriminate].
  - destruct (negb _); [intros [= <-]; eauto|discriminate].
Qed.

Lemma from_form_name name description goal start_date periodicity reminder h :
  from_form name description goal start_date periodicity reminder = Ok h ->
  habit.name h = name.
Proof.
  unfold from_form.
  destruct (strptime start_date fmt_Ymd) as [dt|]; [|discriminate].
  cbn [rbind].
  destruct (match reminder with Some _ => _ | None => _ end) as [rt|];
    [|discriminate].
  cbn [rbind]. destruct (negb _); [discriminate|].
  intros [= <-]. reflexivity.
Qed.

Section Flows.

Context {Connection : Type} `{Sqlite3 Connection}
        `{Store (Database Connection)}.

(** X15. [add_habit_flow] lets no exception of [from_form] escape and
    reports no id.  When [from_form] raises on the stripped lines (with
    "daily" for an empty periodicity and no reminder for an empty one), the
    flow prints the error line for that exception, returns, and leaves the
    store as it was.  When [from_form] returns a habit, the flow calls
    [save_habit] with the arguments made from it; the flow raises exactly
    when that call raises, and when it returns the last line printed
    reads "(id=None)" for the id. *)
Theorem add_habit_flow_outcome (u : user.User)
    (typed_name typed_description typed_goal typed_start_date
     typed_periodicity typed_reminder : string) (t : @Terminal Connection) :
  let periodicity :=
    if String.eqb (str_strip typed_periodicity) EmptyString
    then "daily" else str_strip typed_periodicity in
  let reminder :=
    if String.eqb (str_strip typed_reminder) EmptyString
    then None else Some (str_strip typed_reminder) in
  let built :=
    from_form (str_strip typed_name) (str_strip typed_description)
      (str_strip typed_goal) (str_strip typed_start_date)
      periodicity reminder in
  let after :=
    add_habit_flow u typed_name typed_description typed_goal
      typed_start_date typed_periodicity typed_reminder t in
  (forall e, built = Raise e ->
     after = ((fst t, snd t ++ add_habit_prompts ++ [ErrorLine e]), Ok tt))
  /\ (forall h, built = Ok h ->
        let saved := save_habit (save_habit_arguments u h) (fst t) in
        fst (fst after) = fst saved
        /\ (forall e, snd after = Raise e <-> snd saved = Raise e)
        /\ (is_ok (snd saved) = true ->
            after
            = ((fst saved,
                snd t ++ add_habit_prompts
                ++ [Line (String.append "Saved habit '"
                            (String.append (str_strip typed_name)
                               "' (id=None)."))]),
               Ok tt))).
Proof.
  cbv zeta. split.
  - intros e He. destruct (from_form_raises _ _ _ _ _ _ _ He) as [msg ->].
    unfold add_habit_flow, _input, print, show, mbind, mmodify, mret.
    cbn [fst snd]. rewrite He. cbn [fst snd].
    rewrite <- !app_assoc. reflexivity.
  - intros h Hh. pose proof (from_form_name _ _ _ _ _ _ _ Hh) as Hname.
    pose proof (save_habit_result (save_habit_arguments u h) (fst t)) as Hres.
    unfold add_habit_flow, _input, print, show, mbind, mmodify, mret, on_db.
    cbn [fst snd]. rewrite Hh. cbn [fst snd].
    destruct (save_habit (save_habit_arguments u h) (fst t)) as [db' [v|e0]];
      cbn [fst snd] in *.
    + destruct Hres as [[= ->]|[e0 [=]]].
      split; [reflexivity|]. split; [split; discriminate|].
      intros _. rewrite Hname, <- !app_assoc. reflexivity.
    + split; [reflexivity|].
      split; [intros e; split; intros [= ->]; reflexivity|]. discriminate.
Qed.

Lemma list_rows_listable rows :
  Forall listable rows ->
  forall idx (t : @Terminal Connection),
  exists lines, list_rows idx rows t = ((fst t, snd t ++ lines), Ok tt).
Proof.
  induction 1 as [|r rows ([n Hn] & [p Hp] & [s Hs]) _ IH]; intros idx t.
  - exists []. rewrite app_nil_r. destruct t; reflexivity.
  - cbn [list_rows]. unfold mbind at 1 2 3 4, mlift, analyse.subscript.
    rewrite Hn, Hp, Hs. unfold print, show, mmodify at 1.
    match goal with
    | |- context [list_rows (idx + 1) rows ?t'] =>
        destruct (IH (idx + 1) t') as [lines Hl]; rewrite Hl
    end.
    cbn [fst snd]. eexists. rewrite <- app_assoc. reflexivity.
Qed.

Lemma list_index_selects {A} (rows : list A) (i : Z) :
  rows <> [] ->
  let len := Z.of_nat (List.length rows) in
  list_index rows i
  = if (- len <=? i) && (i <? len) then rows !! Z.to_nat (i mod len) else None.
Proof.
  intros Hne. cbv zeta. unfold list_index.
  assert (Hlen : 0 < Z.of_nat (List.length rows))
    by (destruct rows; [contradiction|cbn; lia]).
  set (len := Z.of_nat (List.length rows)) in *.
  destruct (Z.leb_spec 0 i), (Z.ltb_spec i len), (Z.leb_spec (- len) i),
    (Z.ltb_spec i 0); cbn [andb]; try reflexivity; try lia.
  - rewrite Z.mod_small by lia. reflexivity.
  - replace (i mod len) with (len + i); [reflexivity|].
    apply (Z.mod_unique i len (-1) (len + i)); lia.
Qed.

(** X16. The choice in [delete_habit_flow].  With habits to choose from,
    the number typed selects a row whenever it lies between one minus the
    number of rows and the number of rows: the row at that number counted
    from 1, and, for zero and negative numbers, the row counted from the
    end, so that "0" selects the last row.  [delete_habit] is then called
    with the id of that row.  For any other input nothing is deleted and
    "Invalid selection." is printed. *)
Theorem delete_habit_flow_selection (u : user.User) (typed : string)
    (t : @Terminal Connection) (db1 : Database Connection) (rows : list analyse.Row) :
  fetch_habits_by_user (user.user_id u) (fst t) = (db1, Ok rows) ->
  rows <> [] -> Forall listable rows ->
  let len := Z.of_nat (List.length rows) in
  let after := delete_habit_flow u typed t in
  (forall n, int_of_str (str_strip typed) = Ok n -> 1 - len <= n <= len ->
     exists row,
       rows !! Z.to_nat ((n - 1) mod len) = Some row
       /\ forall id, row !! "id" = Some id ->
            fst (fst after) = fst (delete_habit id db1)
            /\ snd after = snd (delete_habit id db1))
  /\ ((forall n, int_of_str (str_strip typed) = Ok n ->
         ~ 1 - len <= n <= len) ->
      fst (fst after) = db1 /\ snd after = Ok tt
      /\ exists lines,
           snd (fst after) = snd t ++ lines ++ [Line "Invalid selection."]).
Proof.
  intros Hfetch Hne Hlist. cbv zeta.
  assert (Hstart : forall k : M (@Terminal Connection) unit,
            (exists lines,
               delete_habit_flow u typed t
               = match int_of_str (str_strip typed) with
                 | Raise (ValueError _) => print "Invalid selection."
                 | Raise e => mraise e
                 | Ok n =>
                     match list_index rows (n - 1) with
                     | None => print "Invalid selection."
                     | Some row =>
                         do id <- mlift (analyse.subscript row "id") ;;
                         run on_db (delete_habit id) ;;
                         do name <- mlift (analyse.subscript row "name") ;;
                         print (String.append "Deleted habit '"
                                  (String.append (py_str name) "'."))
                     end
                 end (db1, snd t ++ lines))).
  { intros _. unfold delete_habit_flow. unfold mbind at 1, on_db at 1.
    rewrite Hfetch. cbn [fst snd].
    destruct rows as [|r rows']; [contradiction|].
    destruct (list_rows_listable (r :: rows') Hlist 1 (db1, snd t))
      as [lines Hl].
    unfold mbind at 1. rewrite Hl. cbn [fst snd].
    unfold mbind at 1, _input, mbind at 1, show, mmodify, mret. cbn [fst snd].
    eexists. rewrite <- app_assoc. reflexivity. }
  destruct (Hstart (mret tt)) as [lines ->]. clear Hstart.
  pose proof (list_index_selects rows) as Hidx. cbv zeta in Hidx.
  split.
  - intros n Hn Hrange. rewrite Hn, (Hidx (n - 1) Hne).
    replace ((- Z.of_nat (List.length rows) <=? n - 1)
             && (n - 1 <? Z.of_nat (List.length rows))) with true
      by (symmetry; apply andb_true_iff; split;
          [apply Z.leb_le | apply Z.ltb_lt]; lia).
    destruct (rows !! Z.to_nat ((n - 1) mod Z.of_nat (List.length rows)))
      as [row|] eqn:Hrow.
    + exists row. split; [reflexivity|]. intros id Hid.
      assert (Hrl : listable row).
      { rewrite Forall_forall in Hlist. apply Hlist.
        eapply list_elem_of_lookup_2. exact Hrow. }
      destruct Hrl as ([nm Hnm] & _).
      unfold mbind, mlift, analyse.subscript, on_db, print, show, mmodify.
      rewrite Hid, Hnm. cbn [fst snd].
      destruct (delete_habit id db1) as [db2 [[]|e]]; split; reflexivity.
    + exfalso. apply lookup_ge_None in Hrow.
      assert (0 < Z.of_nat (List.length rows))
        by (destruct rows; [contradiction|cbn; lia]).
      pose proof (Z.mod_pos_bound (n - 1) (Z.of_nat (List.length rows))). lia.
  - intros Hout.
    assert (Hinv : (print "Invalid selection." : M (@Terminal Connection) unit)
                     (db1, snd t ++ lines)
                   = ((db1, snd t ++ lines ++ [Line "Invalid selection."]),
                      Ok tt)).
    { unfold print, show, mmodify. cbn [fst snd]. rewrite <- app_assoc.
      reflexivity. }
    destruct (int_of_str (str_strip typed)) as [n|e] eqn:Hn.
    + specialize (Hout n eq_refl). rewrite (Hidx (n - 1) Hne).
      replace ((- Z.of_nat (List.length rows) <=? n - 1)
               && (n - 1 <? Z.of_nat (List.length rows))) with false.
      * rewrite Hinv. cbn [fst snd]. eauto.
      * symmetry. apply andb_false_iff.
        destruct (Z.leb_spec (- Z.of_nat (List.length rows)) (n - 1));
          [right; apply Z.ltb_ge; lia | left; reflexivity].
    + destruct (int_of_str_raises _ _ Hn) as [msg ->].
      rewrite Hinv. cbn [fst snd]. eauto.
Qed.

Lemma list_names_named rows :
  Forall (fun r : analyse.Row => is_Some (r !! "name")) rows ->
  forall idx (t : @Terminal Connection),
  exists lines, list_names idx rows t = ((fst t, snd t ++ lines), Ok tt).
Proof.
  induction 1 as [|r rows [n Hn] _ IH]; intros idx t.
  - exists []. rewrite app_nil_r. destruct t; reflexivity.
  - cbn [list_names]. unfold mbind at 1 2, mlift, analyse.subscript.
    rewrite Hn. unfold print, show, mmodify at 1.
    match goal with
    | |- context [list_names (idx + 1) rows ?t'] =>
        destruct (IH (idx + 1) t') as [lines Hl]; rewrite Hl
    end.
    cbn [fst snd]. eexists. rewrite <- app_assoc. reflexivity.
Qed.

Lemma list_history_lines history :
  Forall (fun h : analyse.Row => is_Some (h !! "completed_at")) history ->
  forall (t : @Terminal Connection),
  list_history history t
  = ((fst t,
      snd t ++ map (fun h => Line (String.append "  - "
                                    (py_str (analyse.get h "completed_at" PNone))))
                   history),
     Ok tt).
Proof.
  induction 1 as [|h history [c Hc] _ IH]; intros t.
  - cbn. rewrite app_nil_r. destruct t; reflexivity.
  - cbn [list_history map]. unfold mbind at 1 2, mlift, analyse.subscript,
      analyse.get.
    rewrite Hc. unfold print, show, mmodify at 1. rewrite IH.
    cbn [fst snd]. rewrite <- app_assoc. reflexivity.
Qed.

Lemma list_history_db history :
  forall (t : @Terminal Connection),
  fst (fst (list_history history t)) = fst t.
Proof.
  induction history as [|h history IH]; intros t; [reflexivity|].
  cbn [list_history]. unfold mbind at 1 2, mlift.
  destruct (analyse.subscript h "completed_at") as [c|e]; [|reflexivity].
  unfold print, show, mmodify at 1. rewrite IH. reflexivity.
Qed.

(** X18. [view_history_flow] reads and never writes.  The number typed
    selects a row as in the other flows, the row counted from the end for
    zero and negative numbers.  The flow then asks the store for the last
    20 completions of that row's habit and calls no other method of the
    store; it prints "No completions logged yet." for an empty answer and
    otherwise a heading with the name of the habit and one line for each
    completion, in the order of the answer.  For any other input it asks
    for nothing. *)
Theorem view_history_flow_selection (u : user.User) (typed : string)
    (t : @Terminal Connection) (db1 : Database Connection)
    (rows : list analyse.Row) :
  fetch_habits_by_user (user.user_id u) (fst t) = (db1, Ok rows) ->
  rows <> [] ->
  Forall (fun r : analyse.Row => is_Some (r !! "name")) rows ->
  let len := Z.of_nat (List.length rows) in
  let after := view_history_flow u typed t in
  (forall n, int_of_str (str_strip typed) = Ok n -> 1 - len <= n <= len ->
     exists row name,
       rows !! Z.to_nat ((n - 1) mod len) = Some row
       /\ row !! "name" = Some name
       /\ forall id, row !! "id" = Some id ->
            let fetched := fetch_completions id 20 db1 in
            fst (fst after) = fst fetched
            /\ (forall e, snd fetched = Raise e -> snd after = Raise e)
            /\ (forall history, snd fetched = Ok history ->
                  Forall (fun h : analyse.Row => is_Some (h !! "completed_at"))
                         history ->
                  snd after = Ok tt
                  /\ exists lines,
                       snd (fst after)
                       = snd t ++ lines ++ history_lines name history))
  /\ ((forall n, int_of_str (str_strip typed) = Ok n ->
         ~ 1 - len <= n <= len) ->
      fst (fst after) = db1 /\ snd after = Ok tt
      /\ exists lines,
           snd (fst after) = snd t ++ lines ++ [Line "Invalid selection."]).
Proof.
  intros Hfetch Hne Hlist. cbv zeta.
  assert (Hstart : exists lines,
            view_history_flow u typed t
            = match int_of_str (str_strip typed) with
              | Raise (ValueError _) => print "Invalid selection."
              | Raise e => mraise e
              | Ok n =>
                  match list_index rows (n - 1) with
                  | None => print "Invalid selection."
                  | Some row =>
                      do id <- mlift (analyse.subscript row "id") ;;
                      do history <- on_db (fetch_completions id 20) ;;
                      match history with
                      | [] => print "No completions logged yet."
                      | _ =>
                          do name <- mlift (analyse.subscript row "name") ;;
                          run print (String.append "Completion history for '"
                                       (String.append (py_str name) "':")) ;;
                          list_history history
                      end
                  end
              end (db1, snd t ++ lines)).
  { unfold view_history_flow. unfold mbind at 1, on_db at 1.
    rewrite Hfetch. cbn [fst snd].
    destruct rows as [|r rows']; [contradiction|].
    destruct (list_names_named (r :: rows') Hlist 1 (db1, snd t))
      as [lines Hl].
    unfold mbind at 1. rewrite Hl. cbn [fst snd].
    unfold mbind at 1, _input, mbind at 1, show, mmodify, mret. cbn [fst snd].
    eexists. rewrite <- app_assoc. reflexivity. }
  destruct Hstart as [lines Hafter].
  set (after := view_history_flow u typed t) in *. clearbody after.
  pose proof (list_index_selects rows) as Hidx. cbv zeta in Hidx.
  split.
  - intros n Hn Hrange. rewrite Hn, (Hidx (n - 1) Hne) in Hafter.
    replace ((- Z.of_nat (List.length rows) <=? n - 1)
             && (n - 1 <? Z.of_nat (List.length rows))) with true in Hafter
      by (symmetry; apply andb_true_iff; split;
          [apply Z.leb_le | apply Z.ltb_lt]; lia).
    destruct (rows !! Z.to_nat ((n - 1) mod Z.of_nat (List.length rows)))
      as [row|] eqn:Hrow.
    + assert (Hrl : is_Some (row !! "name")).
      { rewrite Forall_forall in Hlist. apply Hlist.
        eapply list_elem_of_lookup_2. exact Hrow. }
      destruct Hrl as [nm Hnm].
      exists row, nm. split; [reflexivity|]. split; [exact Hnm|].
      intros id Hid. cbv zeta.
      unfold mbind at 1, mlift at 1, analyse.subscript at 1 in Hafter.
      rewrite Hid in Hafter. cbv beta iota in Hafter.
      unfold mbind at 1, on_db at 1 in Hafter. cbn [fst snd] in Hafter.
      destruct (fetch_completions id 20 db1) as [db2 [history|e]];
        cbn [fst snd] in *.
      * assert (Hcons : forall h0 history',
                  history = h0 :: history' ->
                  after = list_history history
                            (db2, (snd t ++ lines)
                                  ++ [Line (String.append "Completion history for '"
                                              (String.append (py_str nm) "':"))])).
        { intros h0 history' ->. subst after.
          unfold mbind at 1, mlift at 1, analyse.subscript at 1.
          rewrite Hnm. cbv beta iota.
          unfold mbind at 1, print at 1, show at 1, mmodify at 1.
          reflexivity. }
        split; [|split; [discriminate|]].
        -- destruct history as [|h0 history'];
             [subst after; reflexivity|].
           rewrite (Hcons h0 history' eq_refl). apply list_history_db.
        -- intros history0 [= <-] Hh.
           destruct history as [|h0 history'].
           ++ subst after. unfold print, show, mmodify. cbn [fst snd].
              split; [reflexivity|]. exists lines.
              rewrite <- app_assoc. reflexivity.
           ++ rewrite (Hcons h0 history' eq_refl), (list_history_lines _ Hh).
              cbn [fst snd]. split; [reflexivity|]. exists lines.
              rewrite <- !app_assoc. reflexivity.
      * subst after. split; [reflexivity|]. split; [|discriminate].
        intros e' [= <-]. reflexivity.
    + exfalso. apply lookup_ge_None in Hrow.
      assert (0 < Z.of_nat (List.length rows))
        by (destruct rows; [contradiction|cbn; lia]).
      pose proof (Z.mod_pos_bound (n - 1) (Z.of_nat (List.length rows))). lia.
  - intros Hout.
    assert (Hinv : (print "Invalid selection." : M (@Terminal Connection) unit)
                     (db1, snd t ++ lines)
                   = ((db1, snd t ++ lines ++ [Line "Invalid selection."]),
                      Ok tt)).
    { unfold print, show, mmodify. cbn [fst snd]. rewrite <- app_assoc.
      reflexivity. }
    destruct (int_of_str (str_strip typed)) as [n|e] eqn:Hn.
    + specialize (Hout n eq_refl). rewrite (Hidx (n - 1) Hne) in Hafter.
      replace ((- Z.of_nat (List.length rows) <=? n - 1)
               && (n - 1 <? Z.of_nat (List.length rows))) with false in Hafter.
      * rewrite Hinv in Hafter. subst after. cbn [fst snd]. eauto.
      * symmetry. apply andb_false_iff.
        destruct (Z.leb_spec (- Z.of_nat (List.length rows)) (n - 1));
          [right; apply Z.ltb_ge; lia | left; reflexivity].
    + destruct (int_of_str_raises _ _ Hn) as [msg ->].
      rewrite Hinv in Hafter. subst after. cbn [fst snd]. eauto.
Qed.

Lemma check_off_completed_on h od today :
  snd (check_off od today h) = Ok tt ->
  fst (check_off od today h)
  = completed_on (match od with Some d => d | None => today end)
      (streak (fst (check_off od today h))) h.
Proof.
  rewrite check_off_eq. cbv zeta.
  destruct (last_completed_date h); [|reflexivity].
  destruct (expected_value h) as [[e|]|err]; [|reflexivity|discriminate].
  destruct (date_eqb _ e); [reflexivity|].
  destruct (date_gtb _ e); reflexivity.
Qed.

Ltac insert_lookup :=
  repeat first [ rewrite lookup_insert
               | rewrite lookup_insert_ne by (first [discriminate | congruence]) ].

Ltac by_key k key :=
  destruct (decide (k = key)) as [->|?]; [insert_lookup; reflexivity|].

(** The row of a habit after a completion: three columns change. *)
Lemma stored_row_completed_on id user_id h d s :
  stored_row id user_id (completed_on d s h)
  = <["completed" := PInt 1]>
    (<["streak" := PInt s]>
    (<["last_completed_date" := PStr (date_isoformat d)]>
    (stored_row id user_id h))).
Proof.
  unfold stored_row, completed_on. cbn.
  apply map_eq. intros k.
  by_key k "id". by_key k "user_id". by_key k "name". by_key k "description".
  by_key k "goal". by_key k "start_date". by_key k "periodicity".
  by_key k "reminder". by_key k "completed". by_key k "streak".
  by_key k "last_completed_date".
  repeat (rewrite lookup_insert_ne by congruence). reflexivity.
Qed.

Context (fromisoformat : string -> result datetime).
Context (Hiso : reads_isoformat fromisoformat).

(** X17. [check_off_flow] stores what [Habit.check_off] computes.  When
    the row chosen holds a habit as the program builds it, the flow
    rehydrates that habit and checks it off today.  If [check_off] raises,
    the flow raises the same exception and writes nothing.  If it
    returns, the flow calls [update_habit_progress] with 1, the new streak
    and today's date, then [save_completion] with the time given; these
    three values are the progress columns of the row that holds the habit
    after the check-off. *)
Theorem check_off_flow_persists (u : user.User) (typed : string)
    (today : date) (now_iso : string) (t : @Terminal Connection)
    (db1 : Database Connection) (rows : list analyse.Row) (n : Z)
    (id user_id : pyval) (h : Habit) :
  fetch_habits_by_user (user.user_id u) (fst t) = (db1, Ok rows) ->
  Forall listable rows ->
  int_of_str (str_strip typed) = Ok n ->
  list_index rows (n - 1) = Some (stored_row id user_id h) ->
  storable h ->
  let after := check_off_flow fromisoformat u typed today now_iso t in
  let checked := check_off (Some today) today h in
  (forall e, snd checked = Raise e ->
     fst (fst after) = db1 /\ snd after = Raise e)
  /\ (snd checked = Ok tt ->
      let stored :=
        (run update_habit_progress id 1 (streak (fst checked))
               (date_isoformat today) ;;
         save_completion id now_iso) db1 in
      fst (fst after) = fst stored
      /\ snd after = (try done <~ snd stored ;; Ok (Some tt))
      /\ stored_row id user_id (fst checked)
         = <["completed" := PInt 1]>
           (<["streak" := PInt (streak (fst checked))]>
           (<["last_completed_date" := PStr (date_isoformat today)]>
           (stored_row id user_id h)))).
Proof.
  intros Hfetch Hlist Hn Hrow Hst. cbv zeta.
  assert (Hne : rows <> []).
  { intros ->. unfold list_index in Hrow.
    repeat match type of Hrow with
           | context [if ?b then _ else _] => destruct b
           end; discriminate. }
  assert (Hid : analyse.subscript (stored_row id user_id h) "id" = Ok id).
  { unfold analyse.subscript.
    rewrite (proj1 (stored_row_lookup id user_id h)). reflexivity. }
  assert (Hstart : exists lines,
            check_off_flow fromisoformat u typed today now_iso t
            = (do habit <- mlift (Ok h) ;;
               let '(habit, checked) := check_off (Some today) today habit in
               run mlift checked ;;
               do id1 <- mlift (analyse.subscript (stored_row id user_id h) "id") ;;
               do last <- mlift
                 (match last_completed_date habit with
                  | Some d => Ok (date_isoformat d)
                  | None =>
                      Raise (AttributeError
                               "'NoneType' object has no attribute 'isoformat'")
                  end) ;;
               run on_db (update_habit_progress id1
                            (if completed habit then 1 else 0)
                            (streak habit) last) ;;
               do id2 <- mlift (analyse.subscript (stored_row id user_id h) "id") ;;
               run on_db (save_completion id2 now_iso) ;;
               run print (String.append "Checked off '"
                            (String.append (name habit)
                               (String.append "'. Current streak: "
                                  (str_of_int (streak habit))))) ;;
               run print (String.append "Completion logged at " now_iso) ;;
               mret (Some tt)) (db1, snd t ++ lines)).
  { unfold check_off_flow. unfold mbind at 1, on_db at 1.
    rewrite Hfetch. cbn [fst snd].
    destruct rows as [|r rows']; [contradiction|].
    unfold mbind at 1. unfold print at 1, show at 1, mmodify at 1.
    cbn [fst snd].
    unfold mbind at 1.
    match goal with
    | |- context [list_rows 1 (r :: rows') ?t'] =>
        destruct (list_rows_listable (r :: rows') Hlist 1 t') as [lines Hl]
    end.
    rewrite Hl. cbn [fst snd].
    unfold mbind at 1, _input, mbind at 1, show, mmodify, mret. cbn [fst snd].
    rewrite Hn, Hrow, (rehydrate_storable fromisoformat Hiso id user_id h Hst).
    eexists. rewrite <- !app_assoc. reflexivity. }
  destruct Hstart as [lines Hflow].
  set (after := check_off_flow fromisoformat u typed today now_iso t) in *.
  clearbody after. rename Hflow into Hafter.
  unfold mbind at 1, mlift at 1 in Hafter. cbv beta iota in Hafter.
  pose proof (check_off_returns h (fst (check_off (Some today) today h))
                (Some today) today) as Hret.
  pose proof (check_off_completed_on h (Some today) today) as Hon.
  destruct (check_off (Some today) today h) as [h' [[]|e]] eqn:Hc;
    cbn [fst snd] in *.
  - split; [discriminate|]. intros _.
    destruct (Hret eq_refl) as [Hcomp Hlast].
    split; [|split; [|rewrite (Hon eq_refl) at 1; apply stored_row_completed_on]].
    + subst after. cbv beta iota.
      unfold mbind, mlift, on_db, print, show, mmodify, mret.
      rewrite Hid, Hlast, Hcomp. cbv beta iota. cbn [fst snd].
      destruct (update_habit_progress id 1 (streak h') (date_isoformat today) db1)
        as [db2 [[]|e2]]; cbn [fst snd]; [|reflexivity].
      destruct (save_completion id now_iso db2) as [db3 [[]|e3]]; reflexivity.
    + subst after. cbv beta iota.
      unfold mbind, mlift, on_db, print, show, mmodify, mret.
      rewrite Hid, Hlast, Hcomp. cbv beta iota. cbn [fst snd].
      destruct (update_habit_progress id 1 (streak h') (date_isoformat today) db1)
        as [db2 [[]|e2]]; cbn [fst snd rbind]; [|reflexivity].
      destruct (save_completion id now_iso db2) as [db3 [[]|e3]]; reflexivity.
  - split; [|discriminate]. intros e' [= <-]. subst after.
    cbv beta iota. unfold mbind, mlift. cbn [fst snd]. split; reflexivity.
Qed.

End Flows.

(** With two habits stored, typing "0" deletes the second one. *)
Lemma delete_habit_flow_selection_witness :
  fst (fst (delete_habit_flow (H0 := recording_store two_rows) some_user "0"
              (fresh_database, [])))
  = fst (noted "delete_habit" [PInt 2] fresh_database).
Proof.
  destruct (delete_habit_flow_selection (H0 := recording_store two_rows)
              some_user "0" (fresh_database, []) fresh_database two_rows
              eq_refl ltac:(discriminate)) as [Hsel _].
  { constructor; [apply stored_row_listable|].
    constructor; [apply stored_row_listable|]. constructor. }
  destruct (Hsel 0 eq_refl ltac:(cbn; lia)) as (row & Hrow & Hdel).
  cbn in Hrow. injection Hrow as <-.
  apply (Hdel (PInt 2)).
  apply (proj1 (stored_row_lookup (PInt 2) (PInt 1) monthly_habit)).
Defined.

(** Checking off the first of two stored habits: the store is told the
    streak 1 and the date of today. *)
Lemma check_off_flow_persists_witness :
  fst (fst (check_off_flow (H0 := recording_store two_rows)
              (fun s => strptime s fmt_Ymd) some_user "1" (mkdate 2025 1 6)
              "2025-01-06T09:00:00" (fresh_database, [])))
  = fst ((run noted "update_habit_progress"
                [PInt 1; PInt 1; PInt 1; PStr "2025-01-06"] ;;
          noted "save_completion" [PInt 1; PStr "2025-01-06T09:00:00"])
           fresh_database).
Proof.
  destruct (check_off_flow_persists (H0 := recording_store two_rows)
              (fun s => strptime s fmt_Ymd) strptime_date_isoformat
              some_user "1" (mkdate 2025 1 6) "2025-01-06T09:00:00"
              (fresh_database, []) fresh_database two_rows 1
              (PInt 1) (PInt 1) fresh_habit eq_refl) as [_ Hok].
  - constructor; [apply stored_row_listable|].
    constructor; [apply stored_row_listable|]. constructor.
  - reflexivity.
  - reflexivity.
  - apply (from_form_storable "Drink Water" "8 glasses" "Hydration"
             "2025-01-06" "daily" (Some "09:00")). reflexivity.
  - destruct (Hok eq_refl) as (Hdb & _ & _). exact Hdb.
Defined.

(** For the instance: [strptime] with ["%Y-%m-%d"] is one function that
    reads what [date.isoformat] writes. *)
Lemma rehydrate_stored_row_witness :
  _rehydrate_habit_from_row (fun s => strptime s fmt_Ymd)
    (stored_row (PInt 1) (PInt 1)
       (check_off_all [mkdate 2025 1 6; mkdate 2025 1 7] (mkdate 2025 1 7)
          fresh_habit))
  = Some (Ok (check_off_all [mkdate 2025 1 6; mkdate 2025 1 7]
                (mkdate 2025 1 7) fresh_habit)).
Proof.
  apply (rehydrate_stored_row (fun s => strptime s fmt_Ymd)
           strptime_date_isoformat
           "Drink Water" "8 glasses" "Hydration" "2025-01-06" "daily"
           (Some "09:00") fresh_habit
           [mkdate 2025 1 6; mkdate 2025 1 7] (mkdate 2025 1 7)
           some_user (PInt 1)).
  - reflexivity.
  - repeat constructor.
  - reflexivity.
Defined.

(** With two habits stored, typing "0" shows the history of the second
    one. *)
Lemma view_history_flow_selection_witness :
  snd (view_history_flow (H0 := recording_store two_rows) some_user "0"
         (fresh_database, [])) = Ok tt
  /\ snd (fst (view_history_flow (H0 := recording_store two_rows) some_user "0"
                 (fresh_database, [])))
     = [ Line "1. Drink Water"; Line "2. Budget Review"; Prompt "> ";
         Line "Completion history for 'Budget Review':";
         Line "  - 2025-01-31T18:00:00" ].
Proof.
  destruct (view_history_flow_selection (H0 := recording_store two_rows)
              some_user "0" (fresh_database, []) fresh_database two_rows
              eq_refl ltac:(discriminate)) as [Hsel _].
  { constructor; [apply stored_row_listable|].
    constructor; [apply stored_row_listable|]. constructor. }
  destruct (Hsel 0 eq_refl ltac:(cbn; lia)) as (row & name & Hrow & _ & Hid).
  cbn in Hrow. injection Hrow as <-.
  destruct (Hid (PInt 2)
              (proj1 (stored_row_lookup (PInt 2) (PInt 1) monthly_habit)))
    as (_ & _ & Hhistory).
  destruct (Hhistory _ eq_refl) as [Hok _].
  { constructor; [|constructor]. rewrite lookup_singleton. eauto. }
  split; [exact Hok|reflexivity].
Defined.

End CliFacts.
